(** * PolyMaster: the market scoring, filtering and trade-decision core

    A shallow embedding of the decision core of the trading-assistant
    backend, class by class:

    - [Polymarket]         backend/agents/data/polymarket/client.py
    - [PolymarketService]  backend/services/polymarket_service.py
    - [AIService]          backend/services/ai_service.py
    - [TradingService]     backend/services/trading_service.py
    - [AIListings]         backend/services/ai_service.py (the listings)
    - [Endpoints]          backend/api/v1/endpoints/markets.py, trading.py
    - [UserTradingService] backend/services/user_trading_service.py

    Modelling conventions.
    - A Python [float] that the program reads, stores or compares is given
      by a rational ([Q]): the decimal as it is written, or the exact value
      of the number.  The score of a market and the edge metrics, whose
      values and order depend on the rounding, are computed in binary64 as
      in the program: [Py.float_of] takes the rational to the nearest
      binary64 number, as [float()] and a literal do, and sums,
      differences, products, quotients and comparisons are those of IEEE
      754, on the primitive floats of Rocq.  The other arithmetic on floats
      (the normalisation of a probability, the amounts of a trade) is that
      of the rationals.
    - A Python [str] is a Rocq [string] whose characters are the code points
      below 256.
    - A call that may raise is a [result]; [try]/[except] is a [match] on it.
    - Network, chain and language-model collaborators are oracles, given as
      section variables or as fields of an environment record.
    - A [datetime] is a number of microseconds, together with a flag telling
      whether it carries a time zone.
    - [list.sort] is its specification, a stable sort. *)

From Stdlib Require Import ZArith QArith Qabs Qminmax String Ascii List Lia.
From Stdlib Require Import Sorted Permutation.
From Stdlib Require Import Floats.
From stdpp Require Import base option list gmap strings pretty.

Open Scope string_scope.

(* A decimal in [float_scope] stands for the nearest binary64 number, as a
   literal of Python does. *)
Set Warnings "-inexact-float".

(** ** Python prelude *)

Module Py.

(** Exceptions that the modelled code raises or lets through. *)
Inductive exn : Type :=
| ValueError (msg : string)
| IndexError
| TypeError
| TimeoutException
| OtherError (msg : string).

Inductive result (A : Type) : Type :=
| Ok (a : A)
| Raise (e : exn).
Arguments Ok {A} a.
Arguments Raise {A} e.

Definition is_ok {A} (r : result A) : bool :=
  match r with Ok _ => true | Raise _ => false end.

(** [x < y] on floats. *)
Definition Qltb (x y : Q) : bool := negb (Qle_bool y x).

Definition min (a b : Q) : Q := if Qltb b a then b else a.

(** [str.lower()] on the code points below 256: A-Z and the upper-case
    Latin-1 letters (192-222 but the multiplication sign 215) move up
    by 32. *)
Definition lower_ascii (c : ascii) : ascii :=
  let n := nat_of_ascii c in
  if ((65 <=? n)%nat && (n <=? 90)%nat)
     || ((192 <=? n)%nat && (n <=? 222)%nat && negb (n =? 215)%nat)
  then ascii_of_nat (n + 32) else c.

Fixpoint lower (s : string) : string :=
  match s with
  | EmptyString => EmptyString
  | String c s' => String (lower_ascii c) (lower s')
  end.

(** [kw in s]: substring test. *)
Fixpoint contains (kw s : string) : bool :=
  String.prefix kw s ||
  match s with
  | EmptyString => false
  | String _ s' => contains kw s'
  end.

(** [any(keyword in question for keyword in keywords)]. *)
Definition any_in (keywords : list string) (question : string) : bool :=
  existsb (fun keyword => contains keyword question) keywords.

(** [s.split(',')]: never empty, one more piece than there are commas. *)
Fixpoint split_comma (s : string) : list string :=
  match s with
  | EmptyString => [EmptyString]
  | String c s' =>
      if Ascii.eqb c "," then EmptyString :: split_comma s'
      else match split_comma s' with
           | piece :: pieces => String c piece :: pieces
           | [] => [String c EmptyString]
           end
  end.

(** [l[i]] for a non-negative constant [i]. *)
Definition subscript {A} (l : list A) (i : nat) : result A :=
  match nth_error l i with
  | Some x => Ok x
  | None => Raise IndexError
  end.

(** [l[:limit]], also for a negative [limit]. *)
Definition slice_to {A} (l : list A) (limit : Z) : list A :=
  if (0 <=? limit)%Z then firstn (Z.to_nat limit) l
  else firstn (List.length l - Z.to_nat (- limit)) l.

(** [sorted(l, key=key, reverse=True)] and [l.sort(key=key, reverse=True)]
    on float keys: stable, computed by insertion. *)
Fixpoint insert_desc {A} (key : A -> Q) (x : A) (l : list A) : list A :=
  match l with
  | [] => [x]
  | y :: l' =>
      if Qltb (key x) (key y) then y :: insert_desc key x l' else x :: y :: l'
  end.

Definition sorted_desc {A} (key : A -> Q) (l : list A) : list A :=
  foldr (insert_desc key) [] l.

(** [l.sort(key=key)] on string keys: ascending by code points, stable. *)
Fixpoint insert_asc {A} (key : A -> string) (x : A) (l : list A) : list A :=
  match l with
  | [] => [x]
  | y :: l' =>
      if String.ltb (key y) (key x) then y :: insert_asc key x l'
      else x :: y :: l'
  end.

Definition sorted_asc {A} (key : A -> string) (l : list A) : list A :=
  foldr (insert_asc key) [] l.

(** *** Floats *)

(** The binary64 number nearest to an integer. *)
Definition float_of_Z (n : Z) : PrimFloat.float :=
  SF2Prim (binary_normalize prec emax n 0 false).

(** [float] of a decimal, and a float literal: the binary64 number nearest
    to the rational, as the correctly rounded quotient of numerator and
    denominator (both below 2^53 for the decimals of this development). *)
Definition float_of (q : Q) : PrimFloat.float :=
  PrimFloat.div (float_of_Z (Qnum q)) (float_of_Z (Zpos (Qden q))).

(** [max(a, b)] on floats: the second argument when it is greater. *)
Definition fmax (a b : PrimFloat.float) : PrimFloat.float :=
  if PrimFloat.ltb a b then b else a.

(** *** Code that reads and writes a state and may raise *)

Section Monad.
Context {S : Type}.

Definition M (A : Type) : Type := S -> result A * S.

Definition ret {A} (a : A) : M A := fun s => (Ok a, s).

Definition raise {A} (e : exn) : M A := fun s => (Raise e, s).

Definition lift {A} (r : result A) : M A := fun s => (r, s).

Definition bind {A B} (c : M A) (k : A -> M B) : M B :=
  fun s =>
    match c s with
    | (Ok a, s') => k a s'
    | (Raise e, s') => (Raise e, s')
    end.

(** [try: c except Exception as e: h e]. *)
Definition try_except {A} (c : M A) (h : exn -> M A) : M A :=
  fun s =>
    match c s with
    | (Ok a, s') => (Ok a, s')
    | (Raise e, s') => h e s'
    end.

(** [try: c finally: f]. *)
Definition try_finally {A} (c : M A) (f : S -> S) : M A :=
  fun s => let (r, s') := c s in (r, f s').

End Monad.

Arguments M : clear implicits.

End Py.

Notation "x <- c ;; k" := (Py.bind c (fun x => k))
  (at level 100, c at next level, right associativity).

Import Py.

(** ** backend/services/ai_service.py *)

Module AIService.
Local Open Scope Q_scope.

Inductive Confidence : Type := HIGH | MEDIUM | LOW.
Inductive Recommendation : Type := BUY | SELL.

(** The dictionary returned by [calculate_market_edge] (its text fields
    are left out). *)
Record EdgeResult : Type := {
  ai_probability : Q;
  market_price : Q;
  absolute_edge : float;
  relative_edge : float;
  kelly_size : float;
  recommendation : Recommendation;
  confidence : Confidence
}.


(** "Calculate edge metrics" and the returned dictionary (lines 786-805).
    The two arguments are the numbers as written; the metrics are computed
    on their floats, in binary64. *)
Definition edge_metrics (ai_probability current_market_price : Q) : EdgeResult :=
  let p := Py.float_of ai_probability in
  let m := Py.float_of current_market_price in
  let absolute_edge := PrimFloat.abs (p - m)%float in
  let relative_edge :=
    if (0 <? m)%float
    then ((absolute_edge / m) * 100)%float else 0%float in
  let kelly_size := (absolute_edge * 2)%float in
  {| ai_probability := ai_probability;
     market_price := current_market_price;
     absolute_edge := absolute_edge;
     relative_edge := relative_edge;
     kelly_size := kelly_size;
     recommendation := if (m <? p)%float then BUY else SELL;
     confidence :=
       if (0.1 <? absolute_edge)%float then HIGH
       else if (0.05 <? absolute_edge)%float then MEDIUM else LOW |}.

Section calculate_market_edge.
(** [re.search(r'likelihood of (\d*\.?\d+)', text)] followed by [float]
    of the group; [None] when the pattern does not occur. *)
Variable search_likelihood : string -> option Q.

End calculate_market_edge.

End AIService.

(** ** backend/agents/data/polymarket/client.py *)

Module Polymarket.
Local Open Scope Q_scope.

(** [SimpleMarket].  [rewardsMinSize] is [None] when the attribute is
    missing; [trade_side] is [market.trade.get('side')], [None] when the
    market carries no [trade]. *)
Record SimpleMarket : Type := {
  id : Z;
  question : string;
  end_ : string;
  description : string;
  active : bool;
  funded : bool;
  rewardsMinSize : option Q;
  rewardsMaxSpread : Q;
  spread : Q;
  outcomes : string;
  outcome_prices : string;
  clob_token_ids : string;
  trade_side : option string
}.

Definition set_clob_token_ids (token_id : string) (m : SimpleMarket) : SimpleMarket :=
  {| id := id m; question := question m; end_ := end_ m;
     description := description m; active := active m; funded := funded m;
     rewardsMinSize := rewardsMinSize m; rewardsMaxSpread := rewardsMaxSpread m;
     spread := spread m; outcomes := outcomes m;
     outcome_prices := outcome_prices m; clob_token_ids := token_id;
     trade_side := trade_side m |}.

(** [SimpleEvent]: [markets] is a comma-separated list of market ids. *)
Record SimpleEvent : Type := {
  event_id : string;
  title : string;
  event_description : string;
  markets : string
}.

(** *** detect_category *)

Definition politics_keywords : list string :=
    [ "election"; "president"; "presidential"; "vote"; "voting"; "congress";
      "senate"; "senator"; "minister"; "government"; "governor"; "mayor";
      "politician"; "political"; "candidate"; "fed"; "federal"; "rate";
      "interest"; "chancellor"; "prime minister"; "biden"; "trump";
      "harris"; "desantis"; "republican"; "democrat"; "gop"; "party";
      "campaign"; "debate"; "poll"; "electoral"; "impeach"; "cabinet";
      "white house"; "policy"; "law"; "legislation"; "supreme court";
      "justice"; "scotus"; "midterm"; "2024"; "2025"; "inauguration" ].

Definition sports_keywords : list string :=
    [ "nba"; "nfl"; "mlb"; "nhl"; "soccer"; "football"; "basketball";
      "baseball"; "hockey"; "league"; "cup"; "championship"; "playoffs";
      "win"; "wins"; "relegated"; "super bowl"; "world cup"; "olympics";
      "fifa"; "uefa"; "champions league"; "epl"; "premier league";
      "la liga"; "bundesliga"; "serie a"; "mvp"; "rookie"; "draft"; "trade";
      "player"; "team"; "coach"; "manager"; "season"; "finals"; "semifinal";
      "quarterback"; "goal"; "touchdown"; "home run"; "points"; "score";
      "games"; "match"; "tournament"; "tennis"; "golf"; "pga"; "masters";
      "wimbledon"; "open"; "formula 1"; "f1"; "racing" ].

Definition crypto_keywords : list string :=
    [ "bitcoin"; "btc"; "ethereum"; "eth"; "crypto"; "cryptocurrency";
      "token"; "blockchain"; "opensea"; "nft"; "defi"; "solana"; "sol";
      "cardano"; "ada"; "dogecoin"; "doge"; "binance"; "coinbase";
      "exchange"; "wallet"; "mining"; "hash"; "altcoin"; "satoshi"; "web3";
      "dao"; "smart contract"; "yield"; "staking"; "liquidity"; "usd";
      "usdc"; "price"; "$100"; "$50"; "$1000"; "coin"; "market cap";
      "volume"; "trading" ].

Definition entertainment_keywords : list string :=
    [ "movie"; "film"; "actor"; "actress"; "director"; "award"; "oscar";
      "academy"; "golden globe"; "emmy"; "grammy"; "song"; "album";
      "artist"; "singer"; "show"; "tv"; "television"; "streaming";
      "netflix"; "disney"; "marvel"; "star wars"; "hollywood"; "box office";
      "celebrity"; "fame"; "concert"; "tour"; "music"; "video"; "youtube";
      "tiktok"; "instagram"; "social media"; "influencer"; "podcast";
      "series"; "season"; "episode" ].

Definition tech_keywords : list string :=
    [ "ai"; "artificial intelligence"; "openai"; "chatgpt"; "gpt";
      "technology"; "software"; "app"; "application"; "launch"; "google";
      "apple"; "microsoft"; "meta"; "facebook"; "amazon"; "tesla";
      "elon musk"; "twitter"; "x.com"; "iphone"; "android"; "ios";
      "startup"; "ipo"; "stock"; "valuation"; "revenue"; "company"; "ceo";
      "tech"; "computer"; "robot"; "automation"; "cloud"; "data";
      "internet"; "cyber"; "security" ].

Definition economy_keywords : list string :=
    [ "economy"; "economic"; "recession"; "inflation"; "gdp";
      "unemployment"; "jobs"; "market"; "stock market"; "dow"; "nasdaq";
      "s&p"; "sp500"; "bear market"; "bull market"; "interest rate";
      "federal reserve"; "bank"; "banking"; "finance"; "financial";
      "dollar"; "euro"; "currency"; "trade"; "tariff"; "debt"; "deficit";
      "budget" ].

Definition climate_keywords : list string :=
    [ "climate"; "global warming"; "temperature"; "weather"; "hurricane";
      "storm"; "flood"; "drought"; "wildfire"; "carbon"; "emissions";
      "renewable"; "solar"; "wind"; "electric"; "ev"; "environment";
      "green"; "sustainability" ].

Definition health_keywords : list string :=
    [ "health"; "medical"; "disease"; "virus"; "vaccine"; "covid";
      "pandemic"; "hospital"; "doctor"; "medicine"; "drug"; "fda";
      "approval"; "treatment"; "cure"; "clinical"; "trial"; "study";
      "research" ].

Definition detect_category (question : string) : string :=
  let question := lower question in
  if any_in politics_keywords question then "politics"
  else if any_in sports_keywords question then "sports"
  else if any_in crypto_keywords question then "crypto"
  else if any_in tech_keywords question then "tech"
  else if any_in entertainment_keywords question then "entertainment"
  else if any_in economy_keywords question then "economy"
  else if any_in climate_keywords question then "climate"
  else if any_in health_keywords question then "health"
  else "other".

(** *** filter_markets_for_trading *)

(** A [datetime]: microseconds on the time line, and whether the value
    carries a time zone. *)
Record datetime : Type := { aware : bool; micros : Z }.

Definition microseconds_per_day : Z := 86400000000.

(** [(end_date - current_time).days]: the floor of the difference in days.
    Subtracting a naive from an aware value raises [TypeError]. *)
Definition days_between (end_date current_time : datetime) : result Z :=
  if Bool.eqb (aware end_date) (aware current_time)
  then Ok ((micros end_date - micros current_time) / microseconds_per_day)%Z
  else Raise TypeError.

(** [end_date > current_time], with the same [TypeError]. *)
Definition later_than (end_date current_time : datetime) : result bool :=
  if Bool.eqb (aware end_date) (aware current_time)
  then Ok (micros current_time <? micros end_date)%Z
  else Raise TypeError.

Definition max_per_category : nat := 8.
Definition max_featured : nat := 50.

(** Truth value of [market.rewardsMinSize]. *)
Definition truthy (x : option Q) : bool :=
  match x with
  | Some q => negb (Qeq_bool q 0)
  | None => false
  end.

Section filter_markets_for_trading.
(** [datetime.fromisoformat(s.replace('Z', '+00:00'))]. *)
Variable fromisoformat : string -> result datetime.
(** [datetime.now(timezone.utc)], in microseconds. *)
Variable now : Z.

Definition current_time : datetime := {| aware := true; micros := now |}.

(** The body of the scoring loop for one active market: the value of
    [score] when the pair is appended.  The spread factor is computed on
    the float of the spread, and the sum is accumulated in binary64 (the
    integers the program adds are exact in it). *)
Definition score_market (market : SimpleMarket) : float :=
  let spread := Py.float_of (spread market) in
  let score := 0%float in
  (* Factor 1: spread quality *)
  let score :=
    if (0 <? spread)%float
    then (score + Py.fmax 0 (30 - spread * 100))%float
    else score in
  (* Factor 2: time sensitivity *)
  let score :=
    match fromisoformat (end_ market) with
    | Ok end_date =>
        match days_between end_date current_time with
        | Ok days_remaining =>
            if (0 <? days_remaining)%Z then
              if ((1 <=? days_remaining) && (days_remaining <=? 30))%Z
              then (score + 25)%float
              else if ((31 <=? days_remaining) && (days_remaining <=? 90))%Z
              then (score + 20)%float
              else if ((91 <=? days_remaining) && (days_remaining <=? 180))%Z
              then (score + 15)%float
              else (score + 5)%float
            else score
        | Raise _ => (score + 10)%float
        end
    | Raise _ => (score + 10)%float
    end in
  (* Factor 3: funded *)
  let score := if funded market then (score + 20)%float else score in
  (* Factor 4: question quality *)
  let question_length := String.length (question market) in
  let score :=
    if (100 <? question_length)%nat then (score + 15)%float
    else if (50 <? question_length)%nat then (score + 10)%float
    else (score + 5)%float in
  (* Factor 5: minimum size requirements *)
  let score :=
    if truthy (rewardsMinSize market) then
      let size := default 0 (rewardsMinSize market) in
      if Qle_bool 100 size then (score + 10)%float
      else if Qle_bool 50 size then (score + 7)%float
      else (score + 3)%float
    else score in
  score.

(** The scoring loop: inactive markets are passed over. *)
Fixpoint score_markets (markets : list SimpleMarket)
  : list (SimpleMarket * float) :=
  match markets with
  | [] => []
  | market :: rest =>
      if active market
      then (market, score_market market) :: score_markets rest
      else score_markets rest
  end.

(** [scored_markets.sort(key=lambda x: x[1], reverse=True)].  The sort is
    stable, also when reversed, and a stable sort has one result; it is
    computed here by insertion. *)
Fixpoint insert_by_score (x : SimpleMarket * float)
    (l : list (SimpleMarket * float)) : list (SimpleMarket * float) :=
  match l with
  | [] => [x]
  | y :: l' =>
      if (snd x <? snd y)%float then y :: insert_by_score x l'
      else x :: y :: l'
  end.

Definition sort_by_score (l : list (SimpleMarket * float))
  : list (SimpleMarket * float) :=
  foldr insert_by_score [] l.

(** The selection loop, from the state it has reached. *)
Fixpoint select_diverse (scored_markets : list (SimpleMarket * float))
    (featured_markets : list SimpleMarket) (category_counts : gmap string nat)
  : list SimpleMarket :=
  match scored_markets with
  | [] => featured_markets
  | (market, _) :: rest =>
      let category := detect_category (question market) in
      if (default 0%nat (category_counts !! category) <? max_per_category)%nat then
        let featured_markets := (featured_markets ++ [market])%list in
        let category_counts :=
          <[category := (default 0%nat (category_counts !! category) + 1)%nat]>
            category_counts in
        if (max_featured <=? List.length featured_markets)%nat
        then featured_markets
        else select_diverse rest featured_markets category_counts
      else select_diverse rest featured_markets category_counts
  end.

Definition filter_markets_for_trading (markets : list SimpleMarket)
  : list SimpleMarket :=
  let scored_markets := sort_by_score (score_markets markets) in
  select_diverse scored_markets [] ∅.

End filter_markets_for_trading.

(** *** The upstream feed *)

(** What the feed is asked: the market listing, one market by settlement
    token, the event listing. *)
Inductive Query : Type :=
| MarketsQuery
| TokenQuery (token_id : string)
| EventsQuery.

(** A response that arrived: its status and [res.json()], which raises on
    a body that is not JSON. *)
Record Response (RawMarket : Type) : Type := {
  status_code : Z;
  json : result (list RawMarket)
}.
Arguments status_code {RawMarket} _.
Arguments json {RawMarket} _.

(** The feed and the readings of its loosely-typed records.  [httpx_get]
    raises on a timeout or a connection error. *)
Record Feed (RawMarket : Type) : Type := {
  httpx_get : Query -> result (Response RawMarket);
  (* the dictionary that map_api_to_market builds from a record, its int
     and float conversions included, and the SimpleMarket constructor *)
  read_market : RawMarket -> result SimpleMarket;
  (* float(market.get("volume", 0)) *)
  volume_of : RawMarket -> result Q;
  (* the SimpleEvent constructor on event_data *)
  event_of : RawMarket -> result SimpleEvent
}.
Arguments httpx_get {RawMarket} _ _.
Arguments read_market {RawMarket} _ _.
Arguments volume_of {RawMarket} _ _.
Arguments event_of {RawMarket} _ _.

Section catalog.
Context {RawMarket : Type}.
Variable feed : Feed RawMarket.
Variable fromisoformat : string -> result datetime.
Variable now : Z.

Definition map_api_to_market (market : RawMarket) (token_id : string)
  : result SimpleMarket :=
  match read_market feed market with
  | Raise e => Raise e
  | Ok m =>
      Ok (if String.eqb token_id "" then m else set_clob_token_ids token_id m)
  end.

(** The loop of [get_all_markets] over the records of a good response. *)
Fixpoint collect_markets (data : list RawMarket) : list SimpleMarket :=
  match data with
  | [] => []
  | market :: rest =>
      match map_api_to_market market "" with
      | Ok market_data =>
          let end_date_str := end_ market_data in
          if String.eqb end_date_str "" then market_data :: collect_markets rest
          else
            match fromisoformat end_date_str with
            | Ok end_date =>
                match later_than end_date (current_time now) with
                | Ok true => market_data :: collect_markets rest
                | Ok false => collect_markets rest
                | Raise _ => market_data :: collect_markets rest
                end
            | Raise _ => market_data :: collect_markets rest
            end
      | Raise _ => collect_markets rest
      end
  end.

(** [get_all_markets]: the request is made outside any [try]. *)
Definition get_all_markets : result (list SimpleMarket) :=
  match httpx_get feed MarketsQuery with
  | Raise e => Raise e
  | Ok res =>
      if (status_code res =? 200)%Z then
        match json res with
        | Raise e => Raise e
        | Ok data => Ok (collect_markets data)
        end
      else Ok []
  end.

(** [get_market]: [None] is the implicit return after a status other
    than 200. *)
Definition get_market (token_id : string) : result (option SimpleMarket) :=
  match httpx_get feed (TokenQuery token_id) with
  | Raise e => Raise e
  | Ok res =>
      if (status_code res =? 200)%Z then
        match json res with
        | Raise e => Raise e
        | Ok data =>
            match subscript data 0 with
            | Raise e => Raise e
            | Ok market =>
                match map_api_to_market market token_id with
                | Raise e => Raise e
                | Ok m => Ok (Some m)
                end
            end
        end
      else Ok None
  end.

(** The loop of [get_all_events]: markets above 10000 in volume become
    events. *)
Fixpoint collect_events (markets : list RawMarket) : result (list SimpleEvent) :=
  match markets with
  | [] => Ok []
  | market :: rest =>
      match volume_of feed market with
      | Raise e => Raise e
      | Ok volume =>
          if Qltb 10000 volume then
            match event_of feed market with
            | Raise e => Raise e
            | Ok event =>
                match collect_events rest with
                | Raise e => Raise e
                | Ok events => Ok (event :: events)
                end
            end
          else collect_events rest
      end
  end.

(** [get_all_events]: the whole body sits in [try ... except: return []]. *)
Definition get_all_events : list SimpleEvent :=
  let body : result (list SimpleEvent) :=
    match httpx_get feed EventsQuery with
    | Raise e => Raise e
    | Ok res =>
        if (status_code res =? 200)%Z then
          match json res with
          | Raise e => Raise e
          | Ok [] => Ok []
          | Ok markets => collect_events markets
          end
        else Ok []
    end in
  match body with
  | Ok events => events
  | Raise _ => []
  end.

End catalog.

(** *** Orders *)

Record OrderArgs : Type := {
  token_id : string;
  size : Q;
  price : Q;
  side : string
}.

(** The venue's operations, as the client calls them. *)
Inductive GatewayCall : Type :=
| GetPrice (token_id side : string)
| GetOrderBook (token_id : string)
| CreateOrder (order_args : OrderArgs)
| PostOrder (signed_order : OrderArgs).

(** [ClobClient]: what each operation answers. [get_price] is followed
    by [float(resp.get("price", 0))]. *)
Record ClobClient : Type := {
  get_price : string -> string -> result Q;
  get_order_book : string -> result unit;
  create_order : OrderArgs -> result OrderArgs;
  post_order : OrderArgs -> result string
}.

(** The state the modelled code changes: the calls the venue has
    received and the trader's [dry_run] attribute. *)
Record World : Type := {
  gateway_log : list GatewayCall;
  trader_dry_run : bool
}.

(** A [Polymarket] object: its [dry_run] attribute, its client ([None] in
    demo mode), and the chain's [balanceOf] for its wallet, after
    [int(token_id)]. *)
Record Self : Type := {
  dry_run : bool;
  client : option ClobClient;
  balanceOf : string -> result Z
}.

Inductive OrderResult : Type :=
| Posted (resp : string)
| Simulated.

(** A call to the venue: logged, then answered. *)
Definition call {A} (c : GatewayCall) (answer : result A) : M World A :=
  fun w =>
    (answer,
     {| gateway_log := (gateway_log w ++ [c])%list;
        trader_dry_run := trader_dry_run w |}).

Section orders.
Variable self : Self.
(** [ast.literal_eval] of the token ids, read as a sequence. *)
Variable literal_eval : string -> result (list string).

Definition get_token_balance (token_id : string) : Q :=
  match balanceOf self token_id with
  | Ok balance => inject_Z balance
  | Raise _ => 0
  end.

Definition BUY : string := "BUY".

Definition execute_market_order (market : SimpleMarket) (amount : Q)
  : M World (option OrderResult) :=
  try_except
    (token_ids <- lift (literal_eval (clob_token_ids market)) ;;
     let index :=
       if decide (trade_side market = Some "SELL") then 0%nat else 1%nat in
     token_id <- lift (subscript token_ids index) ;;
     let current_balance := get_token_balance token_id in
     if Qltb 0 current_balance then ret None
     else
       clob <- lift (match client self with
                     | Some c => Ok c
                     | None => Raise (OtherError "AttributeError")
                     end) ;;
       market_price <- call (GetPrice token_id "SELL")
                            (get_price clob token_id "SELL") ;;
       orderbook <- call (GetOrderBook token_id) (get_order_book clob token_id) ;;
       let min_size := 5 in
       let order_args :=
         {| token_id := token_id; size := min_size;
            price := market_price; side := BUY |} in
       signed_order <- call (CreateOrder order_args) (create_order clob order_args) ;;
       resp <- call (PostOrder signed_order) (post_order clob signed_order) ;;
       if dry_run self then ret (Some Simulated) else ret (Some (Posted resp)))
    (fun _ => ret None).

End orders.

End Polymarket.

(** ** backend/services/polymarket_service.py *)

Module PolymarketService.
Import Polymarket.

(** The dictionary the service returns for a market. *)
Record MarketDict : Type := {
  market : SimpleMarket;
  category : string
}.

Definition market_dict (m : SimpleMarket) : MarketDict :=
  {| market := m; category := detect_category (question m) |}.

Inductive CacheData : Type :=
| MarketsData (markets : list MarketDict)
| MarketData (m : MarketDict)
| EventsData (events : list SimpleEvent).

(** A cache entry; [timestamp] is a naive [datetime.now()], in
    microseconds. *)
Record CacheEntry : Type := {
  data : CacheData;
  timestamp : Z
}.

Definition cache_timeout : Z := 60.

(** [timedelta.seconds] of a difference given in microseconds: a
    [timedelta] is kept as days, seconds in [0, 86400) and microseconds in
    [0, 10^6), and [.seconds] is the middle component. *)
Definition timedelta_seconds (delta : Z) : Z := ((delta / 1000000) mod 86400)%Z.

(** [timedelta.total_seconds()], rounded down. *)
Definition timedelta_total_seconds (delta : Z) : Z := (delta / 1000000)%Z.

Definition _is_cache_valid (cache : gmap string CacheEntry) (now : Z)
    (key : string) : bool :=
  match cache !! key with
  | None => false
  | Some entry => (timedelta_seconds (now - timestamp entry) <? cache_timeout)%Z
  end.

Definition _set_cache (key : string) (d : CacheData) (now : Z)
  : M (gmap string CacheEntry) unit :=
  fun cache => (Ok tt, <[key := {| data := d; timestamp := now |}]> cache).

(** [self.cache[key]["data"]]. *)
Definition cached (key : string) : M (gmap string CacheEntry) CacheData :=
  fun cache =>
    match cache !! key with
    | Some entry => (Ok (data entry), cache)
    | None => (Raise (OtherError "KeyError"), cache)
    end.

Section service.
Context {RawMarket : Type}.
Variable feed : Feed RawMarket.
Variable fromisoformat : string -> result datetime.

(** The three clock readings of a call: [now] when the cache is checked,
    [utc_now] inside the client, [now'] when the result is stored. *)

Definition get_all_markets (limit : Z) (now utc_now now' : Z)
  : M (gmap string CacheEntry) CacheData :=
  let cache_key := "all_markets_" +:+ pretty limit in
  fun cache =>
    if _is_cache_valid cache now cache_key then cached cache_key cache
    else
      (markets <- lift (Polymarket.get_all_markets feed fromisoformat utc_now) ;;
       let markets_data := map market_dict (slice_to markets limit) in
       _ <- _set_cache cache_key (MarketsData markets_data) now' ;;
       ret (MarketsData markets_data)) cache.

Definition get_market_by_id (market_id : string) (now now' : Z)
  : M (gmap string CacheEntry) CacheData :=
  let cache_key := "market_" +:+ market_id in
  fun cache =>
    if _is_cache_valid cache now cache_key then cached cache_key cache
    else
      (found <- lift (Polymarket.get_market feed market_id) ;;
       match found with
       | Some m =>
           let d := market_dict m in
           _ <- _set_cache cache_key (MarketData d) now' ;;
           ret (MarketData d)
       | None => raise (ValueError ("Market " +:+ market_id +:+ " not found"))
       end) cache.

Definition get_all_events (limit : Z) (now now' : Z)
  : M (gmap string CacheEntry) CacheData :=
  let cache_key := "all_events_" +:+ pretty limit in
  fun cache =>
    if _is_cache_valid cache now cache_key then cached cache_key cache
    else
      (let events := Polymarket.get_all_events feed in
       let events_data := slice_to events limit in
       _ <- _set_cache cache_key (EventsData events_data) now' ;;
       ret (EventsData events_data)) cache.

(** [get_tradeable_markets]: the client reads the clock once in
    [get_all_markets] ([utc_now]) and once in [filter_markets_for_trading]
    ([utc_now']). *)
Definition get_tradeable_markets (limit : Z) (now utc_now utc_now' now' : Z)
  : M (gmap string CacheEntry) CacheData :=
  let cache_key := "tradeable_markets_" +:+ pretty limit in
  fun cache =>
    if _is_cache_valid cache now cache_key then cached cache_key cache
    else
      (markets <- lift (Polymarket.get_all_markets feed fromisoformat utc_now) ;;
       let tradeable :=
         Polymarket.filter_markets_for_trading fromisoformat utc_now' markets in
       (* Sort by spread (highest first) *)
       let tradeable := sorted_desc spread tradeable in
       let markets_data := map market_dict (slice_to tradeable limit) in
       _ <- _set_cache cache_key (MarketsData markets_data) now' ;;
       ret (MarketsData markets_data)) cache.

End service.

End PolymarketService.

(** ** backend/services/trading_service.py *)

Module TradingService.
Import Polymarket.
Local Open Scope Q_scope.

(** What [gamma.get_market] answers: [float(market_data.get('volume', 0))]
    and the [featured] flag. *)
Record GammaMarket : Type := {
  volume : result Q;
  featured : bool
}.

(** A trade proposed by the agent. [price] is [float] of its price,
    [edge] the edge as a number; each raises for a value that is none. *)
Record BestTrade : Type := {
  price : result Q;
  edge : result Q;
  position : string;
  confidence : Q;
  prediction : string;
  analysis : string
}.

(** [self.trader]: the collaborators of a cycle. *)
Record Trader : Type := {
  pre_trade_logic : result unit;
  gamma_get_market : string -> result GammaMarket;
  filter_events_with_rag :
    list (SimpleEvent * GammaMarket) -> result (list (SimpleEvent * GammaMarket));
  map_filtered_events_to_markets :
    list (SimpleEvent * GammaMarket) -> result (list (SimpleMarket * Q));
  filter_markets : list (SimpleMarket * Q) -> result (list (SimpleMarket * Q));
  (* None: no trade, or an answer that is not a dictionary *)
  source_best_trade : SimpleMarket * Q -> result (option BestTrade);
  polymarket : Polymarket.Self
}.

(** The dictionary a cycle returns. *)
Inductive CycleResult : Type :=
| NoHighQualityEvents
| DryRunDecision (market : SimpleMarket) (trade : BestTrade) (target_price : Q)
| LiveDecision (market : SimpleMarket) (trade : BestTrade) (target_price : Q)
    (trade_result : option OrderResult)
| NoEligibleTrades (markets_analyzed : nat).

Definition set_trader_dry_run (b : bool) (w : World) : World :=
  {| gateway_log := gateway_log w; trader_dry_run := b |}.

Section cycle.
Context {RawMarket : Type}.
Variable feed : Feed RawMarket.
Variable literal_eval : string -> result (list string).
Variable trader : Trader.

(** The inner loop over the market ids of one event: the market data that
    qualifies first, if any. *)
Fixpoint first_high_quality (market_ids : list string) : result (option GammaMarket) :=
  match market_ids with
  | [] => Ok None
  | market_id :: rest =>
      if String.eqb market_id "" then first_high_quality rest
      else
        match gamma_get_market trader market_id with
        | Raise e => Raise e
        | Ok market_data =>
            match volume market_data with
            | Raise e => Raise e
            | Ok v =>
                if Qltb 10000 v || featured market_data
                then Ok (Some market_data)
                else first_high_quality rest
            end
        end
  end.

(** The body of the loop over events, inside its [try]. *)
Definition process_event (event : SimpleEvent) : result (option GammaMarket) :=
  first_high_quality (split_comma (markets event)).

Fixpoint high_quality_events (events : list SimpleEvent)
  : list (SimpleEvent * GammaMarket) :=
  match events with
  | [] => []
  | event :: rest =>
      match process_event event with
      | Ok (Some market_data) => (event, market_data) :: high_quality_events rest
      | Ok None => high_quality_events rest
      | Raise _ => high_quality_events rest
      end
  end.

(** The body of the loop over markets, inside its [try]: [Some] is a
    [return], [None] falls through to the next market. *)
Definition analyze_market (dry_run : bool) (market_tuple : SimpleMarket * Q)
  : M World (option CycleResult) :=
  let market_data := fst market_tuple in
  if String.eqb (clob_token_ids market_data) "" then ret None
  else
    best_trade <- lift (source_best_trade trader market_tuple) ;;
    match best_trade with
    | None => ret None
    | Some best_trade =>
        target_price <- lift (price best_trade) ;;
        _ <- lift (edge best_trade) ;;
        if dry_run then
          ret (Some (DryRunDecision market_data best_trade target_price))
        else
          let amount := 1 in
          trade_result <-
            execute_market_order (polymarket trader) literal_eval
              market_data amount ;;
          ret (Some (LiveDecision market_data best_trade target_price
                       trade_result))
    end.

Fixpoint analyze_markets (dry_run : bool) (markets_analyzed : nat)
    (filtered_markets : list (SimpleMarket * Q)) : M World CycleResult :=
  match filtered_markets with
  | [] => ret (NoEligibleTrades markets_analyzed)
  | market_tuple :: rest =>
      returned <- try_except (analyze_market dry_run market_tuple)
                             (fun _ => ret None) ;;
      match returned with
      | Some r => ret r
      | None => analyze_markets dry_run markets_analyzed rest
      end
  end.

Definition run_autonomous_trading (dry_run : bool) : M World CycleResult :=
  fun w =>
    let original_dry_run := trader_dry_run w in
    try_finally
      (_ <- lift (pre_trade_logic trader) ;;
       let events := Polymarket.get_all_events feed in
       let high_quality := high_quality_events events in
       match high_quality with
       | [] => ret NoHighQualityEvents
       | _ =>
           filtered_events <- lift (filter_events_with_rag trader high_quality) ;;
           markets <- lift (map_filtered_events_to_markets trader filtered_events) ;;
           filtered_markets <- lift (filter_markets trader markets) ;;
           analyze_markets dry_run (List.length filtered_markets) filtered_markets
       end)
      (set_trader_dry_run original_dry_run)
      (set_trader_dry_run dry_run w).

End cycle.

(** *** execute_trade *)

(** The state of the service: the cache of its [polymarket_service] and
    the venue. *)
Record ServiceState : Type := {
  cache : gmap string PolymarketService.CacheEntry;
  world : World
}.

(** A computation on the cache, run inside the service. *)
Definition on_cache {A} (c : M (gmap string PolymarketService.CacheEntry) A)
  : M ServiceState A :=
  fun s =>
    let (r, cache') := c (cache s) in
    (r, {| cache := cache'; world := world s |}).

(** A computation on the venue, run inside the service. *)
Definition on_world {A} (c : M World A) : M ServiceState A :=
  fun s =>
    let (r, world') := c (world s) in
    (r, {| cache := cache s; world := world' |}).

(** The dictionary [execute_trade] returns. *)
Inductive TradeExecution : Type :=
| DryRunSimulation (market_id side : string) (amount : Q)
| Executed (success : bool) (result : option OrderResult)
    (market_id side : string) (amount : Q).

(** [SimpleMarket(id=market_data["id"], ...)]: the twelve fields of the
    dictionary; the object built carries no [trade]. *)
Definition simple_market_of (d : PolymarketService.MarketDict) : SimpleMarket :=
  let m := PolymarketService.market d in
  {| id := id m; question := question m; end_ := end_ m;
     description := description m; active := active m; funded := funded m;
     rewardsMinSize := rewardsMinSize m; rewardsMaxSpread := rewardsMaxSpread m;
     spread := spread m; outcomes := outcomes m;
     outcome_prices := outcome_prices m; clob_token_ids := clob_token_ids m;
     trade_side := None |}.

Section execute_trade.
Context {RawMarket : Type}.
(** The feed of [self.polymarket_service]. *)
Variable feed : Feed RawMarket.
Variable literal_eval : string -> result (list string).
(** [self.trader.polymarket]. *)
Variable polymarket_client : Polymarket.Self.

(** [now] and [now'] are the clock readings of the cache. *)
Definition execute_trade (market_id side : string) (amount : Q)
    (dry_run : bool) (now now' : Z) : M ServiceState TradeExecution :=
  market_data <-
    on_cache (PolymarketService.get_market_by_id feed market_id now now') ;;
  match market_data with
  | PolymarketService.MarketData d =>
      let simple_market := simple_market_of d in
      if dry_run then ret (DryRunSimulation market_id side amount)
      else
        result <-
          on_world (execute_market_order polymarket_client literal_eval
                      simple_market amount) ;;
        (* "success": result is not None *)
        let success := match result with Some _ => true | None => false end in
        ret (Executed success result market_id side amount)
  | _ => raise TypeError
  end.

End execute_trade.

End TradingService.

(** ** backend/services/ai_service.py: the listings *)

Module AIListings.
Import Polymarket.
Local Open Scope Q_scope.

(** A recommendation of [_get_recommendations_sync]. *)
Record Recommendation : Type := {
  market_id : string;
  question : string;
  confidence : Q;
  category : string;
  spread : Q;
  active : bool;
  funded : bool
}.

Section listings.
Context {RawMarket : Type}.
Variable feed : Feed RawMarket.
Variable fromisoformat : string -> result datetime.

Definition recommendation_of (market : SimpleMarket) : Recommendation :=
  {| market_id := pretty (Polymarket.id market);
     question := Polymarket.question market;
     confidence := Py.min (Polymarket.spread market * 10) 1.0;
     category := detect_category (Polymarket.question market);
     spread := Polymarket.spread market;
     active := Polymarket.active market;
     funded := Polymarket.funded market |}.

(** [_get_recommendations_sync]: the body sits in [try ... except: return
    []]; [category] is not used. *)
Definition _get_recommendations_sync (category : option string) (limit : Z)
    (utc_now utc_now' : Z) : list Recommendation :=
  match Polymarket.get_all_markets feed fromisoformat utc_now with
  | Raise _ => []
  | Ok markets =>
      let filtered_markets :=
        Polymarket.filter_markets_for_trading fromisoformat utc_now' markets in
      let filtered_markets := sorted_desc Polymarket.spread filtered_markets in
      let filtered_markets := slice_to filtered_markets limit in
      map recommendation_of filtered_markets
  end.

End listings.

End AIListings.

(** ** backend/api/v1/endpoints/markets.py and trading.py *)

Module Endpoints.
Import Polymarket PolymarketService.
Local Open Scope Q_scope.

(** What an endpoint answers: a body, or an [HTTPException] with its
    status. *)
Inductive Answer (A : Type) : Type :=
| Http200 (body : A)
| HttpError (status : Z).
Arguments Http200 {A} body.
Arguments HttpError {A} status.

(** [MarketCategory]. *)
Inductive MarketCategory : Type :=
| POLITICS | SPORTS | CRYPTO | ENTERTAINMENT | TECH | OTHER.

Definition category_value (c : MarketCategory) : string :=
  match c with
  | POLITICS => "politics"
  | SPORTS => "sports"
  | CRYPTO => "crypto"
  | ENTERTAINMENT => "entertainment"
  | TECH => "tech"
  | OTHER => "other"
  end.

(** [MarketsResponse]. *)
Record MarketsResponse : Type := {
  markets : list MarketDict;
  total : nat;
  limit : Z
}.

(** The treatment of the listing in [get_markets]: the two filters, then
    the sort.  The dictionaries have no "volume" key, so that sort has the
    key 0 throughout. *)
Definition arrange_markets (category : option MarketCategory)
    (active_only : bool) (sort_by : string) (markets_data : list MarketDict)
  : list MarketDict :=
  let markets_data :=
    match category with
    | Some c =>
        List.filter
          (fun m => String.eqb (PolymarketService.category m) (category_value c))
          markets_data
    | None => markets_data
    end in
  let markets_data :=
    if active_only
    then List.filter (fun m => active (market m)) markets_data
    else markets_data in
  if String.eqb sort_by "spread"
  then sorted_desc (fun m => spread (market m)) markets_data
  else if String.eqb sort_by "volume"
  then sorted_desc (fun _ => 0) markets_data
  else if String.eqb sort_by "end_date"
  then sorted_asc (fun m => end_ (market m)) markets_data
  else markets_data.

(** The list a listing of the service returns is the list its cache holds
    under the key of the listing: what [list.sort] does to it in place, the
    cache sees. *)
Definition sorted_in_place (cache_key : string) (arranged : list MarketDict)
    (cache : gmap string CacheEntry) : gmap string CacheEntry :=
  alter (fun entry => {| data := MarketsData arranged;
                         timestamp := timestamp entry |}) cache_key cache.

Section markets_endpoint.
Context {RawMarket : Type}.
Variable feed : Feed RawMarket.
Variable fromisoformat : string -> result datetime.

(** [get_markets]: every exception becomes the status 500.  Each of the
    two filters builds a new list; without them the sort works on the list
    of the cache. *)
Definition get_markets (the_limit : Z) (category : option MarketCategory)
    (active_only : bool) (sort_by : string) (tradeable_only : bool)
    (now utc_now utc_now' now' : Z)
  : gmap string CacheEntry -> Answer MarketsResponse * gmap string CacheEntry :=
  fun cache =>
    let cache_key :=
      if tradeable_only then "tradeable_markets_" +:+ pretty the_limit
      else "all_markets_" +:+ pretty the_limit in
    let (listing, cache') :=
      if tradeable_only
      then get_tradeable_markets feed fromisoformat the_limit
             now utc_now utc_now' now' cache
      else PolymarketService.get_all_markets feed fromisoformat the_limit
             now utc_now now' cache in
    match listing with
    | Ok (MarketsData markets_data) =>
        let arranged := arrange_markets category active_only sort_by markets_data in
        let cache'' :=
          match category, active_only with
          | None, false => sorted_in_place cache_key arranged cache'
          | _, _ => cache'
          end in
        (Http200 {| markets := arranged; total := List.length arranged;
                    limit := the_limit |}, cache'')
    | Ok _ => (HttpError 500, cache')
    | Raise _ => (HttpError 500, cache')
    end.

End markets_endpoint.

(** A warning of [validate_trade], with the number its text shows. *)
Inductive Warning : Type :=
| BelowMinimumRewardSize (rewardsMinSize : Q).

(** The result of [validate_trade]. *)
Record Validation : Type := {
  valid : bool;
  sufficient_balance : bool;
  warnings : list Warning;
  errors : list string
}.

(** The checks of [validate_trade] on the market found, the wallet's USDC
    balance and the amount asked. *)
Definition validate (market_data : MarketDict) (usdc_balance amount : Q)
  : Validation :=
  let m := market market_data in
  let valid := true in
  let errors := [] in
  let '(valid, errors) :=
    if negb (active m)
    then (false, (errors ++ ["Market is not active"])%list)
    else (valid, errors) in
  let '(valid, errors) :=
    if negb (funded m)
    then (false, (errors ++ ["Market is not funded"])%list)
    else (valid, errors) in
  let '(valid, errors) :=
    if Qltb usdc_balance amount
    then (false, (errors ++ ["Insufficient USDC balance"])%list)
    else (valid, errors) in
  let rewardsMinSize := default 0 (rewardsMinSize m) in
  let warnings :=
    if Qltb amount rewardsMinSize
    then [BelowMinimumRewardSize rewardsMinSize]
    else [] in
  {| valid := valid;
     sufficient_balance := Qle_bool amount usdc_balance;
     warnings := warnings;
     errors := errors |}.

(** The wallet as [get_usdc_balance] reads it: the address, and the
    chain's [balanceOf] of the USDC contract. *)
Record Wallet : Type := {
  wallet_address : option string;
  usdc_balanceOf : result Z
}.

(** [Polymarket.get_usdc_balance]: USDC has six decimals; a wallet that is
    not configured and a failed read both give 0.0. *)
Definition get_usdc_balance (wallet : Wallet) : Q :=
  match wallet_address wallet with
  | None => 0
  | Some address =>
      if String.eqb address "" then 0
      else
        match usdc_balanceOf wallet with
        | Ok balance_res => inject_Z balance_res / 1000000
        | Raise _ => 0
        end
  end.

(** [TradeExecutionResponse] built from the dictionary that
    [execute_trade] returns.  The response model declares
    [result] as an optional dictionary: the string "DRY_RUN_SIMULATION" of
    a simulated trade is refused by the validation of the model, whose
    [ValidationError] is a [ValueError]; [None] and the dictionaries of the
    venue pass. *)
Definition TradeExecutionResponse (result : TradingService.TradeExecution)
  : Py.result TradingService.TradeExecution :=
  match result with
  | TradingService.DryRunSimulation _ _ _ =>
      Raise (ValueError "result: value is not a valid dict")
  | TradingService.Executed _ _ _ _ _ => Ok result
  end.

Section lookup_endpoints.
Context {RawMarket : Type}.
Variable feed : Feed RawMarket.
Variable literal_eval : string -> Py.result (list string).
Variable polymarket_client : Polymarket.Self.
Variable wallet : Wallet.

(** GET /markets/{market_id}: a [ValueError] becomes 404, any other
    exception 500. *)
Definition get_market (market_id : string) (now now' : Z)
  : gmap string CacheEntry -> Answer MarketDict * gmap string CacheEntry :=
  fun cache =>
    match get_market_by_id feed market_id now now' cache with
    | (Ok (MarketData market_data), cache') => (Http200 market_data, cache')
    | (Ok _, cache') => (HttpError 500, cache')
    | (Raise (ValueError _), cache') => (HttpError 404, cache')
    | (Raise _, cache') => (HttpError 500, cache')
    end.

(** POST /trading/validate, with the same two handlers. *)
Definition validate_trade (market_id : string) (amount : Q) (now now' : Z)
  : gmap string CacheEntry -> Answer Validation * gmap string CacheEntry :=
  fun cache =>
    match get_market_by_id feed market_id now now' cache with
    | (Ok (MarketData market_data), cache') =>
        let usdc_balance := get_usdc_balance wallet in
        (Http200 (validate market_data usdc_balance amount), cache')
    | (Ok _, cache') => (HttpError 500, cache')
    | (Raise (ValueError _), cache') => (HttpError 404, cache')
    | (Raise _, cache') => (HttpError 500, cache')
    end.

(** POST /trading/execute: here a [ValueError] becomes 400, and the
    response model is built inside the [try]. *)
Definition execute_trade (market_id side : string) (amount : Q)
    (dry_run : bool) (now now' : Z)
  : TradingService.ServiceState
    -> Answer TradingService.TradeExecution * TradingService.ServiceState :=
  fun s =>
    match TradingService.execute_trade feed literal_eval polymarket_client
            market_id side amount dry_run now now' s with
    | (Ok result, s') =>
        match TradeExecutionResponse result with
        | Ok body => (Http200 body, s')
        | Raise (ValueError _) => (HttpError 400, s')
        | Raise _ => (HttpError 500, s')
        end
    | (Raise (ValueError _), s') => (HttpError 400, s')
    | (Raise _, s') => (HttpError 500, s')
    end.

End lookup_endpoints.

End Endpoints.

(** ** backend/services/user_trading_service.py *)

Module UserTradingService.
Local Open Scope Q_scope.

(** The five variables [_create_user_polymarket_client] sets, with the
    user's values ([None] for a value that is missing). *)
Record WalletConfig : Type := {
  wallet_private_key : option string;
  clob_api_key : option string;
  clob_secret : option string;
  clob_passphrase : option string;
  default_dry_run : bool
}.

Definition user_env_vars (c : WalletConfig) : list (string * option string) :=
  [ ("POLYGON_WALLET_PRIVATE_KEY", wallet_private_key c);
    ("CLOB_API_KEY", clob_api_key c);
    ("CLOB_SECRET", clob_secret c);
    ("CLOB_PASS_PHRASE", clob_passphrase c);
    ("DRY_RUN", Some (if default_dry_run c then "true" else "false")) ].

(** [os.environ[key] = value]: a value with a null byte raises
    [ValueError], and the environment is then as it was.  The names
    assigned here are the five above.  Strings are code points below 256,
    which the file-system encoding encodes. *)
Definition has_null (value : string) : bool :=
  existsb (Ascii.eqb "000"%char) (list_ascii_of_string value).

Definition setenv (key value : string) : M (gmap string string) unit :=
  fun environ =>
    if has_null value
    then (Raise (ValueError "embedded null byte"), environ)
    else (Ok tt, <[key := value]> environ).

(** "Backup original env vars", and set the user's: [value or ''].  The
    backup is kept in the order of its insertions.  The loop is outside
    the [try]: an assignment that raises ends it. *)
Fixpoint backup_and_set (vars : list (string * option string))
    (original_env : list (string * option string))
  : M (gmap string string) (list (string * option string)) :=
  match vars with
  | [] => ret original_env
  | (key, value) :: rest =>
      fun environ =>
        let original_env := (original_env ++ [(key, environ !! key)])%list in
        (_ <- setenv key (default "" value) ;;
         backup_and_set rest original_env) environ
  end.

(** "Restore original environment". *)
Fixpoint restore (original_env : list (string * option string))
  : M (gmap string string) unit :=
  match original_env with
  | [] => ret tt
  | (key, None) :: rest => fun environ => restore rest (delete key environ)
  | (key, Some value) :: rest => _ <- setenv key value ;; restore rest
  end.

(** [_create_user_polymarket_client]: [construct] is [Polymarket()], which
    reads the environment and may raise; the [finally] restores, and an
    exception of its own replaces the outcome of the [try]. *)
Definition _create_user_polymarket_client {P : Type} (c : WalletConfig)
    (construct : gmap string string -> result P)
  : M (gmap string string) P :=
  original_env <- backup_and_set (user_env_vars c) [] ;;
  fun environ =>
    let polymarket := construct environ in
    match restore original_env environ with
    | (Ok _, environ') => (polymarket, environ')
    | (Raise e, environ') => (Raise e, environ')
    end.


End UserTradingService.

(** * Vocabulary of the properties

    The definitions below are not part of the program: they name what the
    properties speak about, in the words of the specification, and the
    inputs on which the program is run. *)

(** ** The order of the floats *)

Section float_vocabulary.
Local Open Scope Z_scope.

(** The place of a number in the order of the floats: its class (the
    infinities outside, the zeros in the middle), then exponent and
    mantissa. *)
Definition SFkey (f : spec_float) : Z * Z * Z :=
  match f with
  | S754_zero _ => (0, 0, 0)
  | S754_infinity false => (2, 0, 0)
  | S754_infinity true => (-2, 0, 0)
  | S754_nan => (0, 0, 0)
  | S754_finite false m e => (1, e, Zpos m)
  | S754_finite true m e => (-1, - e, Zneg m)
  end.

Definition key_lt (a b : Z * Z * Z) : Prop :=
  let '(a1, a2, a3) := a in
  let '(b1, b2, b3) := b in
  a1 < b1 \/ (a1 = b1 /\ (a2 < b2 \/ (a2 = b2 /\ a3 < b3))).

(** A float that is a number: not NaN. *)
Definition number (x : float) : Prop := Prim2SF x <> S754_nan.

Definition fkey (x : float) : Z * Z * Z := SFkey (Prim2SF x).

(** Zero with the sign of the positive numbers, the positive numbers and
    the positive infinity. *)
Definition SFnonneg (f : spec_float) : Prop :=
  match f with
  | S754_zero false | S754_infinity false | S754_finite false _ _ => True
  | _ => False
  end.

Definition nonneg (x : float) : Prop := SFnonneg (Prim2SF x).

End float_vocabulary.

(** ** Categorizer *)

Section categorizer_vocabulary.
Import Polymarket.

(** The taxonomy in the words of the specification: the categories in
    their priority order, each with its keyword set, and the rule that the
    first category with a matching keyword wins. *)
Definition category_order : list (string * list string) :=
  [ ("politics", politics_keywords); ("sports", sports_keywords);
    ("crypto", crypto_keywords); ("tech", tech_keywords);
    ("entertainment", entertainment_keywords); ("economy", economy_keywords);
    ("climate", climate_keywords); ("health", health_keywords) ].

Fixpoint first_match (categories : list (string * list string)) (text : string)
  : string :=
  match categories with
  | [] => "other"
  | (name, keywords) :: rest =>
      if any_in keywords text then name else first_match rest text
  end.

(** Capitals: a-z move down by 32, and [upper] writes a title in
    capitals.  Two titles are the same up to case when they have the same
    length and, position by position, the same character once both are
    written in capitals. *)
Definition upper_ascii (c : ascii) : ascii :=
  let n := nat_of_ascii c in
  if (97 <=? n)%nat && (n <=? 122)%nat then ascii_of_nat (n - 32) else c.

Fixpoint upper (s : string) : string :=
  match s with
  | EmptyString => EmptyString
  | String c s' => String (upper_ascii c) (upper s')
  end.

Fixpoint same_up_to_case (s t : string) : bool :=
  match s, t with
  | EmptyString, EmptyString => true
  | String c s', String d t' =>
      Ascii.eqb (upper_ascii c) (upper_ascii d) && same_up_to_case s' t'
  | _, _ => false
  end.

End categorizer_vocabulary.

(** ** Scorer and filter *)

Section scorer_vocabulary.
Import Polymarket.
Local Open Scope Q_scope.

Variable fromisoformat : string -> result datetime.
Variable now : Z.

(** How often a category occurs among selected markets. *)
Definition category_count (category : string) (l : list SimpleMarket) : nat :=
  List.length
    (List.filter (fun m => String.eqb (detect_category (question m)) category) l).

(** What the selection loop keeps true: the dictionary counts the selected
    markets by category, no count is above the cap, and the list is still
    short of the bound whenever the loop goes on. *)
Record selection_inv (featured : list SimpleMarket)
    (counts : gmap string nat) : Prop := {
  inv_counts : forall c, default 0%nat (counts !! c) = category_count c featured;
  inv_cap : forall c, (category_count c featured <= max_per_category)%nat;
  inv_bound : (List.length featured < max_featured)%nat
}.

(** The five factors, in the words of the specification, as binary64
    numbers. *)

Definition spread_quality (m : SimpleMarket) : float :=
  let spread := Py.float_of (spread m) in
  if (0 <? spread)%float then Py.fmax 0 (30 - spread * 100)%float else 0%float.

(** [None]: the end date does not give a number of days, because it does
    not parse or because it carries no time zone. *)
Definition days_remaining (m : SimpleMarket) : option Z :=
  match fromisoformat (end_ m) with
  | Ok end_date =>
      match days_between end_date (current_time now) with
      | Ok d => Some d
      | Raise _ => None
      end
  | Raise _ => None
  end.

Definition time_sensitivity (m : SimpleMarket) : float :=
  match days_remaining m with
  | None => 10
  | Some d =>
      if decide (d <= 0)%Z then 0
      else if decide (d <= 30)%Z then 25
      else if decide (d <= 90)%Z then 20
      else if decide (d <= 180)%Z then 15
      else 5
  end%float.

Definition funded_bonus (m : SimpleMarket) : float :=
  if funded m then 20%float else 0%float.

Definition question_richness (m : SimpleMarket) : float :=
  let n := String.length (question m) in
  (if decide (100 < n)%nat then 15 else if decide (50 < n)%nat then 10 else 5)%float.

Definition minimum_size_bonus (m : SimpleMarket) : float :=
  match rewardsMinSize m with
  | None => 0
  | Some s =>
      if Qeq_dec s 0 then 0
      else if Qlt_le_dec s 50 then 3
      else if Qlt_le_dec s 100 then 7
      else 10
  end%float.

(** The order of a ranking: the score does not go up. *)
Definition by_score_desc (x y : SimpleMarket * float) : Prop :=
  (snd y <=? snd x)%float = true.

(** The candidates of score [s], in the order of the list. *)
Definition with_score (s : float) (l : list (SimpleMarket * float))
  : list (SimpleMarket * float) :=
  List.filter (fun x => (snd x =? s)%float) l.

End scorer_vocabulary.

(** ** Effects *)

Section effect_vocabulary.
Context {S : Type}.

(** A computation that never changes the state. *)
Definition silent {A} (c : M S A) : Prop := forall s, snd (c s) = s.

End effect_vocabulary.

(** ** OrderGateway and DecisionOrchestrator *)

Section orchestrator_vocabulary.
Import Polymarket TradingService.
Local Open Scope Q_scope.

Context {RawMarket : Type}.
Variable literal_eval : string -> result (list string).

(** The token an order for [market] would buy: NO (the first id) when the
    attached trade says SELL, YES (the second) otherwise. *)
Definition order_token (market : SimpleMarket) : result string :=
  match literal_eval (clob_token_ids market) with
  | Raise e => Raise e
  | Ok token_ids =>
      subscript token_ids
        (if decide (trade_side market = Some "SELL") then 0%nat else 1%nat)
  end.

(** The cycle invoked with [dry_run = true] once per element of
    [cycles], each time with the feed and the collaborators of that
    invocation. *)
Fixpoint repeat_dry_run (cycles : list (Feed RawMarket * Trader)) (w : World)
  : World :=
  match cycles with
  | [] => w
  | (feed, trader) :: rest =>
      repeat_dry_run rest
        (snd (run_autonomous_trading feed literal_eval trader true w))
  end.

(** The orders posted to the venue so far. *)
Definition posted (w : World) : list OrderArgs :=
  omap (fun c => match c with PostOrder o => Some o | _ => None end)
       (gateway_log w).

Definition is_decision (r : CycleResult) : bool :=
  match r with
  | DryRunDecision _ _ _ | LiveDecision _ _ _ _ => true
  | NoHighQualityEvents | NoEligibleTrades _ => false
  end.

Definition is_no_opportunity (r : CycleResult) : bool :=
  match r with
  | NoHighQualityEvents | NoEligibleTrades _ => true
  | DryRunDecision _ _ _ | LiveDecision _ _ _ _ => false
  end.

End orchestrator_vocabulary.

(** ** Listings, orders and events *)

Section listing_vocabulary.
Import Polymarket TradingService.
Local Open Scope Q_scope.

(** A market known to be over at [now]: its end date is given, parses,
    carries a time zone, and is not later than [now]. *)
Definition known_expired (fromisoformat : string -> result datetime) (now : Z)
    (m : SimpleMarket) : Prop :=
  end_ m <> ""
  /\ exists end_date,
       fromisoformat (end_ m) = Ok end_date
       /\ aware end_date = true /\ (micros end_date <= now)%Z.

(** The calls of a complete order, in their order: the price, the book,
    the order of five tokens at that price, its posting. *)
Definition order_calls (token_id : string) (market_price : Q)
    (signed_order : OrderArgs) : list GatewayCall :=
  [ GetPrice token_id "SELL";
    GetOrderBook token_id;
    CreateOrder {| token_id := token_id; size := 5;
                   Polymarket.price := market_price; side := BUY |};
    PostOrder signed_order ].

(** An environment as the operating system holds it: no value has a
    null byte.  [assigned vars environ] is [environ] after the variables
    of [vars] have been given their values, the empty string for a value
    that is missing. *)
Definition environ_valid (environ : gmap string string) : Prop :=
  forall key value, environ !! key = Some value ->
                    UserTradingService.has_null value = false.

Definition assigned (vars : list (string * option string))
    (environ : gmap string string) : gmap string string :=
  foldl (fun env var => <[fst var := default "" (snd var)]> env) environ vars.

(** The world after the venue has received [calls]. *)
Definition logged (w : World) (calls : list GatewayCall) : World :=
  {| gateway_log := (gateway_log w ++ calls)%list;
     trader_dry_run := trader_dry_run w |}.

(** The venue has received, between [w] and [w'], the calls of one order
    at most, and nothing else has changed. *)
Definition one_order_at_most (w w' : World) : Prop :=
  exists calls token_id market_price signed_order,
    w' = {| gateway_log := (gateway_log w ++ calls)%list;
            trader_dry_run := trader_dry_run w |}
    /\ calls `prefix_of` order_calls token_id market_price signed_order.

(** Market data that passes the quality gate of the cycle. *)
Definition high_quality (market_data : GammaMarket) : Prop :=
  exists v, volume market_data = Ok v
            /\ (10000 < v \/ featured market_data = true).

(** The dictionaries that pass the two filters of the markets endpoint. *)
Definition listed (category : option Endpoints.MarketCategory)
    (active_only : bool) (d : PolymarketService.MarketDict) : bool :=
  match category with
  | Some c =>
      String.eqb (PolymarketService.category d) (Endpoints.category_value c)
  | None => true
  end
  && (if active_only then active (PolymarketService.market d) else true).

(** The key under which the markets endpoint finds its listing. *)
Definition listing_key (tradeable_only : bool) (the_limit : Z) : string :=
  if tradeable_only then "tradeable_markets_" +:+ pretty the_limit
  else "all_markets_" +:+ pretty the_limit.

End listing_vocabulary.

(** ** Inputs *)

(** A feed whose every request times out, and one that answers every
    request with 200 and no record. *)
Definition feed_timing_out : Polymarket.Feed string :=
  {| Polymarket.httpx_get := fun _ => Raise TimeoutException;
     Polymarket.read_market := fun _ => Raise (OtherError "unused");
     Polymarket.volume_of := fun _ => Ok 0%Q;
     Polymarket.event_of := fun _ => Raise (OtherError "unused") |}.

Definition feed_without_match : Polymarket.Feed string :=
  {| Polymarket.httpx_get := fun _ =>
       Ok {| Polymarket.status_code := 200; Polymarket.json := Ok [] |};
     Polymarket.read_market := fun _ => Raise (OtherError "unused");
     Polymarket.volume_of := fun _ => Ok 0%Q;
     Polymarket.event_of := fun _ => Raise (OtherError "unused") |}.

(** A feed that answers every request with the status 404. *)
Definition feed_not_found : Polymarket.Feed string :=
  {| Polymarket.httpx_get := fun _ =>
       Ok {| Polymarket.status_code := 404; Polymarket.json := Ok [] |};
     Polymarket.read_market := fun _ => Raise (OtherError "unused");
     Polymarket.volume_of := fun _ => Ok 0%Q;
     Polymarket.event_of := fun _ => Raise (OtherError "unused") |}.

Definition no_date : string -> result Polymarket.datetime :=
  fun _ => Raise (ValueError "Invalid isoformat string").

(** An entry stored at time 0. *)
Definition stale_cache : gmap string PolymarketService.CacheEntry :=
  {[ "all_markets_1000" :=
       {| PolymarketService.data := PolymarketService.MarketsData [];
          PolymarketService.timestamp := 0 |} ]}.

(** One day and ten seconds, in microseconds. *)
Definition a_day_and_ten_seconds : Z := (86400 + 10) * 1000000.

Section worked_cycle_inputs.
Import Polymarket TradingService.
Local Open Scope Q_scope.

Definition a_market (q ids : string) : SimpleMarket :=
  {| id := 1; question := q; end_ := ""; description := "";
     active := true; funded := true; rewardsMinSize := Some 0;
     rewardsMaxSpread := 0; spread := 0.01; outcomes := "['Yes', 'No']";
     outcome_prices := "['0.55', '0.45']"; clob_token_ids := ids;
     trade_side := None |}.

Definition market_a : SimpleMarket := a_market "A" "['11', '12']".
Definition market_b : SimpleMarket := a_market "B" "['21', '22']".

Definition literal_eval_ids (s : string) : result (list string) :=
  if String.eqb s "['11', '12']" then Ok ["11"; "12"]
  else if String.eqb s "['21', '22']" then Ok ["21"; "22"]
  else Raise (ValueError "malformed node or string").

Definition a_client : ClobClient :=
  {| get_price := fun _ _ => Ok 0.55;
     get_order_book := fun _ => Ok tt;
     create_order := fun order_args => Ok order_args;
     post_order := fun _ => Ok "matched" |}.

(** A wallet holding seven of token 12 and nothing else. *)
Definition a_wallet (flag : bool) : Self :=
  {| dry_run := flag;
     client := Some a_client;
     balanceOf := fun token => if String.eqb token "12" then Ok 7%Z else Ok 0%Z |}.

(** The feed lists the markets 1 and 2 as events. *)
Definition feed_two_events : Feed string :=
  {| httpx_get := fun _ => Ok {| status_code := 200; json := Ok ["1"; "2"] |};
     read_market := fun _ => Raise (OtherError "unused");
     volume_of := fun _ => Ok 20000;
     event_of := fun market_id =>
       Ok {| event_id := market_id; title := ""; event_description := "";
             markets := market_id |} |}.

Definition a_trade : BestTrade :=
  {| price := Ok 0.55; edge := Ok 0.25; position := "YES"; confidence := 0.8;
     prediction := ""; analysis := "" |}.

(** The lookup of market 1 times out and the forecast for market A
    raises; everything else answers. *)
Definition a_trader : Trader :=
  {| pre_trade_logic := Ok tt;
     gamma_get_market := fun market_id =>
       if String.eqb market_id "1" then Raise TimeoutException
       else Ok {| volume := Ok 20000; featured := false |};
     filter_events_with_rag := fun l => Ok l;
     map_filtered_events_to_markets := fun _ => Ok [(market_a, 1); (market_b, 1)];
     filter_markets := fun l => Ok l;
     source_best_trade := fun market_tuple =>
       if String.eqb (question (fst market_tuple)) "A"
       then Raise (OtherError "forecast failed")
       else Ok (Some a_trade);
     polymarket := a_wallet false |}.

Definition a_world : World := {| gateway_log := []; trader_dry_run := false |}.

Definition an_order : OrderArgs :=
  {| token_id := "22"; size := 5; Polymarket.price := 0.55; side := "BUY" |}.

(** Three markets seen at time 0: A is active and funded, has a spread of
    0.01, a question of 120 characters, and ends in 10 days; B is
    inactive; C is active and unfunded, has a spread of 0.5 and ends in 400
    days. *)
Definition in_days (n : Z) : datetime :=
  {| aware := true; micros := n * microseconds_per_day |}.

Definition fromisoformat_days (s : string) : result datetime :=
  if String.eqb s "in 10 days" then Ok (in_days 10)
  else if String.eqb s "in 400 days" then Ok (in_days 400)
  else Raise (ValueError "Invalid isoformat string").

Definition scenario_market (q : string) (is_active is_funded : bool)
    (the_spread : Q) (the_end : string) : SimpleMarket :=
  {| id := 0; question := q; end_ := the_end; description := "";
     active := is_active; funded := is_funded; rewardsMinSize := Some 0;
     rewardsMaxSpread := 0; spread := the_spread; outcomes := "";
     outcome_prices := ""; clob_token_ids := ""; trade_side := None |}.

Definition scenario_a : SimpleMarket :=
  scenario_market (string_of_list_ascii (repeat "x"%char 120)) true true 0.01
    "in 10 days".
Definition scenario_b : SimpleMarket :=
  scenario_market "B" false true 0.01 "in 10 days".
Definition scenario_c : SimpleMarket :=
  scenario_market "C" true false 0.5 "in 400 days".

(** Two markets seen ten days after time 0.  X has a spread of 0.28, an
    end date that is reached, a short question and a minimum size of 1; Y
    has no spread, ends in 390 days and has a short question. *)
Definition ten_days : Z := 10 * microseconds_per_day.

Definition rounding_x : SimpleMarket :=
  {| id := 1; question := "X"; end_ := "in 10 days"; description := "";
     active := true; funded := false; rewardsMinSize := Some 1;
     rewardsMaxSpread := 0; spread := 0.28; outcomes := "";
     outcome_prices := ""; clob_token_ids := ""; trade_side := None |}.

Definition rounding_y : SimpleMarket :=
  {| id := 2; question := "Y"; end_ := "in 400 days"; description := "";
     active := true; funded := false; rewardsMinSize := None;
     rewardsMaxSpread := 0; spread := 0; outcomes := "";
     outcome_prices := ""; clob_token_ids := ""; trade_side := None |}.

(** A parser that reads every date as time 0 without a time zone, and a
    market seen ten days later. *)
Definition fromisoformat_naive (s : string) : result datetime :=
  Ok {| aware := false; micros := 0 |}.

Definition ended_market : SimpleMarket :=
  {| id := 3; question := "Z"; end_ := "1970-01-01T00:00:00";
     description := ""; active := true; funded := false;
     rewardsMinSize := None; rewardsMaxSpread := 0; spread := 0;
     outcomes := ""; outcome_prices := ""; clob_token_ids := "";
     trade_side := None |}.

(** A user whose secret holds a null byte, and an environment with one
    of the five variables set. *)
Definition a_wallet_config : UserTradingService.WalletConfig :=
  {| UserTradingService.wallet_private_key := Some "0xkey";
     UserTradingService.clob_api_key := None;
     UserTradingService.clob_secret := Some (String "000"%char "secret");
     UserTradingService.clob_passphrase := Some "pass";
     UserTradingService.default_dry_run := true |}.

Definition a_sound_wallet_config : UserTradingService.WalletConfig :=
  {| UserTradingService.wallet_private_key := Some "0xkey";
     UserTradingService.clob_api_key := None;
     UserTradingService.clob_secret := Some "secret";
     UserTradingService.clob_passphrase := Some "pass";
     UserTradingService.default_dry_run := true |}.

Definition an_environ : gmap string string :=
  <["CLOB_API_KEY" := "server key"]> (<["PATH" := "/usr/bin"]> ∅).

(** A constructor that answers with the private key it finds. *)
Definition construct_key (environ : gmap string string) : result string :=
  match environ !! "POLYGON_WALLET_PRIVATE_KEY" with
  | Some key => Ok key
  | None => Raise (OtherError "KeyError")
  end.

(** A feed that answers every request with the three markets of the
    scenario, each record being the market itself, of volume 20000. *)
Definition feed_of_scenarios : Feed SimpleMarket :=
  {| httpx_get := fun _ =>
       Ok {| status_code := 200;
             json := Ok [scenario_a; scenario_b; scenario_c] |};
     read_market := fun market => Ok market;
     volume_of := fun _ => Ok 20000;
     event_of := fun market =>
       Ok {| event_id := pretty (id market); title := question market;
             event_description := description market;
             markets := pretty (id market) |} |}.

(** A feed whose second record has a volume that cannot be read. *)
Definition feed_with_bad_volume : Feed string :=
  {| httpx_get := fun _ => Ok {| status_code := 200; json := Ok ["1"; "x"] |};
     read_market := fun _ => Raise (OtherError "unused");
     volume_of := fun market =>
       if String.eqb market "x"
       then Raise (ValueError "could not convert string to float")
       else Ok 20000;
     event_of := fun market_id =>
       Ok {| event_id := market_id; title := ""; event_description := "";
             markets := market_id |} |}.

(** The event that [feed_of_scenarios] makes of the market C. *)
Definition scenario_event : SimpleEvent :=
  {| event_id := "0"; title := "C"; event_description := ""; markets := "0" |}.

(** A wallet of 25 USDC. *)
Definition a_usdc_wallet : Endpoints.Wallet :=
  {| Endpoints.wallet_address := Some "0x52908400098527886E0F7030069857D2E4169EE7";
     Endpoints.usdc_balanceOf := Ok 25000000%Z |}.

(** The service with an empty cache, before any call to the venue. *)
Definition a_service : ServiceState :=
  {| cache := ∅; world := a_world |}.

End worked_cycle_inputs.

(** * Properties *)

(** ** Comparisons and clamping on floats *)

Section float_facts.
Local Open Scope Q_scope.

Lemma Qltb_lt (x y : Q) : Qltb x y = true <-> x < y.
Proof.
  unfold Qltb. rewrite Bool.negb_true_iff, <- Bool.not_true_iff_false.
  rewrite Qle_bool_iff. split; [apply Qnot_le_lt | apply Qlt_not_le].
Qed.

Lemma Qltb_ge (x y : Q) : Qltb x y = false <-> y <= x.
Proof.
  unfold Qltb. rewrite Bool.negb_false_iff. apply Qle_bool_iff.
Qed.


Lemma py_min_Qmin (a b : Q) : Py.min a b == Qmin a b.
Proof.
  unfold Py.min. destruct (Qltb b a) eqn:E.
  - apply Qltb_lt in E. symmetry. apply Q.min_r. now apply Qlt_le_weak.
  - apply Qltb_ge in E. symmetry. now apply Q.min_l.
Qed.


End float_facts.

(** ** The order and the sums of binary64 numbers *)

Section float_order.
Local Open Scope Z_scope.

Lemma SFcompare_key (a b : spec_float) :
  a <> S754_nan -> b <> S754_nan ->
  exists c, SFcompare a b = Some c
    /\ (c = Lt <-> key_lt (SFkey a) (SFkey b))
    /\ (c = Eq <-> SFkey a = SFkey b)
    /\ (c = Gt <-> key_lt (SFkey b) (SFkey a)).
Proof.
  intros Ha Hb.
  destruct a as [sa | sa | | sa ma ea], b as [sb | sb | | sb mb eb];
    try contradiction; try destruct sa; try destruct sb; simpl;
    try (eexists; split; [reflexivity |];
         repeat split; intros H; try discriminate; try lia;
         try (injection H; lia); fail).
  - (* negative, negative *)
    exists (match ea ?= eb with
            | Lt => Gt | Gt => Lt
            | Eq => CompOpp (Pos.compare_cont Eq ma mb)
            end).
    split; [reflexivity |].
    change (Pos.compare_cont Eq ma mb) with (Pos.compare ma mb).
    destruct (Z.compare_spec ea eb) as [-> | H | H];
      [destruct (Pos.compare_spec ma mb) as [-> | H | H] | |]; simpl;
      repeat split; intros H'; try discriminate; try reflexivity;
      try lia; try (injection H'; lia).
  - exists (match ea ?= eb with
            | Lt => Lt | Gt => Gt
            | Eq => Pos.compare_cont Eq ma mb
            end).
    split; [reflexivity |].
    change (Pos.compare_cont Eq ma mb) with (Pos.compare ma mb).
    destruct (Z.compare_spec ea eb) as [-> | H | H];
      [destruct (Pos.compare_spec ma mb) as [-> | H | H] | |]; simpl;
      repeat split; intros H'; try discriminate; try reflexivity;
      try lia; try (injection H'; lia).
Qed.

Lemma SFcompare_nan (a b : spec_float) :
  a = S754_nan \/ b = S754_nan -> SFcompare a b = None.
Proof. intros [-> | ->]; [reflexivity |]. now destruct a as [[] | [] | | [] ? ?]. Qed.

Lemma SF_nan_dec (a : spec_float) : a = S754_nan \/ a <> S754_nan.
Proof. destruct a; (now left) || (right; discriminate). Qed.

Lemma compare_key (x y : float) :
  (~ number x \/ ~ number y) /\ SFcompare (Prim2SF x) (Prim2SF y) = None
  \/ number x /\ number y
     /\ exists c, SFcompare (Prim2SF x) (Prim2SF y) = Some c
          /\ (c = Lt <-> key_lt (fkey x) (fkey y))
          /\ (c = Eq <-> fkey x = fkey y)
          /\ (c = Gt <-> key_lt (fkey y) (fkey x)).
Proof.
  unfold number, fkey.
  destruct (SF_nan_dec (Prim2SF x)) as [Hx | Hx].
  { left. split; [left; tauto | apply SFcompare_nan; now left]. }
  destruct (SF_nan_dec (Prim2SF y)) as [Hy | Hy].
  { left. split; [right; tauto | apply SFcompare_nan; now right]. }
  right. split; [exact Hx |]. split; [exact Hy |].
  now apply SFcompare_key.
Qed.

Lemma ltb_key (x y : float) :
  (x <? y)%float = true
  <-> number x /\ number y /\ key_lt (fkey x) (fkey y).
Proof.
  rewrite FloatAxioms.ltb_spec. unfold SFltb.
  destruct (compare_key x y) as [[Hnan ->] | (Hx & Hy & c & -> & Hlt & Heq & Hgt)].
  - split; [discriminate | tauto].
  - split.
    + intros H. split; [exact Hx |]. split; [exact Hy |]. apply Hlt. now destruct c.
    + intros (_ & _ & H). apply Hlt in H. now subst c.
Qed.

Lemma leb_key (x y : float) :
  (x <=? y)%float = true
  <-> number x /\ number y /\ (key_lt (fkey x) (fkey y) \/ fkey x = fkey y).
Proof.
  rewrite FloatAxioms.leb_spec. unfold SFleb.
  destruct (compare_key x y) as [[Hnan ->] | (Hx & Hy & c & -> & Hlt & Heq & Hgt)].
  - split; [discriminate | tauto].
  - split.
    + intros H. split; [exact Hx |]. split; [exact Hy |].
      destruct c; [right; now apply Heq | left; now apply Hlt | discriminate].
    + intros (_ & _ & [H | H]); [apply Hlt in H | apply Heq in H]; now subst c.
Qed.

Lemma eqb_key (x y : float) :
  (x =? y)%float = true <-> number x /\ number y /\ fkey x = fkey y.
Proof.
  rewrite FloatAxioms.eqb_spec. unfold SFeqb.
  destruct (compare_key x y) as [[Hnan ->] | (Hx & Hy & c & -> & Hlt & Heq & Hgt)].
  - split; [discriminate | tauto].
  - split.
    + intros H. split; [exact Hx |]. split; [exact Hy |]. apply Heq. now destruct c.
    + intros (_ & _ & H). apply Heq in H. now subst c.
Qed.

Lemma key_lt_cases (a b : Z * Z * Z) : key_lt a b \/ a = b \/ key_lt b a.
Proof.
  destruct a as [[a1 a2] a3], b as [[b1 b2] b3]. unfold key_lt.
  destruct (Z.lt_trichotomy a1 b1) as [H | [-> | H]]; [lia | | lia].
  destruct (Z.lt_trichotomy a2 b2) as [H | [-> | H]]; [lia | | lia].
  destruct (Z.lt_trichotomy a3 b3) as [H | [-> | H]]; [lia | | lia].
  right. now left.
Qed.

Lemma key_lt_irrefl (a : Z * Z * Z) : ~ key_lt a a.
Proof. destruct a as [[a1 a2] a3]. unfold key_lt. lia. Qed.

Lemma key_lt_trans (a b c : Z * Z * Z) : key_lt a b -> key_lt b c -> key_lt a c.
Proof.
  destruct a as [[a1 a2] a3], b as [[b1 b2] b3], c as [[c1 c2] c3].
  unfold key_lt. lia.
Qed.

Lemma key_lt_asym (a b : Z * Z * Z) : key_lt a b -> ~ key_lt b a.
Proof. intros H H'. exact (key_lt_irrefl a (key_lt_trans a b a H H')). Qed.

Lemma number_refl_eqb (x : float) : number x -> (x =? x)%float = true.
Proof. intros H. apply eqb_key. tauto. Qed.

Lemma ltb_asym (x y : float) : (x <? y)%float = true -> (y <? x)%float = false.
Proof.
  intros H. apply Bool.not_true_iff_false. intros H'.
  apply ltb_key in H as (_ & _ & H). apply ltb_key in H' as (_ & _ & H').
  exact (key_lt_asym _ _ H H').
Qed.

Lemma leb_not_ltb (x y : float) : (x <=? y)%float = true -> (y <? x)%float = false.
Proof.
  intros H. apply Bool.not_true_iff_false. intros H'.
  apply leb_key in H as (_ & _ & H). apply ltb_key in H' as (_ & _ & H').
  destruct H as [H | H].
  - exact (key_lt_asym _ _ H H').
  - rewrite H in H'. exact (key_lt_irrefl _ H').
Qed.

Lemma not_ltb_leb (x y : float) :
  number x -> number y -> (x <? y)%float = false -> (y <=? x)%float = true.
Proof.
  intros Hx Hy H. apply leb_key. split; [exact Hy |]. split; [exact Hx |].
  destruct (key_lt_cases (fkey x) (fkey y)) as [Hlt | [Heq | Hgt]].
  - assert (H' : (x <? y)%float = true) by (apply ltb_key; tauto). congruence.
  - now right.
  - now left.
Qed.

Lemma ltb_leb (x y : float) : (x <? y)%float = true -> (x <=? y)%float = true.
Proof.
  intros H. apply ltb_key in H as (Hx & Hy & H). apply leb_key. tauto.
Qed.

Lemma leb_trans (x y z : float) :
  (x <=? y)%float = true -> (y <=? z)%float = true -> (x <=? z)%float = true.
Proof.
  intros H1 H2. apply leb_key in H1 as (Hx & Hy & H1).
  apply leb_key in H2 as (_ & Hz & H2). apply leb_key.
  split; [exact Hx |]. split; [exact Hz |].
  destruct H1 as [H1 | H1], H2 as [H2 | H2].
  - left. exact (key_lt_trans _ _ _ H1 H2).
  - left. now rewrite <- H2.
  - left. now rewrite H1.
  - right. congruence.
Qed.

Lemma leb_ltb_trans (x y z : float) :
  (x <=? y)%float = true -> (y <? z)%float = true -> (x <? z)%float = true.
Proof.
  intros H1 H2. apply leb_key in H1 as (Hx & Hy & H1).
  apply ltb_key in H2 as (_ & Hz & H2). apply ltb_key.
  split; [exact Hx |]. split; [exact Hz |].
  destruct H1 as [H1 | H1].
  - exact (key_lt_trans _ _ _ H1 H2).
  - now rewrite H1.
Qed.

Lemma leb_antisym_eqb (x y : float) :
  (x <=? y)%float = true -> (y <=? x)%float = true -> (x =? y)%float = true.
Proof.
  intros H1 H2. apply leb_key in H1 as (Hx & Hy & H1).
  apply leb_key in H2 as (_ & _ & H2). apply eqb_key.
  split; [exact Hx |]. split; [exact Hy |].
  destruct H1 as [H1 | H1]; [| exact H1].
  destruct H2 as [H2 | H2]; [| now symmetry].
  exfalso. exact (key_lt_asym _ _ H1 H2).
Qed.

End float_order.

Section float_sums.
Local Open Scope Z_scope.

Lemma nonneg_number (x : float) : nonneg x -> number x.
Proof. unfold nonneg, number. now destruct (Prim2SF x). Qed.

Lemma shr_1_nonneg (mrs : shr_record) : 0 <= shr_m mrs -> 0 <= shr_m (shr_1 mrs).
Proof. destruct mrs as [[| [p | p |] | p] r s]; simpl; lia. Qed.

Lemma iter_pos_nonneg (n : positive) : forall mrs : shr_record,
  0 <= shr_m mrs -> 0 <= shr_m (SpecFloat.iter_pos shr_1 n mrs).
Proof.
  induction n as [n IH | n IH |]; intros mrs H; simpl.
  - apply IH, IH. now apply shr_1_nonneg.
  - now apply IH, IH.
  - now apply shr_1_nonneg.
Qed.

Lemma shr_fexp_nonneg (m e : Z) (l : location) :
  0 <= m -> 0 <= shr_m (fst (shr_fexp prec emax m e l)).
Proof.
  intros H. unfold shr_fexp, shr.
  assert (H0 : 0 <= shr_m (shr_record_of_loc m l)).
  { now destruct l as [| []]. }
  destruct (_ - e); simpl; [exact H0 | now apply iter_pos_nonneg | exact H0].
Qed.

Lemma round_nearest_even_nonneg (m : Z) (l : location) :
  0 <= m -> 0 <= round_nearest_even m l.
Proof.
  intros H. destruct l as [| []]; simpl; try lia.
  destruct (Z.even m); lia.
Qed.

Lemma binary_round_aux_sign (sx : bool) (mx ex : Z) (lx : location) :
  0 <= mx ->
  match binary_round_aux prec emax sx mx ex lx with
  | S754_zero s | S754_infinity s | S754_finite s _ _ => s = sx
  | S754_nan => False
  end.
Proof.
  intros H. unfold binary_round_aux.
  pose proof (shr_fexp_nonneg mx ex lx H) as H1.
  destruct (shr_fexp prec emax mx ex lx) as [mrs' e']. simpl in H1.
  pose proof (shr_fexp_nonneg
                (round_nearest_even (shr_m mrs') (loc_of_shr_record mrs')) e'
                loc_Exact (round_nearest_even_nonneg _ _ H1)) as H2.
  destruct (shr_fexp prec emax _ e' loc_Exact) as [mrs'' e'']. simpl in H2.
  destruct (shr_m mrs'') as [| m | m]; [reflexivity | | lia].
  now destruct (e'' <=? _).
Qed.

Lemma SFadd_nonneg (a b : spec_float) :
  SFnonneg a -> SFnonneg b -> SFnonneg (SFadd prec emax a b).
Proof.
  destruct a as [[] | [] | | [] ma ea], b as [[] | [] | | [] mb eb];
    simpl; try tauto.
  intros _ _. unfold binary_normalize. simpl.
  unfold binary_round.
  destruct (shl_align _ _ _) as [mz ez].
  pose proof (binary_round_aux_sign false (Zpos mz) ez loc_Exact) as H.
  destruct (binary_round_aux prec emax false (Z.pos mz) ez loc_Exact) as [s | s | | s m e];
    try (rewrite H by lia; exact I).
  apply H. lia.
Qed.

Lemma nonneg_add (x y : float) : nonneg x -> nonneg y -> nonneg (x + y).
Proof. unfold nonneg. rewrite add_spec. apply SFadd_nonneg. Qed.

Lemma nonneg_zero : nonneg 0.
Proof. exact I. Qed.

Lemma add_zero_r (x : float) : nonneg x -> (x + 0 = x)%float.
Proof.
  unfold nonneg. intros H. apply Prim2SF_inj. rewrite add_spec.
  change (Prim2SF 0) with (S754_zero false).
  now destruct (Prim2SF x) as [[] | [] | | [] m e].
Qed.

Lemma add_zero_l (x : float) : nonneg x -> (0 + x = x)%float.
Proof.
  unfold nonneg. intros H. apply Prim2SF_inj. rewrite add_spec.
  change (Prim2SF 0) with (S754_zero false).
  now destruct (Prim2SF x) as [[] | [] | | [] m e].
Qed.

Lemma positive_nonneg (x : float) : (0 <? x)%float = true -> nonneg x.
Proof.
  intros H. apply ltb_key in H as (_ & Hx & H). revert Hx H.
  unfold number, fkey, nonneg.
  change (Prim2SF 0) with (S754_zero false).
  destruct (Prim2SF x) as [[] | [] | | [] m e]; simpl; try tauto; lia.
Qed.

Lemma fmax_zero_nonneg (x : float) : nonneg (Py.fmax 0 x).
Proof.
  unfold Py.fmax. destruct (0 <? x)%float eqn:E;
    [now apply positive_nonneg | exact I].
Qed.

End float_sums.

(** ** EdgeEngine *)

Section edge_engine.
Import AIService.
Local Open Scope Q_scope.


Lemma confidence_cases (p m : Q) :
  let r := edge_metrics p m in
  ((0.1 <? absolute_edge r)%float = true -> confidence r = HIGH)
  /\ ((0.05 <? absolute_edge r)%float = true ->
      (absolute_edge r <=? 0.1)%float = true -> confidence r = MEDIUM)
  /\ ((absolute_edge r <=? 0.05)%float = true -> confidence r = LOW)
  /\ ((0.05 <? absolute_edge r)%float = false -> confidence r = LOW).
Proof.
  intros r. subst r. unfold edge_metrics. cbn [absolute_edge confidence].
  set (a := abs _).
  assert (Hlow : (0.05 <? a)%float = false -> (0.1 <? a)%float = false).
  { intros H. apply Bool.not_true_iff_false. intros H'.
    assert (H'' : (0.05 <? a)%float = true).
    { apply (leb_ltb_trans _ 0.1%float); [reflexivity | exact H']. }
    congruence. }
  repeat split.
  - intros H. now rewrite H.
  - intros H1 H2. apply leb_not_ltb in H2. now rewrite H2, H1.
  - intros H. apply leb_not_ltb in H. now rewrite (Hlow H), H.
  - intros H. now rewrite (Hlow H), H.
Qed.

(** C2, as the program computes it.  For every forecast probability [p]
    and market price [m], taken as binary64 numbers, the edge computation
    returns absolute_edge = |p - m|; relative_edge = absolute_edge / m *
    100 when m > 0 and 0 otherwise (so when m <= 0); kelly_size =
    absolute_edge * 2; confidence HIGH when absolute_edge > 0.1, MEDIUM
    when 0.05 < absolute_edge <= 0.1, LOW otherwise; each operation is the
    binary64 one.  At (0.7, 0.5) it yields 0.19999999999999996,
    39.99999999999999, 0.3999999999999999 and HIGH, which are 0.2, 40 and
    0.4 up to rounding; at (0.52, 0.5) it yields 0.020000000000000018 and
    LOW; at (0.8, 0.7) the edge is 0.10000000000000009, above the
    threshold, and the confidence is HIGH; at a price of 0 the relative
    edge is 0 for any [p]. *)
Theorem edge_metrics_spec (p m : Q) :
  let r := edge_metrics p m in
  let fp := Py.float_of p in
  let fm := Py.float_of m in
  absolute_edge r = abs (fp - fm)%float
  /\ ((0 <? fm)%float = true ->
      relative_edge r = (absolute_edge r / fm * 100)%float)
  /\ ((0 <? fm)%float = false -> relative_edge r = 0%float)
  /\ ((fm <=? 0)%float = true -> relative_edge r = 0%float)
  /\ kelly_size r = (absolute_edge r * 2)%float
  /\ ((0.1 <? absolute_edge r)%float = true -> confidence r = HIGH)
  /\ ((0.05 <? absolute_edge r)%float = true ->
      (absolute_edge r <=? 0.1)%float = true -> confidence r = MEDIUM)
  /\ ((absolute_edge r <=? 0.05)%float = true -> confidence r = LOW)
  /\ (let e := edge_metrics 0.7 0.5 in
      absolute_edge e = 0.19999999999999996%float
      /\ relative_edge e = 39.99999999999999%float
      /\ kelly_size e = 0.3999999999999999%float
      /\ confidence e = HIGH
      /\ (abs (absolute_edge e - 0.2) <? 1e-15)%float = true
      /\ (abs (relative_edge e - 40) <? 1e-13)%float = true
      /\ (abs (kelly_size e - 0.4) <? 1e-15)%float = true)
  /\ (let e := edge_metrics 0.52 0.5 in
      absolute_edge e = 0.020000000000000018%float
      /\ (abs (absolute_edge e - 0.02) <? 1e-15)%float = true
      /\ confidence e = LOW)
  /\ (let e := edge_metrics 0.8 0.7 in
      absolute_edge e = 0.10000000000000009%float /\ confidence e = HIGH)
  /\ relative_edge (edge_metrics p 0) = 0%float.
Proof.
  intros r fp fm.
  destruct (confidence_cases p m) as (Hh & Hm & Hl & _).
  split; [reflexivity |].
  split.
  { intros H. subst r. unfold edge_metrics. cbn [relative_edge absolute_edge].
    fold fm. now rewrite H. }
  assert (Hzero : (0 <? fm)%float = false -> relative_edge r = 0%float).
  { intros H. subst r. unfold edge_metrics. cbn [relative_edge].
    fold fm. now rewrite H. }
  split; [exact Hzero |].
  split; [intros H; apply Hzero; now apply leb_not_ltb |].
  split; [reflexivity |].
  split; [exact Hh |]. split; [exact Hm |]. split; [exact Hl |].
  split; [vm_compute; repeat split |].
  split; [vm_compute; repeat split |].
  split; [vm_compute; repeat split |].
  reflexivity.
Qed.

(** C2, as stated, fails at its own example: the program's absolute edge
    at (0.7, 0.5) is not 0.2, its relative edge not 40.0 and its Kelly size
    not 0.4; and at (0.8, 0.7), where |p - m| is 0.1 and so not above
    0.10, the program answers HIGH. *)
Lemma edge_metrics_0_7_0_5_inexact :
  let e := edge_metrics 0.7 0.5 in
  (absolute_edge e =? 0.2)%float = false
  /\ (relative_edge e =? 40)%float = false
  /\ (kelly_size e =? 0.4)%float = false
  /\ (absolute_edge e <? 0.2)%float = true
  /\ (Qabs (0.8 - 0.7) == 0.1)%Q
  /\ confidence (edge_metrics 0.8 0.7) = HIGH.
Proof. vm_compute. repeat split. Qed.



End edge_engine.

(** ** Categorizer *)

Section categorizer.
Import Polymarket.

Lemma prefix_app (kw s : string) :
  String.prefix kw s = true <-> exists post, s = kw ++ post.
Proof.
  revert s. induction kw as [| c kw IH]; intros s.
  - split; [intros _; now exists s | destruct s; reflexivity].
  - destruct s as [| d s]; simpl.
    + split; [discriminate | intros [post H]; discriminate].
    + destruct (Ascii.ascii_dec c d) as [-> | Hne].
      * rewrite IH. split; intros [post H]; exists post.
        -- now rewrite H.
        -- now injection H.
      * split; [discriminate |].
        intros [post H]. injection H as H1 H2. congruence.
Qed.

Lemma contains_eq (kw s : string) :
  contains kw s =
  String.prefix kw s
  || match s with
     | EmptyString => false
     | String _ s' => contains kw s'
     end.
Proof. destruct s; reflexivity. Qed.

(** [contains] is the substring test. *)
Lemma contains_substring (kw s : string) :
  contains kw s = true <-> exists pre post, s = pre ++ kw ++ post.
Proof.
  induction s as [| c s IH];
    rewrite contains_eq, Bool.orb_true_iff, prefix_app.
  - split.
    + intros [[post H] | H]; [| discriminate]. now exists "", post.
    + intros (pre & post & H). left. destruct pre; [now exists post |].
      discriminate.
  - rewrite IH. split.
    + intros [[post H] | (pre & post & H)].
      * now exists "", post.
      * exists (String c pre), post. simpl. now rewrite H.
    + intros (pre & post & H). destruct pre as [| d pre].
      * left. now exists post.
      * right. simpl in H. injection H as _ H. now exists pre, post.
Qed.

Lemma any_in_true (keywords : list string) (text : string) :
  any_in keywords text = true <->
  exists keyword, In keyword keywords /\ contains keyword text = true.
Proof. apply existsb_exists. Qed.

Lemma lower_ascii_idem (c : ascii) : lower_ascii (lower_ascii c) = lower_ascii c.
Proof.
  destruct c as [[] [] [] [] [] [] [] []]; reflexivity.
Qed.

Lemma lower_idem (s : string) : lower (lower s) = lower s.
Proof.
  induction s as [| c s IH]; simpl; [reflexivity |].
  now rewrite lower_ascii_idem, IH.
Qed.

Lemma string_app_cons (c : ascii) (s t : string) :
  String c s ++ t = String c (s ++ t).
Proof. reflexivity. Qed.

Lemma string_app_assoc (s t u : string) : (s ++ t) ++ u = s ++ t ++ u.
Proof.
  induction s as [| c s IH]; [reflexivity |].
  now rewrite !string_app_cons, IH.
Qed.

Lemma lower_app (s t : string) : lower (s ++ t) = lower s ++ lower t.
Proof.
  induction s as [| c s IH]; [reflexivity |].
  rewrite string_app_cons. simpl. now rewrite IH.
Qed.

(** The code is the first-match rule over the priority order. *)
Lemma detect_category_first_match (question : string) :
  detect_category question = first_match category_order (lower question).
Proof. reflexivity. Qed.

Lemma first_match_head name keywords rest text :
  any_in keywords text = true ->
  first_match ((name, keywords) :: rest) text = name.
Proof. intros H. simpl. now rewrite H. Qed.

Lemma first_match_none categories text :
  (forall name keywords,
      In (name, keywords) categories -> any_in keywords text = false) ->
  first_match categories text = "other".
Proof.
  induction categories as [| [name keywords] rest IH]; intros H; simpl.
  - reflexivity.
  - rewrite (H name keywords) by now left.
    apply IH. intros n k Hin. apply (H n k). now right.
Qed.

Lemma first_match_range categories text :
  first_match categories text = "other"
  \/ In (first_match categories text) (map fst categories).
Proof.
  induction categories as [| [name keywords] rest IH]; simpl.
  - now left.
  - destruct (any_in keywords text).
    + right. now left.
    + destruct IH as [IH | IH]; [now left | right; now right].
Qed.

Lemma lower_upper_ascii (c : ascii) : lower_ascii (upper_ascii c) = lower_ascii c.
Proof.
  destruct c as [[] [] [] [] [] [] [] []]; reflexivity.
Qed.

Lemma lower_upper (s : string) : lower (upper s) = lower s.
Proof.
  induction s as [| c s IH]; simpl; [reflexivity |].
  now rewrite lower_upper_ascii, IH.
Qed.

Lemma same_up_to_case_lower (s : string) : forall t,
  same_up_to_case s t = true -> lower s = lower t.
Proof.
  induction s as [| c s IH]; intros [| d t] H; simpl in H;
    try discriminate; [reflexivity |].
  apply andb_prop in H as [Hc Hs]. apply Ascii.eqb_eq in Hc.
  simpl. rewrite (IH t Hs).
  now rewrite <- (lower_upper_ascii c), Hc, lower_upper_ascii.
Qed.

(** Every keyword of the taxonomy is written in lower case. *)
Lemma keywords_lower name keywords kw :
  In (name, keywords) category_order -> In kw keywords -> lower kw = kw.
Proof.
  intros Hcat Hkw.
  assert (H : forallb (fun kw => String.eqb (lower kw) kw)
                (concat (map snd category_order)) = true)
    by (vm_compute; reflexivity).
  rewrite forallb_forall in H. apply String.eqb_eq, H.
  apply in_concat. exists keywords. split; [| exact Hkw].
  apply in_map_iff. now exists (name, keywords).
Qed.

(** A keyword is found in a title that has it in capitals. *)
Lemma keyword_in_capitals name keywords kw pre post :
  In (name, keywords) category_order -> In kw keywords ->
  contains kw (lower (pre ++ upper kw ++ post)) = true.
Proof.
  intros Hcat Hkw. apply contains_substring.
  exists (lower pre), (lower post).
  now rewrite !lower_app, lower_upper, (keywords_lower name keywords kw).
Qed.

(** C4. [detect_category] is a function of the title that looks only at
    its lower-cased form, tests the categories in the order politics,
    sports, crypto, tech, entertainment, economy, climate, health and
    returns the first one with a keyword that is a substring; a title with
    a politics keyword is politics whatever other keyword it also contains
    ("election" and "bitcoin" included), and a title matching no keyword
    set is other.  Case does not matter: two titles that differ only in
    the case of their letters have the same category, a title in capitals
    has the category of the title itself, a keyword written in capitals
    is found, and "BITCOIN" is crypto although "bitcoin" is not a
    substring of it. *)
Theorem detect_category_spec (title : string) :
  (forall title', lower title' = lower title ->
                  detect_category title' = detect_category title)
  /\ detect_category (lower title) = detect_category title
  /\ In (detect_category title)
       [ "politics"; "sports"; "crypto"; "tech"; "entertainment"; "economy";
         "climate"; "health"; "other" ]
  /\ detect_category title = first_match category_order (lower title)
  /\ map fst category_order =
     [ "politics"; "sports"; "crypto"; "tech"; "entertainment"; "economy";
       "climate"; "health" ]
  /\ (forall kp, In kp politics_keywords -> contains kp (lower title) = true ->
      detect_category title = "politics")
  /\ (forall kp name keywords ko,
        In kp politics_keywords -> contains kp (lower title) = true ->
        In (name, keywords) category_order -> In ko keywords ->
        contains ko (lower title) = true ->
        detect_category title = "politics")
  /\ (In "election" politics_keywords /\ In "bitcoin" crypto_keywords
      /\ forall pre mid post,
           detect_category (pre ++ "election" ++ mid ++ "bitcoin" ++ post)
           = "politics"
           /\ detect_category (pre ++ "bitcoin" ++ mid ++ "election" ++ post)
              = "politics")
  /\ ((forall name keywords, In (name, keywords) category_order ->
         any_in keywords (lower title) = false) ->
      detect_category title = "other")
  /\ (forall title', same_up_to_case title' title = true ->
                     detect_category title' = detect_category title)
  /\ detect_category (upper title) = detect_category title
  /\ (forall name keywords kw pre post,
        In (name, keywords) category_order -> In kw keywords ->
        contains kw (lower (pre ++ upper kw ++ post)) = true)
  /\ (forall kp pre post, In kp politics_keywords ->
        detect_category (pre ++ upper kp ++ post) = "politics")
  /\ (forall pre mid post,
        detect_category (pre ++ "ELECTION" ++ mid ++ "BITCOIN" ++ post)
        = "politics"
        /\ detect_category (pre ++ "Bitcoin" ++ mid ++ "Election" ++ post)
           = "politics")
  /\ (upper "bitcoin" = "BITCOIN"
      /\ contains "bitcoin" "BITCOIN" = false
      /\ detect_category "BITCOIN" = "crypto"
      /\ detect_category "Bitcoin" = "crypto"
      /\ detect_category "bitcoin" = "crypto"
      /\ detect_category "WHO WINS THE ELECTION?" = "politics"
      /\ detect_category "NEW VACCINE" = "health"
      /\ detect_category "IS THE MOON FULL?" = "other").
Proof.
  assert (Hpol : forall t kp, In kp politics_keywords ->
                   contains kp (lower t) = true ->
                   detect_category t = "politics").
  { intros t kp Hin Hc. rewrite detect_category_first_match.
    apply first_match_head. apply any_in_true. now exists kp. }
  split; [| split; [| split; [| split; [| split; [| split; [| split; [| split;
    [| split; [| split; [| split; [| split; [| split; [| split]]]]]]]]]]]]].
  - intros title' H. now rewrite !detect_category_first_match, H.
  - now rewrite !detect_category_first_match, lower_idem.
  - rewrite detect_category_first_match.
    destruct (first_match_range category_order (lower title)) as [-> | H].
    + simpl. tauto.
    + remember (first_match category_order (lower title)) as c eqn:Hc.
      clear Hc. cbv [map fst category_order] in H.
      destruct H as [<- | [<- | [<- | [<- | [<- | [<- | [<- | [<- | []]]]]]]]];
        simpl; tauto.
  - apply detect_category_first_match.
  - reflexivity.
  - apply Hpol.
  - intros kp name keywords ko H1 H2 _ _ _. now apply (Hpol title kp).
  - split; [now left |]. split; [now left |].
    intros pre mid post. split.
    + apply (Hpol _ "election"); [now left |].
      apply contains_substring.
      exists (lower pre), (lower (mid ++ "bitcoin" ++ post)).
      now rewrite !lower_app.
    + apply (Hpol _ "election"); [now left |].
      apply contains_substring.
      exists (lower (pre ++ "bitcoin" ++ mid)), (lower post).
      rewrite !lower_app. simpl. now rewrite !string_app_assoc.
  - intros H. rewrite detect_category_first_match. now apply first_match_none.
  - intros title' H.
    now rewrite !detect_category_first_match, (same_up_to_case_lower _ _ H).
  - now rewrite !detect_category_first_match, lower_upper.
  - apply keyword_in_capitals.
  - intros kp pre post Hkp. apply (Hpol _ kp Hkp).
    apply (keyword_in_capitals "politics" politics_keywords); [now left | exact Hkp].
  - intros pre mid post. split.
    + apply (Hpol _ "election"); [now left |].
      apply contains_substring.
      exists (lower pre), (lower (mid ++ "BITCOIN" ++ post)).
      now rewrite !lower_app.
    + apply (Hpol _ "election"); [now left |].
      apply contains_substring.
      exists (lower (pre ++ "Bitcoin" ++ mid)), (lower post).
      rewrite !lower_app. simpl. now rewrite !string_app_assoc.
  - vm_compute. repeat split.
Qed.

End categorizer.

(** ** Scorer and filter *)

Section scorer.
Import Polymarket.
Local Open Scope Q_scope.

Variable fromisoformat : string -> result datetime.
Variable now : Z.

Abbreviation score_market := (score_market fromisoformat now).
Abbreviation score_markets := (score_markets fromisoformat now).

Lemma category_count_snoc category l m :
  category_count category (l ++ [m])%list =
  (category_count category l
   + if String.eqb (detect_category (question m)) category then 1 else 0)%nat.
Proof.
  unfold category_count. rewrite List.filter_app, List.length_app. simpl.
  now destruct (String.eqb _ _).
Qed.

Lemma selection_inv_init : selection_inv [] ∅.
Proof.
  split.
  - intros c. now rewrite lookup_empty.
  - intros c. cbv. lia.
  - cbv. lia.
Qed.

Lemma select_diverse_cons market score rest featured counts :
  select_diverse ((market, score) :: rest) featured counts =
  let category := detect_category (question market) in
  if (default 0%nat (counts !! category) <? max_per_category)%nat then
    if (max_featured <=? List.length (featured ++ [market])%list)%nat
    then (featured ++ [market])%list
    else select_diverse rest (featured ++ [market])%list
           (<[category := (default 0%nat (counts !! category) + 1)%nat]> counts)
  else select_diverse rest featured counts.
Proof. reflexivity. Qed.

Lemma select_diverse_bounded scored : forall featured counts,
  selection_inv featured counts ->
  let out := select_diverse scored featured counts in
  (List.length out <= max_featured)%nat
  /\ forall c, (category_count c out <= max_per_category)%nat.
Proof.
  induction scored as [| [market score] rest IH]; intros featured counts Hinv.
  - destruct Hinv as [_ Hcap Hlen]. simpl. split; [lia | exact Hcap].
  - rewrite select_diverse_cons.
    set (category := detect_category (question market)). cbv zeta.
    destruct (Nat.ltb_spec (default 0%nat (counts !! category)) max_per_category)
      as [Hlt | Hge]; [| now apply IH].
    assert (Hcap' : forall c,
      (category_count c (featured ++ [market])%list <= max_per_category)%nat).
    { intros c. rewrite category_count_snoc. fold category.
      destruct (String.eqb_spec category c) as [<- | Hne].
      - rewrite <- (inv_counts _ _ Hinv). lia.
      - pose proof (inv_cap _ _ Hinv c). lia. }
    destruct (Nat.leb_spec max_featured
                (List.length (featured ++ [market])%list)) as [Hfull | Hroom].
    + split; [| exact Hcap'].
      rewrite List.length_app in *. simpl in *.
      pose proof (inv_bound _ _ Hinv). lia.
    + apply IH. split; [| exact Hcap' | exact Hroom].
      intros c. rewrite category_count_snoc. fold category.
      destruct (String.eqb_spec category c) as [<- | Hne].
      * rewrite lookup_insert_eq. simpl. rewrite (inv_counts _ _ Hinv). lia.
      * rewrite lookup_insert_ne by exact Hne.
        rewrite (inv_counts _ _ Hinv). lia.
Qed.

Lemma score_markets_filter markets :
  score_markets markets =
  map (fun m => (m, score_market m)) (List.filter active markets).
Proof.
  induction markets as [| m rest IH]; simpl; [reflexivity |].
  destruct (active m); simpl; now rewrite IH.
Qed.

Lemma score_markets_inactive markets :
  (forall m, In m markets -> active m = false) -> score_markets markets = [].
Proof.
  induction markets as [| m rest IH]; intros H; simpl; [reflexivity |].
  rewrite (H m) by now left. apply IH. intros m' Hin. apply H. now right.
Qed.

(** C1. For every list of markets the list returned by
    [filter_markets_for_trading] has at most 50 elements and at most 8 of
    any detected category, and it is empty when every market of the input
    is inactive. *)
Theorem filter_markets_for_trading_bounded (markets : list SimpleMarket) :
  let out := filter_markets_for_trading fromisoformat now markets in
  (List.length out <= 50)%nat
  /\ (forall category, (category_count category out <= 8)%nat)
  /\ ((forall m, In m markets -> active m = false) -> out = []).
Proof.
  intros out. subst out. unfold filter_markets_for_trading.
  destruct (select_diverse_bounded
              (sort_by_score (score_markets markets)) [] ∅ selection_inv_init)
    as [Hlen Hcap].
  split; [exact Hlen |]. split; [exact Hcap |].
  intros Hinactive. now rewrite score_markets_inactive.
Qed.

End scorer.

(** ** The scoring pass *)

Section scoring.
Import Polymarket.
Local Open Scope Q_scope.

Variable fromisoformat : string -> result datetime.
Variable now : Z.

Abbreviation score_market := (score_market fromisoformat now).
Abbreviation score_markets := (score_markets fromisoformat now).
Abbreviation days_remaining := (days_remaining fromisoformat now).
Abbreviation time_sensitivity := (time_sensitivity fromisoformat now).

(** No factor is negative, and none is NaN. *)

Lemma spread_quality_nonneg (m : SimpleMarket) : nonneg (spread_quality m).
Proof.
  unfold spread_quality. cbv zeta.
  destruct (0 <? Py.float_of (spread m))%float;
    [apply fmax_zero_nonneg | exact I].
Qed.

Lemma time_sensitivity_nonneg (m : SimpleMarket) : nonneg (time_sensitivity m).
Proof.
  unfold time_sensitivity.
  destruct (days_remaining m) as [d |]; [| exact I].
  repeat case_decide; exact I.
Qed.

Lemma funded_bonus_nonneg (m : SimpleMarket) : nonneg (funded_bonus m).
Proof. unfold funded_bonus. destruct (funded m); exact I. Qed.

Lemma question_richness_nonneg (m : SimpleMarket) : nonneg (question_richness m).
Proof. unfold question_richness. cbv zeta. repeat case_decide; exact I. Qed.

Lemma minimum_size_bonus_nonneg (m : SimpleMarket) :
  nonneg (minimum_size_bonus m).
Proof.
  unfold minimum_size_bonus. destruct (rewardsMinSize m) as [s |]; [| exact I].
  destruct (Qeq_dec s 0); [exact I |].
  destruct (Qlt_le_dec s 50); [exact I |].
  destruct (Qlt_le_dec s 100); exact I.
Qed.

Lemma score_market_sum (m : SimpleMarket) :
  score_market m =
  (spread_quality m + time_sensitivity m + funded_bonus m
   + question_richness m + minimum_size_bonus m)%float.
Proof.
  pose proof (spread_quality_nonneg m) as N0.
  pose proof (time_sensitivity_nonneg m) as N1.
  pose proof (funded_bonus_nonneg m) as N2.
  pose proof (question_richness_nonneg m) as N3.
  unfold Polymarket.score_market. cbv zeta.
  set (score0 := if (0 <? Py.float_of (spread m))%float then _ else _).
  set (score1 := match fromisoformat (end_ m) with Ok _ => _ | Raise _ => _ end).
  set (score2 := if funded m then _ else _).
  set (score3 := if (100 <? _)%nat then _ else _).
  set (score4 := if truthy _ then _ else _).
  assert (H0 : score0 = spread_quality m).
  { subst score0. unfold spread_quality. cbv zeta.
    destruct (0 <? Py.float_of (spread m))%float; [| reflexivity].
    apply add_zero_l, fmax_zero_nonneg. }
  assert (H1 : score1 = (score0 + time_sensitivity m)%float).
  { subst score1. unfold time_sensitivity, days_remaining.
    destruct (fromisoformat (end_ m)) as [end_date |]; [| reflexivity].
    destruct (days_between end_date (current_time now)) as [d |]; [| reflexivity].
    destruct (Z.ltb_spec 0 d).
    - destruct (decide (d <= 0)%Z); [lia |].
      destruct (Z.leb_spec 1 d); [| lia].
      destruct (Z.leb_spec d 30); simpl.
      { destruct (decide (d <= 30)%Z); [reflexivity | lia]. }
      destruct (decide (d <= 30)%Z); [lia |].
      destruct (Z.leb_spec 31 d); [| lia].
      destruct (Z.leb_spec d 90); simpl.
      { destruct (decide (d <= 90)%Z); [reflexivity | lia]. }
      destruct (decide (d <= 90)%Z); [lia |].
      destruct (Z.leb_spec 91 d); [| lia].
      destruct (Z.leb_spec d 180); simpl.
      { destruct (decide (d <= 180)%Z); [reflexivity | lia]. }
      destruct (decide (d <= 180)%Z); [lia | reflexivity].
    - destruct (decide (d <= 0)%Z); [| lia].
      symmetry. apply add_zero_r. now rewrite H0. }
  assert (M1 : nonneg score1) by (rewrite H1, H0; now apply nonneg_add).
  assert (H2 : score2 = (score1 + funded_bonus m)%float).
  { subst score2. unfold funded_bonus.
    destruct (funded m); [reflexivity |]. symmetry. now apply add_zero_r. }
  assert (M2 : nonneg score2) by (rewrite H2; now apply nonneg_add).
  assert (H3 : score3 = (score2 + question_richness m)%float).
  { subst score3. unfold question_richness. cbv zeta.
    destruct (Nat.ltb_spec 100 (String.length (question m))).
    - destruct (decide (100 < String.length (question m))%nat); [reflexivity | lia].
    - destruct (decide (100 < String.length (question m))%nat); [lia |].
      destruct (Nat.ltb_spec 50 (String.length (question m))).
      + destruct (decide (50 < String.length (question m))%nat); [reflexivity | lia].
      + destruct (decide (50 < String.length (question m))%nat); [lia | reflexivity]. }
  assert (M3 : nonneg score3) by (rewrite H3; now apply nonneg_add).
  assert (H4 : score4 = (score3 + minimum_size_bonus m)%float).
  { subst score4. unfold minimum_size_bonus, truthy.
    destruct (rewardsMinSize m) as [s |]; simpl;
      [| symmetry; now apply add_zero_r].
    destruct (Qeq_dec s 0) as [Hz | Hnz].
    - apply Qeq_bool_iff in Hz. rewrite Hz. simpl.
      symmetry. now apply add_zero_r.
    - destruct (Qeq_bool s 0) eqn:E; [now apply Qeq_bool_iff in E |]. simpl.
      destruct (Qle_bool 100 s) eqn:E100.
      + apply Qle_bool_iff in E100.
        destruct (Qlt_le_dec s 50) as [H50 | H50].
        { exfalso. apply (Qlt_not_le _ _ H50).
          eapply Qle_trans; [| exact E100]. easy. }
        destruct (Qlt_le_dec s 100) as [H100 | H100]; [| reflexivity].
        exfalso. exact (Qlt_not_le _ _ H100 E100).
      + assert (Hlt : s < 100).
        { apply Qnot_le_lt. intros H. apply Qle_bool_iff in H. congruence. }
        destruct (Qle_bool 50 s) eqn:E50.
        * apply Qle_bool_iff in E50.
          destruct (Qlt_le_dec s 50) as [H50 | H50].
          { exfalso. exact (Qlt_not_le _ _ H50 E50). }
          destruct (Qlt_le_dec s 100) as [H100 | H100]; [reflexivity |].
          exfalso. exact (Qlt_not_le _ _ Hlt H100).
        * destruct (Qlt_le_dec s 50) as [H50 | H50]; [reflexivity |].
          apply Qle_bool_iff in H50. congruence. }
  now rewrite H4, H3, H2, H1, H0.
Qed.

(** A score is a number that is not negative: it is never NaN. *)
Lemma score_market_nonneg (m : SimpleMarket) : nonneg (score_market m).
Proof.
  rewrite score_market_sum.
  repeat apply nonneg_add;
    auto using spread_quality_nonneg, time_sensitivity_nonneg,
      funded_bonus_nonneg, question_richness_nonneg, minimum_size_bonus_nonneg.
Qed.

Lemma score_markets_number (markets : list SimpleMarket) :
  Forall (fun p => number (snd p)) (score_markets markets).
Proof.
  induction markets as [| m rest IH]; simpl; [constructor |].
  destruct (active m); [| exact IH].
  constructor; [| exact IH]. apply nonneg_number, score_market_nonneg.
Qed.

(** The table of each factor. *)

Lemma spread_quality_table (m : SimpleMarket) :
  let spread := Py.float_of (spread m) in
  ((0 <? spread)%float = true ->
   spread_quality m = Py.fmax 0 (30 - spread * 100)%float)
  /\ ((0 <? spread)%float = false -> spread_quality m = 0%float)
  /\ ((spread <=? 0)%float = true -> spread_quality m = 0%float).
Proof.
  unfold spread_quality. cbv zeta.
  assert (H : (0 <? Py.float_of (spread m))%float = false ->
              (if (0 <? Py.float_of (spread m))%float
               then Py.fmax 0 (30 - Py.float_of (spread m) * 100)%float
               else 0%float) = 0%float)
    by (intros ->; reflexivity).
  split; [intros ->; reflexivity |]. split; [exact H |].
  intros Hle. apply H. now apply leb_not_ltb.
Qed.

Lemma days_remaining_aware (m : SimpleMarket) (end_date : datetime) :
  fromisoformat (end_ m) = Ok end_date -> aware end_date = true ->
  days_remaining m = Some ((micros end_date - now) / microseconds_per_day)%Z.
Proof.
  intros Hparse Haware. unfold days_remaining, days_between.
  now rewrite Hparse, Haware.
Qed.

Lemma days_remaining_naive (m : SimpleMarket) (end_date : datetime) :
  fromisoformat (end_ m) = Ok end_date -> aware end_date = false ->
  days_remaining m = None.
Proof.
  intros Hparse Hnaive. unfold days_remaining, days_between.
  now rewrite Hparse, Hnaive.
Qed.

Lemma time_sensitivity_table (m : SimpleMarket) :
  (forall d, days_remaining m = Some d ->
     ((1 <= d <= 30)%Z -> time_sensitivity m = 25%float)
     /\ ((31 <= d <= 90)%Z -> time_sensitivity m = 20%float)
     /\ ((91 <= d <= 180)%Z -> time_sensitivity m = 15%float)
     /\ ((180 < d)%Z -> time_sensitivity m = 5%float)
     /\ ((d <= 0)%Z -> time_sensitivity m = 0%float))
  /\ (days_remaining m = None -> time_sensitivity m = 10%float)
  /\ (forall e, fromisoformat (end_ m) = Raise e ->
                time_sensitivity m = 10%float)
  /\ (forall end_date,
        fromisoformat (end_ m) = Ok end_date -> aware end_date = false ->
        time_sensitivity m = 10%float)
  /\ (forall end_date,
        fromisoformat (end_ m) = Ok end_date -> aware end_date = true ->
        (micros end_date <= now)%Z -> time_sensitivity m = 0%float).
Proof.
  split; [| split; [| split; [| split]]].
  - intros d Hd. unfold time_sensitivity. rewrite Hd.
    repeat split; intros H; repeat case_decide; (reflexivity || lia).
  - intros H. unfold time_sensitivity. now rewrite H.
  - intros e He. unfold time_sensitivity, days_remaining.
    now rewrite He.
  - intros end_date Hparse Hnaive. unfold time_sensitivity.
    now rewrite (days_remaining_naive m end_date Hparse Hnaive).
  - intros end_date Hparse Haware Hpast. unfold time_sensitivity.
    rewrite (days_remaining_aware m end_date Hparse Haware).
    case_decide as Hd; [reflexivity |]. exfalso. apply Hd.
    apply Z.div_le_upper_bound; [reflexivity | lia].
Qed.

Lemma funded_bonus_table (m : SimpleMarket) :
  (funded m = true -> funded_bonus m = 20%float)
  /\ (funded m = false -> funded_bonus m = 0%float).
Proof. unfold funded_bonus. split; intros ->; reflexivity. Qed.

Lemma question_richness_table (m : SimpleMarket) :
  let n := String.length (question m) in
  ((100 < n)%nat -> question_richness m = 15%float)
  /\ ((50 < n <= 100)%nat -> question_richness m = 10%float)
  /\ ((n <= 50)%nat -> question_richness m = 5%float).
Proof.
  unfold question_richness. cbv zeta.
  repeat split; intros H; repeat case_decide; (reflexivity || lia).
Qed.

Lemma minimum_size_bonus_table (m : SimpleMarket) :
  (forall s, rewardsMinSize m = Some s -> ~ s == 0 ->
     (100 <= s -> minimum_size_bonus m = 10%float)
     /\ (50 <= s /\ s < 100 -> minimum_size_bonus m = 7%float)
     /\ (s < 50 -> minimum_size_bonus m = 3%float))
  /\ (forall s, rewardsMinSize m = Some s -> s == 0 ->
                minimum_size_bonus m = 0%float)
  /\ (rewardsMinSize m = None -> minimum_size_bonus m = 0%float).
Proof.
  unfold minimum_size_bonus. split; [| split].
  - intros s -> Hnz. destruct (Qeq_dec s 0) as [Hz | _]; [contradiction |].
    repeat split.
    + intros H.
      destruct (Qlt_le_dec s 50) as [H50 | _].
      { exfalso. apply (Qlt_not_le _ _ H50). eapply Qle_trans; [| exact H]. easy. }
      destruct (Qlt_le_dec s 100) as [H100 | _]; [| reflexivity].
      exfalso. exact (Qlt_not_le _ _ H100 H).
    + intros [H50 H100].
      destruct (Qlt_le_dec s 50) as [H50' | _].
      { exfalso. exact (Qlt_not_le _ _ H50' H50). }
      destruct (Qlt_le_dec s 100) as [_ | H100']; [reflexivity |].
      exfalso. exact (Qlt_not_le _ _ H100 H100').
    + intros H50.
      destruct (Qlt_le_dec s 50) as [_ | H50']; [reflexivity |].
      exfalso. exact (Qlt_not_le _ _ H50 H50').
  - intros s -> Hz. destruct (Qeq_dec s 0); [reflexivity | contradiction].
  - intros ->. reflexivity.
Qed.

(** The sort: a permutation, descending, and stable. *)

Lemma insert_by_score_perm x l : Permutation (insert_by_score x l) (x :: l).
Proof.
  induction l as [| y l IH]; simpl; [reflexivity |].
  destruct (snd x <? snd y)%float; [| reflexivity].
  rewrite IH. apply perm_swap.
Qed.

Lemma sort_by_score_perm l : Permutation (sort_by_score l) l.
Proof.
  induction l as [| x l IH]; simpl; [reflexivity |].
  rewrite insert_by_score_perm. now apply perm_skip.
Qed.

Lemma insert_by_score_sorted x l :
  number (snd x) -> Forall (fun p => number (snd p)) l ->
  Sorted by_score_desc l -> Sorted by_score_desc (insert_by_score x l).
Proof.
  intros Hx. induction l as [| y l IH]; intros Hl Hs; simpl.
  - repeat constructor.
  - apply Forall_cons in Hl as [Hy Hl].
    destruct (snd x <? snd y)%float eqn:E.
    + apply Sorted_inv in Hs as [Hs Hhd].
      constructor; [now apply IH |].
      destruct l as [| z l]; simpl.
      * constructor. now apply ltb_leb.
      * destruct (snd x <? snd z)%float.
        -- constructor. now apply HdRel_inv in Hhd.
        -- constructor. now apply ltb_leb.
    + constructor; [exact Hs |]. constructor. now apply not_ltb_leb.
Qed.

Lemma sort_by_score_number l :
  Forall (fun p => number (snd p)) l ->
  Forall (fun p => number (snd p)) (sort_by_score l).
Proof.
  intros H. rewrite List.Forall_forall in *. intros p Hp. apply H.
  now apply (Permutation_in _ (sort_by_score_perm l)).
Qed.

Lemma sort_by_score_sorted l :
  Forall (fun p => number (snd p)) l ->
  StronglySorted by_score_desc (sort_by_score l).
Proof.
  intros Hl. apply Sorted_StronglySorted.
  { intros x y z Hxy Hyz. unfold by_score_desc in *.
    eapply leb_trans; eassumption. }
  induction l as [| x l IH]; simpl; [constructor |].
  apply Forall_cons in Hl as [Hx Hl].
  apply insert_by_score_sorted; [exact Hx | now apply sort_by_score_number |].
  now apply IH.
Qed.

Lemma insert_by_score_stable s x l :
  with_score s (insert_by_score x l) = with_score s (x :: l).
Proof.
  induction l as [| y l IH]; [reflexivity |].
  simpl insert_by_score. destruct (snd x <? snd y)%float eqn:E; [| reflexivity].
  unfold with_score in *. simpl in *. rewrite IH.
  destruct (snd y =? s)%float eqn:Ey, (snd x =? s)%float eqn:Ex;
    try reflexivity.
  apply eqb_key in Ex as (_ & _ & Ex). apply eqb_key in Ey as (_ & _ & Ey).
  apply ltb_key in E as (_ & _ & E). rewrite Ex, Ey in E.
  now apply key_lt_irrefl in E.
Qed.

Lemma sort_by_score_stable s l :
  with_score s (sort_by_score l) = with_score s l.
Proof.
  induction l as [| x l IH]; [reflexivity |].
  simpl sort_by_score. rewrite insert_by_score_stable.
  unfold with_score in *. simpl. now rewrite IH.
Qed.

Lemma with_score_cons s x l :
  with_score s (x :: l) =
  if (snd x =? s)%float then x :: with_score s l else with_score s l.
Proof. reflexivity. Qed.

Lemma with_score_In s x l : In x (with_score s l) -> In x l.
Proof. unfold with_score. rewrite List.filter_In. tauto. Qed.

Lemma with_score_head x l :
  number (snd x) -> with_score (snd x) (x :: l) = x :: with_score (snd x) l.
Proof. intros H. now rewrite with_score_cons, number_refl_eqb. Qed.

(** A stable descending sort of numbers has one result: two rankings that
    agree on the order within every score are the same list.  So the
    insertion above stands for any sort that is stable. *)
Lemma stable_ranking_unique l1 : forall l2,
  Forall (fun p => number (snd p)) l1 -> Forall (fun p => number (snd p)) l2 ->
  StronglySorted by_score_desc l1 -> StronglySorted by_score_desc l2 ->
  (forall s, with_score s l1 = with_score s l2) ->
  l1 = l2.
Proof.
  induction l1 as [| x l1 IH]; intros l2 Hn1 Hn2 Hs1 Hs2 Heq.
  - destruct l2 as [| y l2]; [reflexivity |].
    apply Forall_cons in Hn2 as [Hy _].
    specialize (Heq (snd y)). rewrite with_score_head in Heq by exact Hy.
    discriminate.
  - apply Forall_cons in Hn1 as [Hx Hn1].
    destruct l2 as [| y l2].
    { specialize (Heq (snd x)). rewrite with_score_head in Heq by exact Hx.
      discriminate. }
    apply Forall_cons in Hn2 as [Hy Hn2].
    apply StronglySorted_inv in Hs1 as [Hs1 Hall1].
    apply StronglySorted_inv in Hs2 as [Hs2 Hall2].
    assert (Hrefl : forall z : SimpleMarket * float,
               number (snd z) -> (snd z <=? snd z)%float = true).
    { intros z Hz. apply leb_key. tauto. }
    assert (Hxy : (snd x <=? snd y)%float = true).
    { pose proof (Heq (snd x)) as H. rewrite with_score_head in H by exact Hx.
      assert (Hin : In x (y :: l2)).
      { apply (with_score_In (snd x)). rewrite <- H. now left. }
      destruct Hin as [-> | Hin]; [now apply Hrefl |].
      rewrite List.Forall_forall in Hall2. exact (Hall2 x Hin). }
    assert (Hyx : (snd y <=? snd x)%float = true).
    { pose proof (Heq (snd y)) as H. rewrite with_score_head in H by exact Hy.
      assert (Hin : In y (x :: l1)).
      { apply (with_score_In (snd y)). rewrite H. now left. }
      destruct Hin as [-> | Hin]; [now apply Hrefl |].
      rewrite List.Forall_forall in Hall1. exact (Hall1 y Hin). }
    assert (Hy' : (snd y =? snd x)%float = true)
      by now apply leb_antisym_eqb.
    assert (Hhead : x = y).
    { pose proof (Heq (snd x)) as H.
      rewrite with_score_head, with_score_cons, Hy' in H by exact Hx.
      now injection H. }
    subst y. f_equal. apply IH; try assumption.
    intros s. specialize (Heq s). rewrite !with_score_cons in Heq.
    destruct (snd x =? s)%float; [now injection Heq | exact Heq].
Qed.

(** C5, as the program computes it.  The score of a market is the sum,
    accumulated in binary64 in this order, of its spread, time, funding,
    question and minimum-size factors, each with its table: the time
    factor is 10 when the end date does not parse and also when it parses
    without a time zone, whatever the date, and 0 when less than one whole
    day remains.  A score is never NaN.  The candidates are the active
    markets with their scores, and they are ranked by a stable descending
    sort on the score: the ranking is a permutation of the candidates,
    scores never increase along it, and candidates of equal score keep
    their input order.  With a spread of 0.28 the spread factor is
    1.9999999999999964, so that the market X, whose factors are 2, 5 and 3
    on paper, scores 9.999999999999996 and is ranked after the market Y
    that scores 10 and follows it in the input. *)
Theorem scoring_pass_spec (markets : list SimpleMarket) :
  let candidates := score_markets markets in
  let ranked := sort_by_score candidates in
  filter_markets_for_trading fromisoformat now markets
  = select_diverse ranked [] ∅
  /\ candidates
     = map (fun m => (m, score_market m)) (List.filter active markets)
  /\ (forall m,
        score_market m =
        (spread_quality m + time_sensitivity m + funded_bonus m
         + question_richness m + minimum_size_bonus m)%float
        /\ number (score_market m))
  /\ (forall m,
        let spread := Py.float_of (spread m) in
        ((0 <? spread)%float = true ->
         spread_quality m = Py.fmax 0 (30 - spread * 100)%float)
        /\ ((0 <? spread)%float = false -> spread_quality m = 0%float)
        /\ ((spread <=? 0)%float = true -> spread_quality m = 0%float))
  /\ (forall m,
        (forall d, days_remaining m = Some d ->
           ((1 <= d <= 30)%Z -> time_sensitivity m = 25%float)
           /\ ((31 <= d <= 90)%Z -> time_sensitivity m = 20%float)
           /\ ((91 <= d <= 180)%Z -> time_sensitivity m = 15%float)
           /\ ((180 < d)%Z -> time_sensitivity m = 5%float)
           /\ ((d <= 0)%Z -> time_sensitivity m = 0%float))
        /\ (forall e, fromisoformat (end_ m) = Raise e ->
                      time_sensitivity m = 10%float)
        /\ (forall end_date,
              fromisoformat (end_ m) = Ok end_date -> aware end_date = false ->
              time_sensitivity m = 10%float)
        /\ (forall end_date,
              fromisoformat (end_ m) = Ok end_date -> aware end_date = true ->
              (days_remaining m
               = Some ((micros end_date - now) / microseconds_per_day)%Z)
              /\ ((micros end_date <= now)%Z -> time_sensitivity m = 0%float)))
  /\ (forall m,
        (funded m = true -> funded_bonus m = 20%float)
        /\ (funded m = false -> funded_bonus m = 0%float))
  /\ (forall m,
        ((100 < String.length (question m))%nat ->
         question_richness m = 15%float)
        /\ ((50 < String.length (question m) <= 100)%nat ->
            question_richness m = 10%float)
        /\ ((String.length (question m) <= 50)%nat ->
            question_richness m = 5%float))
  /\ (forall m,
        (forall s, rewardsMinSize m = Some s -> ~ s == 0 ->
           (100 <= s -> minimum_size_bonus m = 10%float)
           /\ (50 <= s /\ s < 100 -> minimum_size_bonus m = 7%float)
           /\ (s < 50 -> minimum_size_bonus m = 3%float))
        /\ (forall s, rewardsMinSize m = Some s -> s == 0 ->
                      minimum_size_bonus m = 0%float)
        /\ (rewardsMinSize m = None -> minimum_size_bonus m = 0%float))
  /\ Permutation ranked candidates
  /\ StronglySorted by_score_desc ranked
  /\ (forall s, with_score s ranked = with_score s candidates)
  /\ (Polymarket.score_market fromisoformat_days ten_days rounding_x
      = 9.999999999999996%float
      /\ Polymarket.score_market fromisoformat_days ten_days rounding_y
         = 10%float
      /\ sort_by_score
           (Polymarket.score_markets fromisoformat_days ten_days
              [rounding_x; rounding_y])
         = [(rounding_y, 10%float); (rounding_x, 9.999999999999996%float)]
      /\ filter_markets_for_trading fromisoformat_days ten_days
           [rounding_x; rounding_y]
         = [rounding_y; rounding_x]).
Proof.
  intros candidates ranked.
  split; [reflexivity |].
  split; [apply score_markets_filter |].
  split.
  { intros m. split; [apply score_market_sum |].
    apply nonneg_number, score_market_nonneg. }
  split; [apply spread_quality_table |].
  split.
  { intros m. destruct (time_sensitivity_table m) as (H1 & _ & H2 & H3 & H4).
    split; [exact H1 |]. split; [exact H2 |]. split; [exact H3 |].
    intros end_date Hparse Haware.
    split; [now apply days_remaining_aware | now apply H4]. }
  split; [apply funded_bonus_table |].
  split; [apply question_richness_table |].
  split; [apply minimum_size_bonus_table |].
  split; [apply sort_by_score_perm |].
  split; [apply sort_by_score_sorted, score_markets_number |].
  split; [intros s; apply sort_by_score_stable |].
  vm_compute. repeat split.
Qed.

End scoring.

(** C5, as stated, fails for a market whose end date is in the past and
    carries no time zone: the date parses, the subtraction from the
    current time raises, and the time factor is the 10 of a date that
    fails to parse, not the 0 of a market that has ended; with no other
    factor than the 5 of a short question, the market scores 15.  It
    fails as well for the sum: the factors of X are 30 - 0.28 * 100 = 2,
    0, 0, 5 and 3, which make 10, the score of Y, and X comes first in the
    input; the program scores X below 10 and ranks it after Y. *)
Lemma ended_market_with_naive_date_scores_10 :
  fromisoformat_naive (Polymarket.end_ ended_market)
  = Ok {| Polymarket.aware := false; Polymarket.micros := 0 |}
  /\ (0 < ten_days)%Z
  /\ time_sensitivity fromisoformat_naive ten_days ended_market = 10%float
  /\ Polymarket.score_market fromisoformat_naive ten_days ended_market
     = 15%float
  /\ (30 - Polymarket.spread rounding_x * 100 + 0 + 0 + 5 + 3 == 10)%Q
  /\ (Polymarket.score_market fromisoformat_days ten_days rounding_x
      <? Polymarket.score_market fromisoformat_days ten_days rounding_y)%float
     = true
  /\ Polymarket.filter_markets_for_trading fromisoformat_days ten_days
       [rounding_x; rounding_y]
     = [rounding_y; rounding_x].
Proof. vm_compute. repeat split. Qed.

(** ** Code that leaves the state alone *)

Section frame.
Context {S : Type}.

Lemma silent_ret {A} (a : A) : silent (ret a : M S A).
Proof. intros s. reflexivity. Qed.

Lemma silent_raise {A} (e : exn) : silent (@raise S A e).
Proof. intros s. reflexivity. Qed.

Lemma silent_lift {A} (r : result A) : silent (lift r : M S A).
Proof. intros s. reflexivity. Qed.

Lemma silent_bind {A B} (c : M S A) (k : A -> M S B) :
  silent c -> (forall a, silent (k a)) -> silent (bind c k).
Proof.
  intros Hc Hk s. unfold bind. specialize (Hc s).
  destruct (c s) as [[a | e] s']; simpl in *; subst s'; [apply Hk | reflexivity].
Qed.

Lemma silent_try_except {A} (c : M S A) (h : exn -> M S A) :
  silent c -> (forall e, silent (h e)) -> silent (try_except c h).
Proof.
  intros Hc Hh s. unfold try_except. specialize (Hc s).
  destruct (c s) as [[a | e] s']; simpl in *; subst s'; [reflexivity | apply Hh].
Qed.

End frame.

Create HintDb silent.
#[local] Hint Resolve silent_ret silent_raise silent_lift : silent.
#[local] Hint Extern 2 (silent (bind _ _)) =>
  apply silent_bind; [| intros ?] : silent.
#[local] Hint Extern 2 (silent (try_except _ _)) =>
  apply silent_try_except; [| intros ?] : silent.
#[local] Hint Extern 3 (silent (match ?x with _ => _ end)) => destruct x : silent.

(** ** OrderGateway *)

Section order_gateway.
Import Polymarket.
Local Open Scope Q_scope.

Variable self : Self.
Variable literal_eval : string -> result (list string).

Abbreviation order_token := (order_token literal_eval).

Lemma get_token_balance_positive token_id :
  0 < get_token_balance self token_id <->
  exists balance, balanceOf self token_id = Ok balance /\ (0 < balance)%Z.
Proof.
  unfold get_token_balance. destruct (balanceOf self token_id) as [b | e].
  - split.
    + intros H. exists b. split; [reflexivity |].
      unfold Qlt in H. simpl in H. lia.
    + intros (b' & [= <-] & H). unfold Qlt. simpl. lia.
  - split; [intros H; now apply Qlt_irrefl in H | intros (b & H & _); discriminate].
Qed.

(** [execute_market_order] never raises. *)
Lemma execute_market_order_total market amount w :
  exists r, fst (execute_market_order self literal_eval market amount w) = Ok r.
Proof.
  unfold execute_market_order, try_except.
  match goal with
  | |- context [match ?c with _ => _ end] => destruct c as [[r | e] w']
  end; simpl; eauto.
Qed.

(** C10. When the wallet holds a strictly positive balance of the token
    the order would buy, [execute_market_order] returns [None] and the
    venue receives no call at all: no order is created, signed or posted,
    whatever the market and the amount. *)
Theorem execute_market_order_existing_position
    (market : SimpleMarket) (amount : Q) (w : World) (token_id : string)
    (balance : Z) :
  order_token market = Ok token_id ->
  balanceOf self token_id = Ok balance ->
  (0 < balance)%Z ->
  execute_market_order self literal_eval market amount w = (Ok None, w).
Proof.
  intros Htoken Hchain Hpositive.
  assert (Hbalance : 0 < get_token_balance self token_id).
  { apply get_token_balance_positive. now exists balance. }
  revert Htoken.
  unfold order_token, execute_market_order, try_except, bind, lift.
  intros Htoken. apply Qltb_lt in Hbalance.
  destruct (literal_eval (clob_token_ids market)) as [token_ids | e];
    [| discriminate].
  rewrite Htoken, Hbalance. reflexivity.
Qed.

(** With its own [dry_run] attribute set, [execute_market_order] tests the
    attribute only after [post_order]: when the wallet holds none of the
    token and the venue answers every call, the order is created and
    posted, and the result reports a simulation. *)
Theorem execute_market_order_dry_run_attribute
    (market : SimpleMarket) (amount : Q) (w : World) (token_id : string)
    (clob : ClobClient) (market_price : Q) (signed_order : OrderArgs)
    (resp : string) :
  let order_args :=
    {| token_id := token_id; size := 5; price := market_price; side := BUY |} in
  order_token market = Ok token_id ->
  get_token_balance self token_id <= 0 ->
  client self = Some clob ->
  get_price clob token_id "SELL" = Ok market_price ->
  get_order_book clob token_id = Ok tt ->
  create_order clob order_args = Ok signed_order ->
  post_order clob signed_order = Ok resp ->
  dry_run self = true ->
  execute_market_order self literal_eval market amount w
  = (Ok (Some Simulated),
     {| gateway_log :=
          (gateway_log w
           ++ [ GetPrice token_id "SELL"; GetOrderBook token_id;
                CreateOrder order_args; PostOrder signed_order ])%list;
        trader_dry_run := trader_dry_run w |}).
Proof.
  intros order_args Htoken Hbalance Hclient Hprice Hbook Hcreate Hpost Hdry.
  unfold order_token in Htoken.
  unfold execute_market_order, try_except, bind, lift, call.
  destruct (literal_eval (clob_token_ids market)) as [token_ids | e];
    [| discriminate].
  apply Qltb_ge in Hbalance.
  rewrite Htoken, Hbalance, Hclient, Hprice, Hbook. fold order_args.
  rewrite Hcreate, Hpost, Hdry. simpl.
  now rewrite <- !app_assoc.
Qed.

End order_gateway.

(** ** DecisionOrchestrator *)

Section orchestrator.
Import Polymarket TradingService.
Local Open Scope Q_scope.

Context {RawMarket : Type}.
Variable literal_eval : string -> result (list string).

Abbreviation repeat_dry_run := (repeat_dry_run literal_eval).

Lemma analyze_market_dry_run_silent trader market_tuple :
  silent (analyze_market literal_eval trader true market_tuple).
Proof.
  unfold analyze_market. destruct (String.eqb _ _); auto 10 with silent.
Qed.

Lemma analyze_markets_dry_run_silent trader n filtered_markets :
  silent (analyze_markets literal_eval trader true n filtered_markets).
Proof.
  induction filtered_markets as [| market_tuple rest IH]; simpl.
  - apply silent_ret.
  - apply silent_bind.
    + apply silent_try_except;
        [apply analyze_market_dry_run_silent | intros e; apply silent_ret].
    + intros [r |]; [apply silent_ret | exact IH].
Qed.

Lemma set_trader_dry_run_restore (b : bool) (w : World) :
  set_trader_dry_run (trader_dry_run w) (set_trader_dry_run b w) = w.
Proof. destruct w. reflexivity. Qed.

Lemma run_autonomous_trading_dry_run_frame
    (feed : Feed RawMarket) (trader : Trader) (w : World) :
  snd (run_autonomous_trading feed literal_eval trader true w) = w.
Proof.
  unfold run_autonomous_trading, try_finally.
  match goal with
  | |- context [let (_, _) := ?c ?w0 in _] =>
      assert (Hs : silent c); [| specialize (Hs w0); destruct (c w0) as [r w']]
  end.
  - apply silent_bind; [apply silent_lift | intros _].
    destruct (high_quality_events _ _); [apply silent_ret |].
    apply silent_bind; [apply silent_lift | intros fe].
    apply silent_bind; [apply silent_lift | intros ms].
    apply silent_bind; [apply silent_lift | intros fm].
    apply analyze_markets_dry_run_silent.
  - simpl in *. subst w'. apply set_trader_dry_run_restore.
Qed.

(** C6. A cycle invoked with [dry_run = true] leaves the state as it
    found it, so the venue receives no call from it, however often the
    cycle is invoked and whatever the feed and the collaborators answer:
    no order is created or posted, and the set of posted orders is the
    one before. *)
Theorem dry_run_never_submits
    (cycles : list (Feed RawMarket * Trader)) (w : World) :
  (forall (feed : Feed RawMarket) (trader : Trader),
      snd (run_autonomous_trading feed literal_eval trader true w) = w)
  /\ repeat_dry_run cycles w = w
  /\ gateway_log (repeat_dry_run cycles w) = gateway_log w
  /\ posted (repeat_dry_run cycles w) = posted w.
Proof.
  assert (H : repeat_dry_run cycles w = w).
  { induction cycles as [| [feed trader] rest IH]; simpl; [reflexivity |].
    now rewrite run_autonomous_trading_dry_run_frame. }
  split; [intros feed trader; apply run_autonomous_trading_dry_run_frame |].
  now rewrite H.
Qed.

(** *** Failures of single items *)

Lemma decision_or_no_opportunity (r : CycleResult) :
  is_decision r || is_no_opportunity r = true.
Proof. now destruct r. Qed.

Lemma high_quality_events_app trader events1 events2 :
  high_quality_events trader (events1 ++ events2)%list =
  (high_quality_events trader events1 ++ high_quality_events trader events2)%list.
Proof.
  induction events1 as [| event rest IH]; simpl; [reflexivity |].
  destruct (process_event trader event) as [[md |] | e]; simpl; now rewrite IH.
Qed.

(** An event whose processing raises leaves no trace in the selection. *)
Lemma high_quality_events_skip trader events1 event events2 e :
  process_event trader event = Raise e ->
  high_quality_events trader (events1 ++ event :: events2)%list =
  high_quality_events trader (events1 ++ events2)%list.
Proof.
  intros H. rewrite !high_quality_events_app. simpl. now rewrite H.
Qed.

(** The analysis of a market that does not return from the cycle, by
    falling through or by raising, has not touched the state. *)
Lemma analyze_market_falls_through trader dry_run market_tuple w r w' :
  analyze_market literal_eval trader dry_run market_tuple w = (r, w') ->
  r <> Ok None /\ (forall e, r <> Raise e) \/ w' = w.
Proof.
  unfold analyze_market.
  destruct (String.eqb _ _); [intros [= <- <-]; now right |].
  unfold bind, lift.
  destruct (source_best_trade trader market_tuple) as [[bt |] | e];
    [| intros [= <- <-]; now right | intros [= <- <-]; now right].
  destruct (price bt) as [p | e]; [| intros [= <- <-]; now right].
  destruct (edge bt) as [x | e]; [| intros [= <- <-]; now right].
  destruct dry_run; [intros [= <- <-]; now right |].
  destruct (execute_market_order_total (polymarket trader) literal_eval
              (fst market_tuple) 1 w) as [res Hres].
  destruct (execute_market_order _ _ _ _ w) as [[res' | e] w'']; simpl in Hres;
    [| discriminate].
  intros [= <- <-]. left. split; [discriminate | intros e; discriminate].
Qed.

Lemma analyze_markets_cons trader dry_run n market_tuple rest w :
  analyze_markets literal_eval trader dry_run n (market_tuple :: rest) w =
  match analyze_market literal_eval trader dry_run market_tuple w with
  | (Ok (Some r), w') => (Ok r, w')
  | (Ok None, w') | (Raise _, w') =>
      analyze_markets literal_eval trader dry_run n rest w'
  end.
Proof.
  simpl. unfold bind, try_except, ret.
  destruct (analyze_market _ _ _ _ w) as [[[r |] | e] w']; reflexivity.
Qed.

(** A market whose analysis raises is passed over: the loop goes on with
    the next one, from the same state. *)
Lemma analyze_markets_skip_head trader dry_run n market_tuple rest w e :
  fst (analyze_market literal_eval trader dry_run market_tuple w) = Raise e ->
  analyze_markets literal_eval trader dry_run n (market_tuple :: rest) w =
  analyze_markets literal_eval trader dry_run n rest w.
Proof.
  intros H. rewrite analyze_markets_cons.
  destruct (analyze_market _ _ _ _ w) as [r w'] eqn:E. simpl in H. subst r.
  destruct (analyze_market_falls_through _ _ _ _ _ _ E) as [[_ Hne] | ->];
    [now destruct (Hne e) | reflexivity].
Qed.

Lemma analyze_markets_skip trader dry_run n markets1 market_tuple markets2 :
  (forall w, exists e,
      fst (analyze_market literal_eval trader dry_run market_tuple w) = Raise e) ->
  forall w,
    analyze_markets literal_eval trader dry_run n
      (markets1 ++ market_tuple :: markets2)%list w =
    analyze_markets literal_eval trader dry_run n (markets1 ++ markets2)%list w.
Proof.
  intros Hfail. induction markets1 as [| m rest IH]; intros w.
  - destruct (Hfail w) as [e He]. now apply (analyze_markets_skip_head _ _ _ _ _ _ e).
  - rewrite <- !app_comm_cons, !analyze_markets_cons.
    destruct (analyze_market _ _ _ m w) as [[[r |] | e] w']; [reflexivity | |];
      apply IH.
Qed.

(** A raising forecast makes the analysis raise. *)
Lemma analyze_market_forecast_raises trader dry_run market_tuple e w :
  clob_token_ids (fst market_tuple) <> "" ->
  source_best_trade trader market_tuple = Raise e ->
  fst (analyze_market literal_eval trader dry_run market_tuple w) = Raise e.
Proof.
  intros Hids Hraise. unfold analyze_market.
  destruct (String.eqb_spec (clob_token_ids (fst market_tuple)) "");
    [contradiction |].
  unfold bind, lift. now rewrite Hraise.
Qed.

Lemma analyze_markets_skip_forecast
    trader dry_run n markets1 market_tuple markets2 e :
  clob_token_ids (fst market_tuple) <> "" ->
  source_best_trade trader market_tuple = Raise e ->
  forall w,
    analyze_markets literal_eval trader dry_run n
      (markets1 ++ market_tuple :: markets2)%list w =
    analyze_markets literal_eval trader dry_run n (markets1 ++ markets2)%list w.
Proof.
  intros Hids Hraise. apply analyze_markets_skip.
  intros w. exists e. now apply analyze_market_forecast_raises.
Qed.

(** The loop over markets always ends with a result. *)
Lemma analyze_markets_total trader dry_run n filtered_markets : forall w,
  exists r w',
    analyze_markets literal_eval trader dry_run n filtered_markets w = (Ok r, w').
Proof.
  induction filtered_markets as [| m rest IH]; intros w.
  - now exists (NoEligibleTrades n), w.
  - rewrite analyze_markets_cons.
    destruct (analyze_market _ _ _ m w) as [[[r |] | e] w']; [now exists r, w' | |];
      apply IH.
Qed.

(** C8. When the steps of the cycle that are not per item do not raise,
    the cycle returns a trade decision or a no-opportunity result,
    whatever the processing of single events and the analysis of single
    markets do; an event whose processing raises and a market whose
    analysis raises, by a raising forecast for one, are passed over, the
    others being treated as if the failed item were not there. *)
Theorem cycle_tolerates_item_failures
    (feed : Feed RawMarket) (trader : Trader) (dry_run : bool) (w : World) :
  pre_trade_logic trader = Ok tt ->
  (forall l, is_ok (filter_events_with_rag trader l) = true) ->
  (forall l, is_ok (map_filtered_events_to_markets trader l) = true) ->
  (forall l, is_ok (filter_markets trader l) = true) ->
  (exists r w',
      run_autonomous_trading feed literal_eval trader dry_run w = (Ok r, w')
      /\ is_decision r || is_no_opportunity r = true)
  /\ (forall events1 event events2 e,
        process_event trader event = Raise e ->
        high_quality_events trader (events1 ++ event :: events2)%list =
        high_quality_events trader (events1 ++ events2)%list)
  /\ (forall n markets1 market_tuple markets2,
        (forall w0, exists e,
            fst (analyze_market literal_eval trader dry_run market_tuple w0)
            = Raise e) ->
        forall w0,
          analyze_markets literal_eval trader dry_run n
            (markets1 ++ market_tuple :: markets2)%list w0 =
          analyze_markets literal_eval trader dry_run n
            (markets1 ++ markets2)%list w0)
  /\ (forall n markets1 market_tuple markets2 e,
        clob_token_ids (fst market_tuple) <> "" ->
        source_best_trade trader market_tuple = Raise e ->
        forall w0,
          analyze_markets literal_eval trader dry_run n
            (markets1 ++ market_tuple :: markets2)%list w0 =
          analyze_markets literal_eval trader dry_run n
            (markets1 ++ markets2)%list w0).
Proof.
  intros Hpre Hrag Hmap Hfilter.
  split; [| split;
            [intros; eapply high_quality_events_skip; eassumption
            | split;
              [intros; now apply analyze_markets_skip
              | intros; eapply analyze_markets_skip_forecast; eassumption]]].
  unfold run_autonomous_trading, try_finally, bind, lift. rewrite Hpre.
  destruct (high_quality_events trader (get_all_events feed)) as [| hq hqs].
  { eexists _, _. split; [reflexivity | reflexivity]. }
  specialize (Hrag (hq :: hqs)).
  destruct (filter_events_with_rag trader (hq :: hqs)) as [fe |]; [| discriminate].
  specialize (Hmap fe).
  destruct (map_filtered_events_to_markets trader fe) as [ms |]; [| discriminate].
  specialize (Hfilter ms).
  destruct (filter_markets trader ms) as [fm |]; [| discriminate].
  destruct (analyze_markets_total trader dry_run (List.length fm) fm
              (set_trader_dry_run dry_run w)) as (r & w' & Hrun).
  rewrite Hrun. eexists _, _. split; [reflexivity | apply decision_or_no_opportunity].
Qed.

End orchestrator.

(** ** MarketCatalog: failures of the feed *)

Section catalog_failures.
Import Polymarket.
Local Open Scope Q_scope.

Context {RawMarket : Type}.
Variable feed : Feed RawMarket.
Variable fromisoformat : string -> result datetime.

(** A status other than 200 empties the market listing. *)
Lemma get_all_markets_bad_status now res :
  httpx_get feed MarketsQuery = Ok res -> status_code res <> 200%Z ->
  Polymarket.get_all_markets feed fromisoformat now = Ok [].
Proof.
  intros Hres Hstatus. unfold Polymarket.get_all_markets. rewrite Hres.
  destruct (Z.eqb_spec (status_code res) 200); [contradiction | reflexivity].
Qed.

(** The market listing lets a failed request through. *)
Lemma get_all_markets_request_raises now e :
  httpx_get feed MarketsQuery = Raise e ->
  Polymarket.get_all_markets feed fromisoformat now = Raise e.
Proof. intros H. unfold Polymarket.get_all_markets. now rewrite H. Qed.

(** The event listing is empty after a failed request and after a status
    other than 200. *)
Lemma get_all_events_fail_soft :
  (forall e, httpx_get feed EventsQuery = Raise e ->
             Polymarket.get_all_events feed = [])
  /\ (forall res, httpx_get feed EventsQuery = Ok res ->
                  status_code res <> 200%Z ->
                  Polymarket.get_all_events feed = []).
Proof.
  unfold Polymarket.get_all_events. split.
  - intros e H. now rewrite H.
  - intros res H Hstatus. rewrite H.
    destruct (Z.eqb_spec (status_code res) 200); [contradiction | reflexivity].
Qed.

(** After a status other than 200 the client's [get_market] returns
    [None], and the service raises the [ValueError] that the endpoint
    turns into a 404. *)
Lemma get_market_by_id_not_found market_id now now' cache res :
  PolymarketService._is_cache_valid cache now ("market_" +:+ market_id) = false ->
  httpx_get feed (TokenQuery market_id) = Ok res ->
  status_code res <> 200%Z ->
  Polymarket.get_market feed market_id = Ok None
  /\ PolymarketService.get_market_by_id feed market_id now now' cache
     = (Raise (ValueError ("Market " +:+ market_id +:+ " not found")), cache).
Proof.
  intros Hmiss Hres Hstatus.
  assert (Hget : Polymarket.get_market feed market_id = Ok None).
  { unfold Polymarket.get_market. rewrite Hres.
    destruct (Z.eqb_spec (status_code res) 200); [contradiction | reflexivity]. }
  split; [exact Hget |].
  unfold PolymarketService.get_market_by_id. rewrite Hmiss.
  unfold bind, lift. now rewrite Hget.
Qed.

(** When the feed answers 200 with no record, the subscript raises
    [IndexError], which the service lets through. *)
Lemma get_market_by_id_no_match market_id now now' cache res :
  PolymarketService._is_cache_valid cache now ("market_" +:+ market_id) = false ->
  httpx_get feed (TokenQuery market_id) = Ok res ->
  status_code res = 200%Z -> json res = Ok [] ->
  PolymarketService.get_market_by_id feed market_id now now' cache
  = (Raise IndexError, cache).
Proof.
  intros Hmiss Hres Hstatus Hjson.
  unfold PolymarketService.get_market_by_id. rewrite Hmiss.
  unfold bind, lift, Polymarket.get_market.
  now rewrite Hres, Hstatus, Hjson.
Qed.

End catalog_failures.

(** C7, where the code departs from it. On a timeout the market listing
    raises, in the client and in the service, while the event listing
    returns the empty list; and when the feed has no match for an id, the
    lookup raises [IndexError] and not the [ValueError] of a market that
    was not found. *)
Theorem market_listing_timeout_propagates :
  Polymarket.get_all_markets feed_timing_out no_date 0 = Raise TimeoutException
  /\ fst (PolymarketService.get_all_markets feed_timing_out no_date 1000 0 0 0 ∅)
     = Raise TimeoutException
  /\ Polymarket.get_all_events feed_timing_out = []
  /\ fst (PolymarketService.get_market_by_id feed_without_match "42" 0 0 ∅)
     = Raise IndexError.
Proof. repeat split; reflexivity. Qed.

(** ** MarketCatalog: the cache *)

Section cache.
Import Polymarket PolymarketService.

Lemma timedelta_seconds_within_a_day (delta : Z) :
  (0 <= delta < 86400 * 1000000)%Z ->
  timedelta_seconds delta = timedelta_total_seconds delta.
Proof.
  intros H. unfold timedelta_seconds, timedelta_total_seconds.
  apply Z.mod_small. split; [apply Z.div_pos; lia |].
  apply Z.div_lt_upper_bound; lia.
Qed.

(** Within a day of the entry's timestamp, the entry is valid exactly
    while less than 60 seconds have passed. *)
Lemma cache_valid_within_a_day cache now key entry :
  cache !! key = Some entry ->
  (0 <= now - timestamp entry < 86400 * 1000000)%Z ->
  _is_cache_valid cache now key = true
  <-> (now - timestamp entry < cache_timeout * 1000000)%Z.
Proof.
  intros Hentry Hday. unfold _is_cache_valid. rewrite Hentry.
  rewrite timedelta_seconds_within_a_day by exact Hday.
  unfold timedelta_total_seconds, cache_timeout. rewrite Z.ltb_lt.
  split; intros H.
  - apply Z.nle_gt. intros Hge. apply Z.nle_gt in H. apply H.
    apply Z.div_le_lower_bound; lia.
  - apply Z.div_lt_upper_bound; lia.
Qed.

Lemma cache_valid_absent cache now key :
  cache !! key = None -> _is_cache_valid cache now key = false.
Proof. intros H. unfold _is_cache_valid. now rewrite H. Qed.

Context {RawMarket : Type}.
Variable feed : Feed RawMarket.
Variable fromisoformat : string -> result datetime.

(** A valid entry is returned as it is, and nothing is fetched or stored. *)
Lemma get_all_markets_hit limit now utc_now now' cache entry :
  cache !! ("all_markets_" +:+ pretty limit) = Some entry ->
  _is_cache_valid cache now ("all_markets_" +:+ pretty limit) = true ->
  PolymarketService.get_all_markets feed fromisoformat limit now utc_now now' cache
  = (Ok (data entry), cache).
Proof.
  intros Hentry Hvalid. unfold PolymarketService.get_all_markets, cached.
  now rewrite Hvalid, Hentry.
Qed.

(** On a miss the listing is fetched and stored under the key with the
    time of storing. *)
Lemma get_all_markets_miss limit now utc_now now' cache markets :
  _is_cache_valid cache now ("all_markets_" +:+ pretty limit) = false ->
  Polymarket.get_all_markets feed fromisoformat utc_now = Ok markets ->
  let fetched := MarketsData (map market_dict (slice_to markets limit)) in
  PolymarketService.get_all_markets feed fromisoformat limit now utc_now now' cache
  = (Ok fetched,
     <[("all_markets_" +:+ pretty limit) :=
         {| data := fetched; timestamp := now' |}]> cache).
Proof.
  intros Hmiss Hfetch. unfold PolymarketService.get_all_markets.
  rewrite Hmiss. unfold bind, lift, _set_cache, ret. now rewrite Hfetch.
Qed.

End cache.

(** C9, where the code departs from it. An entry that is one day and ten
    seconds old is taken for valid, because only the seconds component of
    the elapsed time is compared with the 60 seconds: the cached listing
    is returned, and the feed is not asked. *)
Theorem stale_entry_taken_for_valid :
  PolymarketService.timedelta_total_seconds (a_day_and_ten_seconds - 0) = 86410%Z
  /\ PolymarketService.timedelta_seconds (a_day_and_ten_seconds - 0) = 10%Z
  /\ PolymarketService._is_cache_valid stale_cache a_day_and_ten_seconds
       "all_markets_1000" = true
  /\ PolymarketService.get_all_markets feed_timing_out no_date 1000
       a_day_and_ten_seconds a_day_and_ten_seconds a_day_and_ten_seconds
       stale_cache
     = (Ok (PolymarketService.MarketsData []), stale_cache).
Proof.
  assert (Hvalid : PolymarketService._is_cache_valid stale_cache
                     a_day_and_ten_seconds "all_markets_1000" = true).
  { unfold PolymarketService._is_cache_valid, stale_cache.
    now rewrite lookup_singleton_eq. }
  repeat split; try reflexivity; exact Hvalid.
Qed.

(** ** A worked cycle *)

Section worked_cycle.
Import Polymarket TradingService.
Local Open Scope Q_scope.

(** The dry run passes over event 1 and market A and decides on B. *)
Example worked_cycle_dry_run :
  run_autonomous_trading feed_two_events literal_eval_ids a_trader true a_world
  = (Ok (DryRunDecision market_b a_trade 0.55), a_world).
Proof. reflexivity. Qed.

(** The live run of the same cycle posts one order. *)
Example worked_cycle_live :
  let (r, w) :=
    run_autonomous_trading feed_two_events literal_eval_ids a_trader false a_world in
  r = Ok (LiveDecision market_b a_trade 0.55 (Some (Posted "matched")))
  /\ gateway_log w =
     [ GetPrice "22" "SELL"; GetOrderBook "22"; CreateOrder an_order;
       PostOrder an_order ].
Proof. split; reflexivity. Qed.

(** A wallet with its own [dry_run] attribute set: the simulation is
    reported after the order has been posted. *)
Lemma execute_market_order_dry_run_attribute_witness :
  execute_market_order (a_wallet true) literal_eval_ids market_b 1 a_world
  = (Ok (Some Simulated),
     {| gateway_log :=
          [ GetPrice "22" "SELL"; GetOrderBook "22"; CreateOrder an_order;
            PostOrder an_order ];
        trader_dry_run := false |}).
Proof.
  apply (execute_market_order_dry_run_attribute
           (a_wallet true) literal_eval_ids market_b 1 a_world "22"
           a_client 0.55 an_order "matched");
    (reflexivity || discriminate).
Defined.

(** C10 on an input: the wallet holds token 12, which an order on market A
    would buy. *)
Lemma execute_market_order_existing_position_witness :
  execute_market_order (a_wallet false) literal_eval_ids market_a 1 a_world
  = (Ok None, a_world).
Proof.
  apply (execute_market_order_existing_position
           (a_wallet false) literal_eval_ids market_a 1 a_world "12" 7);
    reflexivity.
Defined.

(** The scoring pass on the three markets: A scores 29 + 25 + 20 + 15, C
    scores 0 + 5 + 0 + 5, B is not a candidate, and the filter returns A
    before C. *)
Example scenario_filter :
  score_markets fromisoformat_days 0 [scenario_c; scenario_b; scenario_a]
  = [(scenario_c, score_market fromisoformat_days 0 scenario_c);
     (scenario_a, score_market fromisoformat_days 0 scenario_a)]
  /\ score_market fromisoformat_days 0 scenario_a = 89%float
  /\ score_market fromisoformat_days 0 scenario_c = 10%float
  /\ filter_markets_for_trading fromisoformat_days 0
       [scenario_c; scenario_b; scenario_a]
     = [scenario_a; scenario_c].
Proof. vm_compute. repeat split. Qed.

(** Upper case does not matter, and politics wins over crypto. *)
Example scenario_category :
  detect_category "Will BITCOIN reach $100k before the Election?" = "politics"
  /\ detect_category "Will BITCOIN reach $100k?" = "crypto"
  /\ detect_category "Is the moon full?" = "other".
Proof. repeat split; reflexivity. Qed.

(** C8 on an input: the lookup for event 1 and the forecast for market A
    raise, and the cycle returns. *)
Lemma cycle_tolerates_item_failures_witness :
  exists r w',
    run_autonomous_trading feed_two_events literal_eval_ids a_trader true a_world
    = (Ok r, w')
    /\ is_decision r || is_no_opportunity r = true.
Proof.
  apply (cycle_tolerates_item_failures literal_eval_ids
           feed_two_events a_trader true a_world);
    intros; reflexivity.
Defined.

End worked_cycle.

(** ** The catalog on its inputs *)

Section catalog_instances.
Import Polymarket PolymarketService.

(** Thirty seconds after it was stored, the entry is valid. *)
Lemma cache_valid_within_a_day_witness :
  _is_cache_valid stale_cache 30000000 "all_markets_1000" = true
  <-> (30000000 - 0 < cache_timeout * 1000000)%Z.
Proof.
  apply (cache_valid_within_a_day stale_cache 30000000 "all_markets_1000"
           {| data := MarketsData []; timestamp := 0 |});
    [reflexivity | simpl; lia].
Defined.

(** With an empty cache the listing is fetched and stored. *)
Lemma get_all_markets_miss_witness :
  PolymarketService.get_all_markets feed_without_match no_date 1000 5 6 7 ∅
  = (Ok (MarketsData []),
     <["all_markets_1000" := {| data := MarketsData []; timestamp := 7 |}]> ∅).
Proof.
  apply (get_all_markets_miss feed_without_match no_date 1000 5 6 7 ∅ []);
    reflexivity.
Defined.

(** The feed answers 404: the lookup of market 42 raises [ValueError]. *)
Lemma get_market_by_id_not_found_witness :
  Polymarket.get_market feed_not_found "42" = Ok None
  /\ PolymarketService.get_market_by_id feed_not_found "42" 0 0 ∅
     = (Raise (ValueError "Market 42 not found"), ∅).
Proof.
  apply (get_market_by_id_not_found feed_not_found "42" 0 0 ∅
           {| status_code := 404; json := Ok [] |});
    (reflexivity || discriminate).
Defined.

End catalog_instances.

(** * Further properties of the code *)

(** ** Sorting by a key *)

Section sorting.
Local Open Scope Q_scope.
Context {A : Type}.
Variable key : A -> Q.

Lemma insert_desc_perm x l : Permutation (insert_desc key x l) (x :: l).
Proof.
  induction l as [| y l IH]; simpl; [reflexivity |].
  destruct (Qltb (key x) (key y)); [| reflexivity].
  rewrite IH. apply perm_swap.
Qed.

Lemma sorted_desc_perm l : Permutation (sorted_desc key l) l.
Proof.
  induction l as [| x l IH]; simpl; [reflexivity |].
  rewrite insert_desc_perm. now apply perm_skip.
Qed.

Lemma insert_desc_sorted x l :
  Sorted (fun a b => key b <= key a) l ->
  Sorted (fun a b => key b <= key a) (insert_desc key x l).
Proof.
  induction l as [| y l IH]; intros Hs; simpl.
  - repeat constructor.
  - destruct (Qltb (key x) (key y)) eqn:E.
    + apply Sorted_inv in Hs as [Hs Hhd].
      constructor; [now apply IH |].
      destruct l as [| z l]; simpl.
      * constructor. apply Qltb_lt in E. now apply Qlt_le_weak.
      * destruct (Qltb (key x) (key z)).
        -- constructor. now apply HdRel_inv in Hhd.
        -- constructor. apply Qltb_lt in E. now apply Qlt_le_weak.
    + constructor; [exact Hs |]. constructor. now apply Qltb_ge in E.
Qed.

Lemma sorted_desc_sorted l :
  StronglySorted (fun a b => key b <= key a) (sorted_desc key l).
Proof.
  apply Sorted_StronglySorted.
  - intros a b c Hab Hbc. eapply Qle_trans; eassumption.
  - induction l as [| x l IH]; simpl; [constructor |].
    now apply insert_desc_sorted.
Qed.

Lemma sorted_desc_length l : List.length (sorted_desc key l) = List.length l.
Proof. apply Permutation_length, sorted_desc_perm. Qed.

Lemma sorted_desc_In x l : In x (sorted_desc key l) <-> In x l.
Proof.
  split; apply Permutation_in; [| symmetry]; apply sorted_desc_perm.
Qed.

End sorting.

(** A sort on a key that is the same for all elements changes nothing. *)
Lemma sorted_desc_constant {A} (q : Q) (l : list A) :
  sorted_desc (fun _ => q) l = l.
Proof.
  induction l as [| x l IH]; simpl; [reflexivity |]. rewrite IH.
  destruct l as [| y l]; simpl; [reflexivity |].
  now replace (Qltb q q) with false
    by (symmetry; apply Qltb_ge, Qle_refl).
Qed.

(** ** What the filter selects *)

Section selection.
Import Polymarket.
Local Open Scope Q_scope.

Variable fromisoformat : string -> result datetime.
Variable now : Z.

Abbreviation score_market := (score_market fromisoformat now).
Abbreviation score_markets := (score_markets fromisoformat now).

Lemma category_count_perm c (l1 l2 : list SimpleMarket) :
  Permutation l1 l2 -> category_count c l1 = category_count c l2.
Proof.
  intros H. unfold category_count. apply Permutation_length.
  induction H; simpl.
  - reflexivity.
  - destruct (String.eqb _ _); [now apply perm_skip | assumption].
  - destruct (String.eqb _ _), (String.eqb _ _);
      try reflexivity; apply perm_swap.
  - etransitivity; eassumption.
Qed.

Lemma category_count_sublist c (l1 l2 : list SimpleMarket) :
  l1 `sublist_of` l2 -> (category_count c l1 <= category_count c l2)%nat.
Proof.
  intros H. unfold category_count. induction H; simpl.
  - lia.
  - destruct (String.eqb _ _); simpl; lia.
  - destruct (String.eqb _ _); simpl; lia.
Qed.

Lemma category_count_le_length c (l : list SimpleMarket) :
  (category_count c l <= List.length l)%nat.
Proof. apply List.filter_length_le. Qed.

Lemma category_count_app c (l1 l2 : list SimpleMarket) :
  category_count c (l1 ++ l2)%list
  = (category_count c l1 + category_count c l2)%nat.
Proof. unfold category_count. now rewrite List.filter_app, List.length_app. Qed.

(** The selection loop adds to what is selected a sublist of what it
    walks. *)
Lemma select_diverse_sublist scored : forall featured counts,
  exists chosen,
    select_diverse scored featured counts = (featured ++ chosen)%list
    /\ chosen `sublist_of` map fst scored.
Proof.
  induction scored as [| [market score] rest IH]; intros featured counts.
  - exists []. split; [now rewrite app_nil_r | constructor].
  - rewrite select_diverse_cons. cbv zeta.
    destruct (_ <? _)%nat.
    + destruct (_ <=? _)%nat.
      * exists [market]. split; [reflexivity |].
        simpl. apply sublist_skip, sublist_nil_l.
      * destruct (IH (featured ++ [market])%list
                    (<[detect_category (question market) :=
                         (default 0%nat (counts !! detect_category (question market))
                          + 1)%nat]> counts))
          as (chosen & Heq & Hsub).
        exists (market :: chosen). split.
        -- now rewrite Heq, <- app_assoc.
        -- simpl. now apply sublist_skip.
    + destruct (IH featured counts) as (chosen & Heq & Hsub).
      exists chosen. split; [exact Heq |].
      simpl. now apply sublist_cons.
Qed.

(** When no category is short of room and the bound is not reached, the
    loop selects everything it walks. *)
Lemma select_diverse_all scored : forall featured counts,
  (forall c, default 0%nat (counts !! c) = category_count c featured) ->
  (forall c, (category_count c featured + category_count c (map fst scored)
              <= max_per_category)%nat) ->
  (List.length featured + List.length scored <= max_featured)%nat ->
  select_diverse scored featured counts = (featured ++ map fst scored)%list.
Proof.
  induction scored as [| [market score] rest IH];
    intros featured counts Hcounts Hroom Hlen.
  - simpl. now rewrite app_nil_r.
  - rewrite select_diverse_cons. cbv zeta.
    set (category := detect_category (question market)).
    assert (Hhead : category_count category (map fst ((market, score) :: rest))
                    = S (category_count category (map fst rest))).
    { unfold category_count. simpl. fold category.
      now rewrite String.eqb_refl. }
    destruct (Nat.ltb_spec (default 0%nat (counts !! category)) max_per_category)
      as [_ | Hfull].
    2: { specialize (Hroom category). rewrite Hcounts in Hfull. lia. }
    simpl in Hlen.
    destruct (Nat.leb_spec max_featured (List.length (featured ++ [market])%list))
      as [Hstop | Hgo].
    + rewrite List.length_app in Hstop. simpl in Hstop.
      destruct rest; [reflexivity | simpl in Hlen; lia].
    + rewrite IH.
      * simpl. now rewrite <- app_assoc.
      * intros c. rewrite category_count_snoc. fold category.
        destruct (String.eqb_spec category c) as [<- | Hne].
        -- rewrite lookup_insert_eq. simpl. rewrite Hcounts. lia.
        -- rewrite lookup_insert_ne by exact Hne. rewrite Hcounts. lia.
      * intros c. specialize (Hroom c). rewrite category_count_snoc.
        fold category. unfold category_count in Hroom |- *. simpl in Hroom.
        fold category in Hroom.
        destruct (String.eqb category c); simpl in Hroom; lia.
      * rewrite List.length_app. simpl. lia.
Qed.

Lemma ranked_scores markets p :
  In p (sort_by_score (score_markets markets)) ->
  snd p = score_market (fst p) /\ In (fst p) markets /\ active (fst p) = true.
Proof.
  intros H.
  apply (Permutation_in _ (sort_by_score_perm _)) in H.
  rewrite score_markets_filter in H. apply in_map_iff in H as (m & <- & Hin).
  apply List.filter_In in Hin as [Hin Hact]. now simpl.
Qed.

Lemma ranked_markets markets :
  Permutation (map fst (sort_by_score (score_markets markets)))
    (List.filter active markets).
Proof.
  rewrite (Permutation_map fst (sort_by_score_perm _)), score_markets_filter.
  rewrite map_map. simpl. now rewrite map_id.
Qed.

End selection.

Section sublists.
Context {A : Type}.

Lemma sublist_In (l1 l2 : list A) (x : A) :
  l1 `sublist_of` l2 -> In x l1 -> In x l2.
Proof.
  intros Hsub Hin. apply list_elem_of_In.
  eapply elem_of_sublist; [| exact Hsub]. now apply list_elem_of_In.
Qed.

Lemma sublist_StronglySorted (R : A -> A -> Prop) (l1 l2 : list A) :
  l1 `sublist_of` l2 -> StronglySorted R l2 -> StronglySorted R l1.
Proof.
  intros Hsub. induction Hsub as [| x l1 l2 Hsub IH | x l1 l2 Hsub IH];
    intros Hs.
  - constructor.
  - apply StronglySorted_inv in Hs as [Hs Hall]. constructor; [now apply IH |].
    rewrite List.Forall_forall in *. intros y Hy. apply Hall.
    now apply (sublist_In l1 l2).
  - apply StronglySorted_inv in Hs as [Hs _]. now apply IH.
Qed.

Lemma slice_to_sublist (l : list A) (n : Z) : slice_to l n `sublist_of` l.
Proof. unfold slice_to. destruct (0 <=? n)%Z; apply sublist_take. Qed.

Lemma slice_to_length (l : list A) (n : Z) :
  (0 <= n)%Z -> (Z.of_nat (List.length (slice_to l n)) <= n)%Z.
Proof.
  intros Hn. unfold slice_to. destruct (Z.leb_spec 0 n); [| lia].
  rewrite List.length_firstn. lia.
Qed.

End sublists.

Section selection_theorems.
Import Polymarket.
Local Open Scope Q_scope.

Variable fromisoformat : string -> result datetime.
Variable now : Z.

Abbreviation score_market := (score_market fromisoformat now).
Abbreviation score_markets := (score_markets fromisoformat now).

Lemma ranked_markets_sorted markets :
  StronglySorted (fun x y => (score_market y <=? score_market x)%float = true)
    (map fst (sort_by_score (score_markets markets))).
Proof.
  pose proof (ranked_scores fromisoformat now markets) as Hscore.
  assert (Hs : StronglySorted by_score_desc (sort_by_score (score_markets markets)))
    by apply sort_by_score_sorted, score_markets_number.
  induction Hs as [| p l Hs IH Hall]; simpl; constructor.
  - apply IH. intros q Hq. apply Hscore. now right.
  - rewrite List.Forall_forall in *. intros m Hm.
    apply in_map_iff in Hm as (q & <- & Hq).
    specialize (Hall q Hq). unfold by_score_desc in Hall.
    destruct (Hscore p (or_introl eq_refl)) as [Hp _].
    destruct (Hscore q (or_intror Hq)) as [Hq' _].
    now rewrite <- Hp, <- Hq'.
Qed.

Lemma filter_markets_for_trading_sublist markets :
  filter_markets_for_trading fromisoformat now markets
  `sublist_of` map fst (sort_by_score (score_markets markets)).
Proof.
  unfold filter_markets_for_trading.
  now destruct (select_diverse_sublist
                  (sort_by_score (score_markets markets)) [] ∅)
    as (chosen & -> & Hsub).
Qed.

Lemma filter_markets_for_trading_In markets m :
  In m (filter_markets_for_trading fromisoformat now markets) ->
  In m markets /\ active m = true.
Proof.
  intros Hm.
  apply (sublist_In _ _ _ (filter_markets_for_trading_sublist markets)) in Hm.
  apply in_map_iff in Hm as (p & <- & Hp).
  now apply (ranked_scores fromisoformat now markets p).
Qed.

Lemma filter_markets_for_trading_caps markets :
  (List.length (filter_markets_for_trading fromisoformat now markets) <= 50)%nat
  /\ forall c,
      (category_count c (filter_markets_for_trading fromisoformat now markets)
       <= 8)%nat.
Proof.
  exact (select_diverse_bounded
           (sort_by_score (score_markets markets)) [] ∅ selection_inv_init).
Qed.

(** The listing by spread that [get_tradeable_markets] and
    [_get_recommendations_sync] build from the filter. *)
Lemma listing_by_spread markets (limit : Z) :
  let listing :=
    slice_to (sorted_desc spread
                (filter_markets_for_trading fromisoformat now markets)) limit in
  (List.length listing <= 50)%nat
  /\ ((0 <= limit)%Z -> (Z.of_nat (List.length listing) <= limit)%Z)
  /\ (forall c, (category_count c listing <= 8)%nat)
  /\ (forall m, In m listing -> In m markets /\ active m = true)
  /\ StronglySorted (fun a b => spread b <= spread a) listing.
Proof.
  intros listing.
  pose proof (slice_to_sublist
                (sorted_desc spread
                   (filter_markets_for_trading fromisoformat now markets))
                limit) as Hsub.
  fold listing in Hsub.
  destruct (filter_markets_for_trading_caps markets) as [Hlen Hcap].
  split; [| split; [| split; [| split]]].
  - apply sublist_length in Hsub. rewrite sorted_desc_length in Hsub.
    etransitivity; [exact Hsub | exact Hlen].
  - apply slice_to_length.
  - intros c. apply (category_count_sublist c) in Hsub.
    rewrite (category_count_perm c _ _ (sorted_desc_perm spread _)) in Hsub.
    specialize (Hcap c). lia.
  - intros m Hm. apply (sublist_In _ _ _ Hsub) in Hm.
    apply sorted_desc_In in Hm. now apply filter_markets_for_trading_In.
  - eapply sublist_StronglySorted; [exact Hsub | apply sorted_desc_sorted].
Qed.

(** What [filter_markets_for_trading] returns is taken from the ranking
    by binary64 score, in the order of the ranking: only active markets
    of the input, with binary64 scores that do not go up. *)
Theorem filter_markets_for_trading_selection (markets : list SimpleMarket) :
  let out := filter_markets_for_trading fromisoformat now markets in
  out `sublist_of` map fst (sort_by_score (score_markets markets))
  /\ (forall m, In m out -> In m markets /\ active m = true)
  /\ StronglySorted
       (fun x y => (score_market y <=? score_market x)%float = true) out.
Proof.
  intros out. subst out.
  split; [apply filter_markets_for_trading_sublist |].
  split; [apply filter_markets_for_trading_In |].
  eapply sublist_StronglySorted;
    [apply filter_markets_for_trading_sublist | apply ranked_markets_sorted].
Qed.

(** When the input has at most 50 active markets and at most 8 of each
    category, [filter_markets_for_trading] drops none of them: it returns
    the active markets in the order of the ranking by binary64 score. *)
Theorem filter_markets_for_trading_keeps_all (markets : list SimpleMarket) :
  (List.length (List.filter active markets) <= 50)%nat ->
  (forall c, (category_count c (List.filter active markets) <= 8)%nat) ->
  filter_markets_for_trading fromisoformat now markets
  = map fst (sort_by_score (score_markets markets))
  /\ Permutation (filter_markets_for_trading fromisoformat now markets)
       (List.filter active markets).
Proof.
  intros Hlen Hcat.
  assert (Heq : filter_markets_for_trading fromisoformat now markets
                = map fst (sort_by_score (score_markets markets))).
  { unfold filter_markets_for_trading.
    rewrite select_diverse_all; [reflexivity | | |].
    - intros c. now rewrite lookup_empty.
    - intros c.
      rewrite (category_count_perm c _ _ (ranked_markets fromisoformat now markets)).
      apply Hcat.
    - simpl. rewrite <- (length_map fst).
      rewrite (Permutation_length (ranked_markets fromisoformat now markets)).
      exact Hlen. }
  split; [exact Heq |]. rewrite Heq. apply ranked_markets.
Qed.

End selection_theorems.

(** ** The listings built on the filter *)

Section tradeable_listings.
Import Polymarket PolymarketService.
Local Open Scope Q_scope.

Context {RawMarket : Type}.
Variable feed : Feed RawMarket.
Variable fromisoformat : string -> result datetime.

Lemma map_market_dict (l : list SimpleMarket) :
  map market (map market_dict l) = l.
Proof. rewrite map_map. simpl. apply map_id. Qed.

(** On a cache miss, when the client's listing succeeds,
    [get_tradeable_markets] returns and stores the dictionaries of at most
    50 and (for a limit that is not negative) at most [limit] markets, at
    most 8 of any category, all of them active markets of the client's
    listing, in the order of their spreads, the widest first. *)
Theorem get_tradeable_markets_miss
    (limit now utc_now utc_now' now' : Z) (cache : gmap string CacheEntry)
    (markets : list SimpleMarket) :
  _is_cache_valid cache now ("tradeable_markets_" +:+ pretty limit) = false ->
  Polymarket.get_all_markets feed fromisoformat utc_now = Ok markets ->
  exists tradeable : list SimpleMarket,
    get_tradeable_markets feed fromisoformat limit now utc_now utc_now' now' cache
    = (Ok (MarketsData (map market_dict tradeable)),
       <["tradeable_markets_" +:+ pretty limit :=
           {| data := MarketsData (map market_dict tradeable);
              timestamp := now' |}]> cache)
    /\ (List.length tradeable <= 50)%nat
    /\ ((0 <= limit)%Z -> (Z.of_nat (List.length tradeable) <= limit)%Z)
    /\ (forall c, (category_count c tradeable <= 8)%nat)
    /\ (forall m, In m tradeable -> In m markets /\ active m = true)
    /\ StronglySorted (fun a b => spread b <= spread a) tradeable.
Proof.
  intros Hmiss Hlisting.
  exists (slice_to (sorted_desc spread
                      (filter_markets_for_trading fromisoformat utc_now' markets))
            limit).
  split; [| apply listing_by_spread].
  unfold get_tradeable_markets. rewrite Hmiss.
  unfold bind, lift. now rewrite Hlisting.
Qed.

End tradeable_listings.

Section recommendations.
Import Polymarket.
Local Open Scope Q_scope.

Context {RawMarket : Type}.
Variable feed : Feed RawMarket.
Variable fromisoformat : string -> result datetime.

Lemma recommendation_confidence (m : SimpleMarket) :
  AIListings.confidence (AIListings.recommendation_of m) <= 1
  /\ (0 <= spread m -> 0 <= AIListings.confidence (AIListings.recommendation_of m)).
Proof.
  simpl. rewrite py_min_Qmin. split.
  - eapply Qle_trans; [apply Q.le_min_r | unfold Qle; simpl; lia].
  - intros H. apply Q.min_glb; [| unfold Qle; simpl; lia].
    apply Qmult_le_0_compat; [exact H | unfold Qle; simpl; lia].
Qed.

(** [_get_recommendations_sync] answers the empty list when the market
    listing raises, and otherwise at most 50 and (for a limit that is not
    negative) at most [limit] recommendations, each for an active market,
    with a confidence of at most 1, in the order of their spreads, the
    widest first. *)
Theorem recommendations_spec (category : option string) (limit : Z)
    (utc_now utc_now' : Z) :
  let out :=
    AIListings._get_recommendations_sync feed fromisoformat category limit
      utc_now utc_now' in
  (forall e, Polymarket.get_all_markets feed fromisoformat utc_now = Raise e ->
             out = [])
  /\ (List.length out <= 50)%nat
  /\ ((0 <= limit)%Z -> (Z.of_nat (List.length out) <= limit)%Z)
  /\ (forall r, In r out ->
        AIListings.active r = true /\ AIListings.confidence r <= 1)
  /\ StronglySorted
       (fun a b => AIListings.spread b <= AIListings.spread a) out.
Proof.
  intros out. subst out. unfold AIListings._get_recommendations_sync.
  destruct (Polymarket.get_all_markets feed fromisoformat utc_now)
    as [markets | e].
  2: { simpl. repeat split; try lia; try constructor; intros; contradiction. }
  destruct (listing_by_spread fromisoformat utc_now' markets limit)
    as (Hlen & Hlimit & _ & Hin & Hsorted).
  cbv zeta in *.
  set (listing := slice_to _ limit) in *.
  split; [discriminate |].
  rewrite length_map.
  split; [exact Hlen |]. split; [exact Hlimit |]. split.
  - intros r Hr. apply in_map_iff in Hr as (m & <- & Hm). split.
    + simpl. now apply Hin.
    + apply recommendation_confidence.
  - clear -Hsorted. induction Hsorted as [| m l Hs IH Hall]; simpl;
      constructor; [exact IH |].
    rewrite List.Forall_forall in *. intros r Hr.
    apply in_map_iff in Hr as (m' & <- & Hm'). simpl. now apply Hall.
Qed.

End recommendations.

(** ** What the client lists *)

Section catalog_contents.
Import Polymarket.
Local Open Scope Q_scope.

Context {RawMarket : Type}.
Variable feed : Feed RawMarket.
Variable fromisoformat : string -> result datetime.
Variable now : Z.

Abbreviation known_expired := (known_expired fromisoformat now).

Lemma collect_markets_In (data : list RawMarket) (m : SimpleMarket) :
  In m (collect_markets feed fromisoformat now data)
  <-> (exists market, In market data /\ read_market feed market = Ok m)
      /\ ~ known_expired m.
Proof.
  induction data as [| market rest IH]; simpl.
  - split; [contradiction | now intros [(? & [] & _) _]].
  - unfold map_api_to_market.
    assert (Hrest : In m (collect_markets feed fromisoformat now rest) ->
                    (exists market0, (market = market0 \/ In market0 rest)
                                     /\ read_market feed market0 = Ok m)
                    /\ ~ known_expired m).
    { intros H. apply IH in H as [(market0 & Hin & Hread) Hfresh].
      split; [exists market0; auto | exact Hfresh]. }
    destruct (read_market feed market) as [m0 | e] eqn:Hread; simpl.
    2: { split; [exact Hrest |].
         intros [(market0 & [<- | Hin] & Hread0) Hfresh]; [congruence |].
         apply IH. split; [now exists market0 | exact Hfresh]. }
    assert (Hback : forall keep : Prop,
      (known_expired m0 -> ~ keep) -> (~ known_expired m0 -> keep) ->
      (keep /\ m0 = m \/ In m (collect_markets feed fromisoformat now rest)) <->
      (exists market0, (market = market0 \/ In market0 rest)
                       /\ read_market feed market0 = Ok m)
      /\ ~ known_expired m).
    { intros keep Hno Hyes. split.
      - intros [[Hkeep <-] | H]; [| now apply Hrest].
        split; [exists market; auto |]. intros Hexp. now apply Hno.
      - intros [(market0 & [<- | Hin] & Hread0) Hfresh].
        + left. assert (m0 = m) as -> by congruence. split; [now apply Hyes | reflexivity].
        + right. apply IH. split; [now exists market0 | exact Hfresh]. }
    destruct (String.eqb_spec (end_ m0) "") as [Hempty | Hgiven].
    { simpl. rewrite <- (Hback True).
      - tauto.
      - intros [Hne _]. contradiction.
      - trivial. }
    destruct (fromisoformat (end_ m0)) as [end_date | e] eqn:Hparse.
    2: { simpl. rewrite <- (Hback True).
         - tauto.
         - intros (_ & d & Hd & _). congruence.
         - trivial. }
    unfold later_than, current_time. simpl.
    destruct (aware end_date) eqn:Haware; simpl.
    2: { rewrite <- (Hback True).
         - tauto.
         - intros (_ & d & Hd & Ha & _). congruence.
         - trivial. }
    destruct (Z.ltb_spec now (micros end_date)) as [Hlater | Hover]; simpl.
    + rewrite <- (Hback True).
      * tauto.
      * intros (_ & d & Hd & _ & Hle).
        assert (d = end_date) as -> by congruence. lia.
      * trivial.
    + rewrite <- (Hback False).
      * tauto.
      * tauto.
      * intros Hfresh. apply Hfresh. split; [exact Hgiven |].
        exists end_date. auto.
Qed.

Lemma collect_markets_sublist (data : list RawMarket) :
  collect_markets feed fromisoformat now data
  `sublist_of`
  omap (fun market => match read_market feed market with
                      | Ok m => Some m
                      | Raise _ => None
                      end) data.
Proof.
  induction data as [| market rest IH]; simpl; [constructor |].
  unfold map_api_to_market.
  destruct (read_market feed market) as [m0 | e]; simpl; [| exact IH].
  destruct (String.eqb _ _); [now apply sublist_skip |].
  destruct (fromisoformat _) as [d |]; [| now apply sublist_skip].
  destruct (later_than _ _) as [[|] |];
    [now apply sublist_skip | now apply sublist_cons | now apply sublist_skip].
Qed.

(** When the feed answers the market listing with records, the client
    lists, in the order of the feed, exactly the markets that some record
    reads as and that are not known to be over: a record that cannot be
    read is skipped, and a market whose end date is missing, does not
    parse or carries no time zone is listed. *)
Theorem get_all_markets_contents (res : Response RawMarket)
    (data : list RawMarket) :
  httpx_get feed MarketsQuery = Ok res ->
  status_code res = 200%Z ->
  json res = Ok data ->
  exists markets,
    Polymarket.get_all_markets feed fromisoformat now = Ok markets
    /\ (forall m, In m markets
                  <-> (exists market, In market data
                                      /\ read_market feed market = Ok m)
                      /\ ~ known_expired m)
    /\ markets `sublist_of`
       omap (fun market => match read_market feed market with
                           | Ok m => Some m
                           | Raise _ => None
                           end) data.
Proof.
  intros Hres Hstatus Hjson.
  exists (collect_markets feed fromisoformat now data).
  split; [| split].
  - unfold Polymarket.get_all_markets. now rewrite Hres, Hstatus, Hjson.
  - intros m. apply collect_markets_In.
  - apply collect_markets_sublist.
Qed.

Lemma collect_events_In (records : list RawMarket) (events : list SimpleEvent) :
  collect_events feed records = Ok events ->
  forall e, In e events <->
    exists market v, In market records /\ volume_of feed market = Ok v
                     /\ 10000 < v /\ event_of feed market = Ok e.
Proof.
  revert events. induction records as [| market rest IH]; simpl; intros events.
  - intros [= <-] e. split; [contradiction | now intros (? & ? & [] & _)].
  - destruct (volume_of feed market) as [v | x] eqn:Hv; [| discriminate].
    destruct (Qltb 10000 v) eqn:Hbig.
    + destruct (event_of feed market) as [event | x] eqn:He; [| discriminate].
      destruct (collect_events feed rest) as [events' | x]; [| discriminate].
      intros [= <-] e. simpl. rewrite (IH events' eq_refl e). split.
      * intros [<- | (market0 & v0 & Hin & H)].
        -- exists market, v. apply Qltb_lt in Hbig. auto.
        -- exists market0, v0. tauto.
      * intros (market0 & v0 & [<- | Hin] & Hv0 & Hbig0 & He0).
        -- left. congruence.
        -- right. now exists market0, v0.
    + intros Hrest e. rewrite (IH events Hrest e). split.
      * intros (market0 & v0 & Hin & H). exists market0, v0. tauto.
      * intros (market0 & v0 & [<- | Hin] & Hv0 & Hbig0 & He0).
        -- apply Qltb_ge in Hbig. assert (v0 = v) as -> by congruence.
           exfalso. eapply Qlt_not_le; eassumption.
        -- now exists market0, v0.
Qed.

Lemma collect_events_raises (records : list RawMarket) (market : RawMarket) :
  In market records ->
  (exists x, volume_of feed market = Raise x) ->
  exists x, collect_events feed records = Raise x.
Proof.
  intros Hin [x Hx].
  induction records as [| market0 rest IH]; simpl; [contradiction |].
  destruct Hin as [-> | Hin].
  - rewrite Hx. now exists x.
  - destruct (IH Hin) as [y Hy]. rewrite Hy.
    destruct (volume_of feed market0) as [v | z]; [| now exists z].
    destruct (Qltb 10000 v); [| now exists y].
    destruct (event_of feed market0) as [event | z]; [now exists y | now exists z].
Qed.

(** Every event of the client's event listing was made from a record of
    the feed's answer whose volume is above 10000. *)
Theorem get_all_events_provenance (e : SimpleEvent) :
  In e (Polymarket.get_all_events feed) ->
  exists res records market v,
    httpx_get feed EventsQuery = Ok res
    /\ status_code res = 200%Z
    /\ json res = Ok records
    /\ In market records
    /\ volume_of feed market = Ok v /\ 10000 < v
    /\ event_of feed market = Ok e.
Proof.
  unfold Polymarket.get_all_events.
  destruct (httpx_get feed EventsQuery) as [res | x]; [| contradiction].
  destruct (Z.eqb_spec (status_code res) 200) as [Hstatus | _];
    [| contradiction].
  destruct (json res) as [records | x] eqn:Hjson; [| contradiction].
  intros Hin.
  assert (H : In e match collect_events feed records with
                   | Ok events => events
                   | Raise _ => []
                   end).
  { destruct records; [contradiction | exact Hin]. }
  destruct (collect_events feed records) as [events | x] eqn:Hcollect;
    [| contradiction].
  apply (collect_events_In records events Hcollect) in H
    as (market & v & H).
  exists res, records, market, v. tauto.
Qed.

(** One record whose volume cannot be read empties the whole event
    listing, where the market listing would skip the record: the loop
    over the records has no [try] of its own. *)
Theorem get_all_events_all_or_nothing (res : Response RawMarket)
    (records : list RawMarket) (market : RawMarket) (x : exn) :
  httpx_get feed EventsQuery = Ok res ->
  json res = Ok records ->
  In market records ->
  volume_of feed market = Raise x ->
  Polymarket.get_all_events feed = [].
Proof.
  intros Hres Hjson Hin Hx. unfold Polymarket.get_all_events.
  rewrite Hres, Hjson.
  destruct (status_code res =? 200)%Z; [| reflexivity].
  destruct (collect_events_raises records market Hin (ex_intro _ x Hx))
    as [y Hy].
  destruct records; [contradiction |]. now rewrite Hy.
Qed.

End catalog_contents.

(** ** The cache, from storing to reading *)

Section cache_round_trip.
Import Polymarket PolymarketService.

Lemma cache_valid_fresh cache now key entry :
  cache !! key = Some entry ->
  (0 <= now - timestamp entry < cache_timeout * 1000000)%Z ->
  _is_cache_valid cache now key = true.
Proof.
  intros Hentry Hfresh. unfold _is_cache_valid. rewrite Hentry.
  unfold cache_timeout in *.
  rewrite timedelta_seconds_within_a_day by lia.
  unfold timedelta_total_seconds. apply Z.ltb_lt.
  apply Z.div_lt_upper_bound; lia.
Qed.

(** What [_set_cache] stores under a key at time [t] is valid and read
    back as it was stored for the 60 seconds that follow, and the entries
    under the other keys are as they were. *)
Theorem set_cache_round_trip (key : string) (d : CacheData) (t now : Z)
    (cache : gmap string CacheEntry) :
  (0 <= now - t < cache_timeout * 1000000)%Z ->
  let cache1 := snd (_set_cache key d t cache) in
  _is_cache_valid cache1 now key = true
  /\ cached key cache1 = (Ok d, cache1)
  /\ forall key', key' <> key ->
       cache1 !! key' = cache !! key'
       /\ _is_cache_valid cache1 now key' = _is_cache_valid cache now key'.
Proof.
  intros Hfresh cache1. subst cache1. simpl. split; [| split].
  - apply (cache_valid_fresh _ _ _ {| data := d; timestamp := t |});
      [apply lookup_insert_eq | exact Hfresh].
  - unfold cached. now rewrite lookup_insert_eq.
  - intros key' Hne. unfold _is_cache_valid.
    now rewrite lookup_insert_ne by congruence.
Qed.

Context {RawMarket : Type}.
Variable fromisoformat : string -> result datetime.

(** On a cache miss, when the feed answers the lookup of an id that is
    not empty with records, the service returns the first record read as a
    market, with the id asked for as its token ids and with its category,
    and stores it; for the 60 seconds that follow the lookup of the same
    id returns the stored dictionary, whatever the feed would answer. *)
Theorem get_market_by_id_found (feed : Feed RawMarket) (market_id : string)
    (now now' : Z) (cache : gmap string CacheEntry) (res : Response RawMarket)
    (record : RawMarket) (records : list RawMarket) (m : SimpleMarket) :
  _is_cache_valid cache now ("market_" +:+ market_id) = false ->
  httpx_get feed (TokenQuery market_id) = Ok res ->
  status_code res = 200%Z ->
  json res = Ok (record :: records) ->
  read_market feed record = Ok m ->
  market_id <> "" ->
  let found := market_dict (set_clob_token_ids market_id m) in
  let cache1 :=
    <["market_" +:+ market_id :=
        {| data := MarketData found; timestamp := now' |}]> cache in
  get_market_by_id feed market_id now now' cache = (Ok (MarketData found), cache1)
  /\ clob_token_ids (market found) = market_id
  /\ category found = detect_category (question m)
  /\ forall (feed2 : Feed RawMarket) (now2 now2' : Z),
       (0 <= now2 - now' < cache_timeout * 1000000)%Z ->
       get_market_by_id feed2 market_id now2 now2' cache1
       = (Ok (MarketData found), cache1).
Proof.
  intros Hmiss Hres Hstatus Hjson Hread Hid found cache1.
  split; [| split; [reflexivity | split; [reflexivity |]]].
  - unfold get_market_by_id. rewrite Hmiss.
    unfold bind, lift, Polymarket.get_market, map_api_to_market.
    rewrite Hres, Hstatus, Hjson. simpl. rewrite Hread.
    destruct (String.eqb_spec market_id ""); [contradiction | reflexivity].
  - intros feed2 now2 now2' Hfresh. unfold get_market_by_id.
    rewrite (cache_valid_fresh cache1 now2 _
               {| data := MarketData found; timestamp := now' |});
      [| apply lookup_insert_eq | exact Hfresh].
    unfold cached, cache1. now rewrite lookup_insert_eq.
Qed.

End cache_round_trip.

(** ** The markets endpoint *)

Section markets_endpoint.
Import Polymarket PolymarketService.
Local Open Scope Q_scope.

Lemma insert_asc_perm {A} (key : A -> string) x l :
  Permutation (insert_asc key x l) (x :: l).
Proof.
  induction l as [| y l IH]; simpl; [reflexivity |].
  destruct (String.ltb _ _); [| reflexivity].
  rewrite IH. apply perm_swap.
Qed.

Lemma sorted_asc_perm {A} (key : A -> string) l :
  Permutation (sorted_asc key l) l.
Proof.
  induction l as [| x l IH]; simpl; [reflexivity |].
  rewrite insert_asc_perm. now apply perm_skip.
Qed.

Lemma string_ltb_asym (s t : string) :
  String.ltb s t = true -> String.ltb t s = false.
Proof.
  unfold String.ltb. rewrite (String.compare_antisym s t).
  now destruct (String.compare t s).
Qed.

Lemma sorted_asc_sorted {A} (key : A -> string) l :
  Sorted (fun a b => String.ltb (key b) (key a) = false) (sorted_asc key l).
Proof.
  induction l as [| x l IH]; simpl; [constructor |].
  revert IH. generalize (sorted_asc key l). clear l.
  intros l Hs. induction l as [| y l IH]; simpl.
  - repeat constructor.
  - destruct (String.ltb (key y) (key x)) eqn:E.
    + apply Sorted_inv in Hs as [Hs Hhd].
      constructor; [now apply IH |].
      destruct l as [| z l]; simpl.
      * constructor. now apply string_ltb_asym.
      * destruct (String.ltb (key z) (key x)).
        -- constructor. now apply HdRel_inv in Hhd.
        -- constructor. now apply string_ltb_asym.
    + constructor; [exact Hs |]. now constructor.
Qed.

Lemma filter_listed (category : option Endpoints.MarketCategory)
    (active_only : bool) (l : list MarketDict) :
  (if active_only
   then List.filter (fun m => active (market m))
          match category with
          | Some c =>
              List.filter
                (fun m => String.eqb (PolymarketService.category m)
                            (Endpoints.category_value c)) l
          | None => l
          end
   else match category with
        | Some c =>
            List.filter
              (fun m => String.eqb (PolymarketService.category m)
                          (Endpoints.category_value c)) l
        | None => l
        end)
  = List.filter (listed category active_only) l.
Proof.
  unfold listed.
  induction l as [| d l IH]; simpl.
  - now destruct active_only, category.
  - destruct active_only, category as [c |]; simpl in *;
      repeat (destruct (String.eqb _ _); simpl);
      repeat (destruct (active _); simpl);
      rewrite ?Bool.andb_true_r in *; congruence.
Qed.

(** What the markets endpoint does to a listing: it keeps the
    dictionaries of the category asked for and, with [active_only], the
    active ones; it orders them by spread, the widest first, for the sort
    key "spread" and by end date for "end_date"; for every other sort key,
    "volume" included, it leaves them in the order of the listing. *)
Theorem arrange_markets_spec (category : option Endpoints.MarketCategory)
    (active_only : bool) (sort_by : string) (l : list MarketDict) :
  let out := Endpoints.arrange_markets category active_only sort_by l in
  Permutation out (List.filter (listed category active_only) l)
  /\ (sort_by = "spread" ->
      StronglySorted (fun a b => spread (market b) <= spread (market a)) out)
  /\ (sort_by = "end_date" ->
      Sorted (fun a b => String.ltb (end_ (market b)) (end_ (market a)) = false)
        out)
  /\ (sort_by <> "spread" -> sort_by <> "end_date" ->
      out = List.filter (listed category active_only) l).
Proof.
  intros out. subst out. unfold Endpoints.arrange_markets.
  rewrite filter_listed.
  set (kept := List.filter (listed category active_only) l).
  destruct (String.eqb_spec sort_by "spread") as [-> | Hspread].
  { split; [apply sorted_desc_perm |]. split; [intros _; apply sorted_desc_sorted |].
    split; [discriminate | congruence]. }
  destruct (String.eqb_spec sort_by "volume") as [-> | Hvolume].
  { rewrite sorted_desc_constant.
    split; [reflexivity |]. split; [congruence |]. split; [discriminate | reflexivity]. }
  destruct (String.eqb_spec sort_by "end_date") as [-> | Hend].
  { split; [apply sorted_asc_perm |]. split; [congruence |].
    split; [intros _; apply sorted_asc_sorted | congruence]. }
  split; [reflexivity |]. split; [congruence |]. split; [congruence | reflexivity].
Qed.

Context {RawMarket : Type}.
Variable feed : Feed RawMarket.
Variable fromisoformat : string -> result datetime.

Lemma alter_as_insert (f : CacheEntry -> CacheEntry) (key : string)
    (entry : CacheEntry) (cache : gmap string CacheEntry) :
  cache !! key = Some entry -> alter f key cache = <[key := f entry]> cache.
Proof.
  intros Hentry. apply map_eq. intros i.
  destruct (decide (i = key)) as [-> | Hne].
  - now rewrite lookup_alter_eq, lookup_insert_eq, Hentry.
  - now rewrite lookup_alter_ne, lookup_insert_ne by congruence.
Qed.

(** What a listing leaves in the cache under its key: on a hit the cache
    as it was, with the entry it had; on a miss the new list, stamped with
    the time of the store. *)
Lemma listing_entry (tradeable_only : bool) (the_limit : Z)
    (now utc_now utc_now' now' : Z) (cache cache' : gmap string CacheEntry)
    (markets_data : list MarketDict) :
  (if tradeable_only
   then get_tradeable_markets feed fromisoformat the_limit
          now utc_now utc_now' now' cache
   else PolymarketService.get_all_markets feed fromisoformat the_limit
          now utc_now now' cache)
  = (Ok (MarketsData markets_data), cache') ->
  let key := listing_key tradeable_only the_limit in
  exists entry,
    cache' !! key = Some entry
    /\ data entry = MarketsData markets_data
    /\ (_is_cache_valid cache now key = true ->
        cache' = cache /\ cache !! key = Some entry)
    /\ (_is_cache_valid cache now key = false ->
        timestamp entry = now' /\ cache' = <[key := entry]> cache).
Proof.
  unfold listing_key, get_tradeable_markets, PolymarketService.get_all_markets.
  destruct tradeable_only.
  - destruct (_is_cache_valid _ _ _).
    + unfold cached.
      destruct (cache !! _) as [entry |] eqn:Hentry; [| discriminate].
      intros [= Hdata <-]. exists entry.
      repeat split; (assumption || discriminate).
    + unfold bind, lift, _set_cache, ret.
      destruct (Polymarket.get_all_markets _ _ _) as [markets | e];
        [| discriminate].
      intros [= <- <-]. eexists.
      split; [apply lookup_insert_eq |].
      repeat split; discriminate || reflexivity.
  - destruct (_is_cache_valid _ _ _).
    + unfold cached.
      destruct (cache !! _) as [entry |] eqn:Hentry; [| discriminate].
      intros [= Hdata <-]. exists entry.
      repeat split; (assumption || discriminate).
    + unfold bind, lift, _set_cache, ret.
      destruct (Polymarket.get_all_markets _ _ _) as [markets | e];
        [| discriminate].
      intros [= <- <-]. eexists.
      split; [apply lookup_insert_eq |].
      repeat split; discriminate || reflexivity.
Qed.

(** Without a category and with [active_only] off, the markets endpoint
    sorts the list of the cache itself.  The listing returns a list and
    leaves an entry with that list under its key; the answer is that list
    in the order asked for; after the answer the cache is the one the
    listing left but for that entry, which holds the markets in the order
    of the answer and keeps its timestamp: the timestamp of the entry that
    was found valid, or the time of the store when the listing was
    fetched.  A listing that finds the entry valid returns the markets in
    the order of the answer. *)
Theorem get_markets_sorts_the_cache (the_limit : Z) (sort_by : string)
    (tradeable_only : bool) (now utc_now utc_now' now' : Z)
    (cache cache1 : gmap string CacheEntry) (body : Endpoints.MarketsResponse) :
  Endpoints.get_markets feed fromisoformat the_limit None false sort_by
    tradeable_only now utc_now utc_now' now' cache
  = (Endpoints.Http200 body, cache1) ->
  (exists (markets_data : list MarketDict) (cache' : gmap string CacheEntry)
          (entry : CacheEntry),
      (if tradeable_only
       then get_tradeable_markets feed fromisoformat the_limit
              now utc_now utc_now' now' cache
       else PolymarketService.get_all_markets feed fromisoformat the_limit
              now utc_now now' cache)
      = (Ok (MarketsData markets_data), cache')
      /\ cache' !! listing_key tradeable_only the_limit = Some entry
      /\ data entry = MarketsData markets_data
      /\ Endpoints.markets body
         = Endpoints.arrange_markets None false sort_by markets_data
      /\ cache1
         = <[listing_key tradeable_only the_limit :=
               {| data := MarketsData (Endpoints.markets body);
                  timestamp := timestamp entry |}]> cache'
      /\ cache1 !! listing_key tradeable_only the_limit
         = Some {| data := MarketsData (Endpoints.markets body);
                   timestamp := timestamp entry |}
      /\ (_is_cache_valid cache now (listing_key tradeable_only the_limit) = true ->
          cache' = cache
          /\ cache !! listing_key tradeable_only the_limit = Some entry)
      /\ (_is_cache_valid cache now (listing_key tradeable_only the_limit) = false ->
          timestamp entry = now'
          /\ cache' = <[listing_key tradeable_only the_limit := entry]> cache))
  /\ forall (feed2 : Feed RawMarket) (now2 utc_now2 utc_now2' now2' : Z),
       _is_cache_valid cache1 now2 (listing_key tradeable_only the_limit) = true ->
       (if tradeable_only
        then get_tradeable_markets feed2 fromisoformat the_limit
               now2 utc_now2 utc_now2' now2' cache1
        else PolymarketService.get_all_markets feed2 fromisoformat the_limit
               now2 utc_now2 now2' cache1)
       = (Ok (MarketsData (Endpoints.markets body)), cache1).
Proof.
  intros Hanswer.
  revert Hanswer. unfold Endpoints.get_markets.
  fold (listing_key tradeable_only the_limit).
  destruct (if tradeable_only then _ else _) as [listing cache'] eqn:Hlisting.
  destruct listing as [[markets_data | |] |]; try discriminate.
  intros [= <- <-]. simpl.
  destruct (listing_entry _ _ _ _ _ _ _ _ _ Hlisting)
    as (entry & He & Hdata & Hhit & Hmiss).
  assert (Hcache : Endpoints.sorted_in_place (listing_key tradeable_only the_limit)
                     (Endpoints.arrange_markets None false sort_by markets_data)
                     cache'
                   = <[listing_key tradeable_only the_limit :=
                         {| data := MarketsData
                                      (Endpoints.arrange_markets None false
                                         sort_by markets_data);
                            timestamp := timestamp entry |}]> cache').
  { unfold Endpoints.sorted_in_place.
    exact (alter_as_insert _ _ entry cache' He). }
  rewrite Hcache. split.
  - exists markets_data, cache', entry.
    split; [reflexivity |]. split; [exact He |]. split; [exact Hdata |].
    split; [reflexivity |]. split; [reflexivity |].
    split; [apply lookup_insert_eq |]. split; [exact Hhit | exact Hmiss].
  - intros feed2 now2 utc_now2 utc_now2' now2' Hvalid.
    unfold get_tradeable_markets, PolymarketService.get_all_markets, cached.
    fold (listing_key tradeable_only the_limit).
    destruct tradeable_only; simpl in *;
      now rewrite Hvalid, lookup_insert_eq.
Qed.

End markets_endpoint.

(** ** What an order asks of the venue *)

Section order_protocol.
Import Polymarket.
Local Open Scope Q_scope.

Variable self : Self.
Variable literal_eval : string -> result (list string).

Lemma world_eta (w : World) :
  w = {| gateway_log := (gateway_log w ++ [])%list;
         trader_dry_run := trader_dry_run w |}.
Proof. destruct w. simpl. now rewrite app_nil_r. Qed.

Lemma execute_market_order_calls (market : SimpleMarket) (amount : Q)
    (w : World) :
  exists calls token_id market_price signed_order,
    snd (execute_market_order self literal_eval market amount w)
    = {| gateway_log := (gateway_log w ++ calls)%list;
         trader_dry_run := trader_dry_run w |}
    /\ calls `prefix_of` order_calls token_id market_price signed_order
    /\ (forall r, fst (execute_market_order self literal_eval market amount w)
                  = Ok (Some r) ->
                  calls = order_calls token_id market_price signed_order)
    /\ (calls <> [] -> order_token literal_eval market = Ok token_id).
Proof.
  pose (nothing := {| token_id := ""; size := 0; Polymarket.price := 0;
                      side := "" |}).
  assert (Hnone : forall r : result (option OrderResult),
             (forall x, r <> Ok (Some x)) ->
             exists calls token_id market_price signed_order,
               snd (r, w)
               = {| gateway_log := (gateway_log w ++ calls)%list;
                    trader_dry_run := trader_dry_run w |}
               /\ calls `prefix_of` order_calls token_id market_price signed_order
               /\ (forall x, fst (r, w) = Ok (Some x) ->
                     calls = order_calls token_id market_price signed_order)
               /\ (calls <> [] -> order_token literal_eval market = Ok token_id)).
  { intros r Hr. exists [], "", 0, nothing. split; [apply world_eta |].
    split; [apply prefix_nil |]. split; [| congruence].
    intros x Hx. now apply Hr in Hx. }
  unfold execute_market_order, try_except, bind, lift, ret.
  destruct (literal_eval (clob_token_ids market)) as [token_ids | e] eqn:Hids;
    [| apply Hnone; discriminate].
  destruct (subscript token_ids _) as [token_id | e] eqn:Htoken;
    [| apply Hnone; discriminate].
  assert (Horder : order_token literal_eval market = Ok token_id).
  { unfold order_token. now rewrite Hids. }
  destruct (Qltb 0 (get_token_balance self token_id));
    [apply Hnone; discriminate |].
  destruct (client self) as [clob |]; [| apply Hnone; discriminate].
  unfold call.
  destruct (get_price clob token_id "SELL") as [market_price | e].
  2: { exists [GetPrice token_id "SELL"], token_id, 0, nothing.
       split; [reflexivity |]. split; [| split; [discriminate | trivial]].
       now exists (tl (order_calls token_id 0 nothing)). }
  destruct (get_order_book clob token_id) as [orderbook | e].
  2: { exists [GetPrice token_id "SELL"; GetOrderBook token_id],
         token_id, 0, nothing.
       split; [simpl; now rewrite <- !app_assoc |].
       split; [| split; [discriminate | trivial]].
       now exists (tl (tl (order_calls token_id 0 nothing))). }
  set (order_args := {| token_id := token_id; size := 5;
                        Polymarket.price := market_price; side := BUY |}).
  destruct (create_order clob order_args) as [signed_order | e].
  2: { exists [GetPrice token_id "SELL"; GetOrderBook token_id;
               CreateOrder order_args], token_id, market_price, nothing.
       split; [simpl; now rewrite <- !app_assoc |].
       split; [| split; [discriminate | trivial]].
       now exists [PostOrder nothing]. }
  exists (order_calls token_id market_price signed_order),
    token_id, market_price, signed_order.
  split; [| split; [reflexivity | split; [reflexivity | trivial]]].
  destruct (post_order clob signed_order) as [resp | e];
    [destruct (dry_run self) |]; simpl; now rewrite <- !app_assoc.
Qed.

(** The order step by step: what is returned and what the venue has
    received, by the first answer that is a failure. *)
Lemma execute_market_order_steps (market : SimpleMarket) (amount : Q)
    (w : World) :
  (forall e, order_token literal_eval market = Raise e ->
     execute_market_order self literal_eval market amount w = (Ok None, w))
  /\ (forall token_id, order_token literal_eval market = Ok token_id ->
      (0 < get_token_balance self token_id ->
       execute_market_order self literal_eval market amount w = (Ok None, w))
      /\ (get_token_balance self token_id <= 0 ->
          (client self = None ->
           execute_market_order self literal_eval market amount w
           = (Ok None, w))
          /\ (forall clob, client self = Some clob ->
              (forall e, get_price clob token_id "SELL" = Raise e ->
                 execute_market_order self literal_eval market amount w
                 = (Ok None, logged w [GetPrice token_id "SELL"]))
              /\ (forall market_price,
                    get_price clob token_id "SELL" = Ok market_price ->
                    let order_args :=
                      {| Polymarket.token_id := token_id; size := 5;
                         Polymarket.price := market_price; side := "BUY" |} in
                    (forall e, get_order_book clob token_id = Raise e ->
                       execute_market_order self literal_eval market amount w
                       = (Ok None,
                          logged w [GetPrice token_id "SELL";
                                    GetOrderBook token_id]))
                    /\ (forall orderbook,
                          get_order_book clob token_id = Ok orderbook ->
                          (forall e, create_order clob order_args = Raise e ->
                             execute_market_order self literal_eval market
                               amount w
                             = (Ok None,
                                logged w [GetPrice token_id "SELL";
                                          GetOrderBook token_id;
                                          CreateOrder order_args]))
                          /\ (forall signed_order,
                                create_order clob order_args = Ok signed_order ->
                                let calls :=
                                  [GetPrice token_id "SELL";
                                   GetOrderBook token_id;
                                   CreateOrder order_args;
                                   PostOrder signed_order] in
                                (forall e,
                                   post_order clob signed_order = Raise e ->
                                   execute_market_order self literal_eval
                                     market amount w
                                   = (Ok None, logged w calls))
                                /\ (forall resp,
                                      post_order clob signed_order = Ok resp ->
                                      execute_market_order self literal_eval
                                        market amount w
                                      = (Ok (Some (if dry_run self
                                                   then Simulated
                                                   else Posted resp)),
                                         logged w calls)))))))).
Proof.
  unfold order_token, execute_market_order, try_except, bind, lift, ret, call,
    logged, BUY.
  cbv zeta. split.
  - intros e.
    destruct (literal_eval (clob_token_ids market)) as [token_ids | e0];
      [| reflexivity].
    now intros ->.
  - intros token_id.
    destruct (literal_eval (clob_token_ids market)) as [token_ids | e0];
      [| discriminate].
    intros ->. split.
    + intros Hpos. apply Qltb_lt in Hpos. now rewrite Hpos.
    + intros Hzero. apply Qltb_ge in Hzero. rewrite Hzero. split.
      * now intros ->.
      * intros clob ->. split; [now intros e -> |].
        intros market_price ->. cbv zeta. simpl.
        split; [intros e ->; simpl; now rewrite <- !app_assoc |].
        intros orderbook ->. simpl.
        split; [intros e ->; simpl; now rewrite <- !app_assoc |].
        intros signed_order ->. cbv zeta. simpl.
        split; [intros e ->; simpl; now rewrite <- !app_assoc |].
        intros resp ->. simpl.
        destruct (dry_run self); simpl; now rewrite <- !app_assoc.
Qed.

(** Whatever the market, the amount and the answers of the chain and of
    the venue, [execute_market_order] returns and does not raise; it makes
    the calls of one order at most, in their order, stopping at the first
    that fails: the price of the token, the book, the creation of an order
    to buy five tokens at the price the venue has just answered, and the
    posting of the signed order that the creation answered.  No call is
    made when the token cannot be read, when the wallet holds the token or
    when there is no client.  The token is the one the attached trade
    designates; a result is reported only when the posting has answered,
    and it is that answer unless the client is in dry run; and the amount
    it is given has no part in it. *)
Theorem execute_market_order_protocol (market : SimpleMarket) (amount : Q)
    (w : World) :
  (exists calls token_id market_price signed_order,
      snd (execute_market_order self literal_eval market amount w)
      = {| gateway_log := (gateway_log w ++ calls)%list;
           trader_dry_run := trader_dry_run w |}
      /\ calls `prefix_of` order_calls token_id market_price signed_order
      /\ (forall r, fst (execute_market_order self literal_eval market amount w)
                    = Ok (Some r) ->
                    calls = order_calls token_id market_price signed_order)
      /\ (calls <> [] -> order_token literal_eval market = Ok token_id))
  /\ (exists r, fst (execute_market_order self literal_eval market amount w)
                = Ok r)
  /\ (forall amount',
       execute_market_order self literal_eval market amount' w
       = execute_market_order self literal_eval market amount w)
  /\ (forall e, order_token literal_eval market = Raise e ->
       execute_market_order self literal_eval market amount w = (Ok None, w))
  /\ (forall token_id, order_token literal_eval market = Ok token_id ->
      (0 < get_token_balance self token_id ->
       execute_market_order self literal_eval market amount w = (Ok None, w))
      /\ (get_token_balance self token_id <= 0 ->
          (client self = None ->
           execute_market_order self literal_eval market amount w
           = (Ok None, w))
          /\ (forall clob, client self = Some clob ->
              (forall e, get_price clob token_id "SELL" = Raise e ->
                 execute_market_order self literal_eval market amount w
                 = (Ok None, logged w [GetPrice token_id "SELL"]))
              /\ (forall market_price,
                    get_price clob token_id "SELL" = Ok market_price ->
                    let order_args :=
                      {| Polymarket.token_id := token_id; size := 5;
                         Polymarket.price := market_price; side := "BUY" |} in
                    (forall e, get_order_book clob token_id = Raise e ->
                       execute_market_order self literal_eval market amount w
                       = (Ok None,
                          logged w [GetPrice token_id "SELL";
                                    GetOrderBook token_id]))
                    /\ (forall orderbook,
                          get_order_book clob token_id = Ok orderbook ->
                          (forall e, create_order clob order_args = Raise e ->
                             execute_market_order self literal_eval market
                               amount w
                             = (Ok None,
                                logged w [GetPrice token_id "SELL";
                                          GetOrderBook token_id;
                                          CreateOrder order_args]))
                          /\ (forall signed_order,
                                create_order clob order_args = Ok signed_order ->
                                let calls :=
                                  [GetPrice token_id "SELL";
                                   GetOrderBook token_id;
                                   CreateOrder order_args;
                                   PostOrder signed_order] in
                                (forall e,
                                   post_order clob signed_order = Raise e ->
                                   execute_market_order self literal_eval
                                     market amount w
                                   = (Ok None, logged w calls))
                                /\ (forall resp,
                                      post_order clob signed_order = Ok resp ->
                                      execute_market_order self literal_eval
                                        market amount w
                                      = (Ok (Some (if dry_run self
                                                   then Simulated
                                                   else Posted resp)),
                                         logged w calls)))))))).
Proof.
  split; [apply execute_market_order_calls |].
  split; [apply execute_market_order_total |].
  split; [reflexivity |].
  apply execute_market_order_steps.
Qed.

End order_protocol.

(** ** The endpoints that look a market up *)

Section lookup_endpoints.
Import Polymarket PolymarketService.
Local Open Scope Q_scope.

Context {RawMarket : Type}.
Variable feed : Feed RawMarket.
Variable literal_eval : string -> result (list string).
Variable polymarket_client : Polymarket.Self.
Variable wallet : Endpoints.Wallet.

Lemma on_cache_lookup (market_id : string) (now now' : Z)
    (s : TradingService.ServiceState) :
  TradingService.on_cache (get_market_by_id feed market_id now now') s
  = (fst (get_market_by_id feed market_id now now' (TradingService.cache s)),
     {| TradingService.cache :=
          snd (get_market_by_id feed market_id now now' (TradingService.cache s));
        TradingService.world := TradingService.world s |}).
Proof.
  unfold TradingService.on_cache.
  now destruct (get_market_by_id feed market_id now now' (TradingService.cache s)).
Qed.

(** A lookup that fails is reported differently by the endpoints.  When
    the feed answers the lookup with a status other than 200, GET
    /markets/{id} and POST /trading/validate answer 404 and POST
    /trading/execute answers 400; when it answers 200 with no record, all
    three answer 500.  In both cases no call reaches the venue. *)
Theorem lookup_failure_statuses (market_id side : string) (amount : Q)
    (dry_run : bool) (now now' : Z) (s : TradingService.ServiceState)
    (res : Response RawMarket) :
  _is_cache_valid (TradingService.cache s) now ("market_" +:+ market_id) = false ->
  httpx_get feed (TokenQuery market_id) = Ok res ->
  (status_code res <> 200%Z ->
     fst (Endpoints.get_market feed market_id now now' (TradingService.cache s))
     = Endpoints.HttpError 404
     /\ fst (Endpoints.validate_trade feed wallet market_id amount now now'
               (TradingService.cache s))
        = Endpoints.HttpError 404
     /\ Endpoints.execute_trade feed literal_eval polymarket_client
          market_id side amount dry_run now now' s
        = (Endpoints.HttpError 400, s))
  /\ (status_code res = 200%Z -> json res = Ok [] ->
     fst (Endpoints.get_market feed market_id now now' (TradingService.cache s))
     = Endpoints.HttpError 500
     /\ fst (Endpoints.validate_trade feed wallet market_id amount now now'
               (TradingService.cache s))
        = Endpoints.HttpError 500
     /\ Endpoints.execute_trade feed literal_eval polymarket_client
          market_id side amount dry_run now now' s
        = (Endpoints.HttpError 500, s)).
Proof.
  intros Hmiss Hres. split.
  - intros Hstatus.
    assert (Hlookup : get_market_by_id feed market_id now now'
                        (TradingService.cache s)
                      = (Raise (ValueError ("Market " +:+ market_id +:+ " not found")),
                         TradingService.cache s)).
    { unfold get_market_by_id. rewrite Hmiss.
      unfold bind, lift, Polymarket.get_market. rewrite Hres.
      now destruct (Z.eqb_spec (status_code res) 200). }
    unfold Endpoints.get_market, Endpoints.validate_trade,
      Endpoints.execute_trade, TradingService.execute_trade, bind.
    rewrite on_cache_lookup, Hlookup. simpl. now destruct s.
  - intros Hstatus Hjson.
    assert (Hlookup : get_market_by_id feed market_id now now'
                        (TradingService.cache s)
                      = (Raise IndexError, TradingService.cache s)).
    { unfold get_market_by_id. rewrite Hmiss.
      unfold bind, lift, Polymarket.get_market.
      now rewrite Hres, Hstatus, Hjson. }
    unfold Endpoints.get_market, Endpoints.validate_trade,
      Endpoints.execute_trade, TradingService.execute_trade, bind.
    rewrite on_cache_lookup, Hlookup. simpl. now destruct s.
Qed.

(** A trade asked of POST /trading/execute as a dry run is never answered
    with 200: the dictionary of a simulated trade does not fit the
    response model, so that a lookup that succeeds ends in the status 400.
    The venue receives no call. *)
Theorem execute_trade_dry_run_refused (market_id side : string) (amount : Q)
    (now now' : Z) (s : TradingService.ServiceState) :
  let answered :=
    Endpoints.execute_trade feed literal_eval polymarket_client
      market_id side amount true now now' s in
  (forall body, fst answered <> Endpoints.Http200 body)
  /\ TradingService.world (snd answered) = TradingService.world s
  /\ (forall d, fst (get_market_by_id feed market_id now now'
                       (TradingService.cache s)) = Ok (MarketData d) ->
                fst answered = Endpoints.HttpError 400).
Proof.
  intros answered. subst answered.
  unfold Endpoints.execute_trade, TradingService.execute_trade, bind.
  rewrite on_cache_lookup.
  destruct (get_market_by_id feed market_id now now' (TradingService.cache s))
    as [[[l | d | l] | e] cache']; simpl.
  - repeat split; discriminate.
  - repeat split; discriminate || reflexivity.
  - repeat split; discriminate.
  - destruct e; repeat split; discriminate.
Qed.

(** When the lookup of the market succeeds, POST /trading/validate
    answers 200 with a validation that is valid exactly when it lists no
    error, that is when the market is active and funded and the amount is
    within the wallet's USDC balance; an amount below the market's minimum
    reward size only adds a warning; and a wallet whose balance cannot be
    read counts as empty, so that no positive amount is valid for it. *)
Theorem validate_trade_spec (market_id : string) (amount : Q) (now now' : Z)
    (cache cache' : gmap string CacheEntry) (d : MarketDict) :
  get_market_by_id feed market_id now now' cache = (Ok (MarketData d), cache') ->
  exists v,
    Endpoints.validate_trade feed wallet market_id amount now now' cache
    = (Endpoints.Http200 v, cache')
    /\ (Endpoints.valid v = true <-> Endpoints.errors v = [])
    /\ (Endpoints.valid v = true
        <-> active (market d) = true /\ funded (market d) = true
            /\ amount <= Endpoints.get_usdc_balance wallet)
    /\ (Endpoints.sufficient_balance v = true
        <-> amount <= Endpoints.get_usdc_balance wallet)
    /\ (Endpoints.warnings v = []
        <-> default 0 (rewardsMinSize (market d)) <= amount)
    /\ ((exists e, Endpoints.usdc_balanceOf wallet = Raise e) -> 0 < amount ->
        Endpoints.valid v = false).
Proof.
  clear literal_eval polymarket_client. intros Hlookup.
  exists (Endpoints.validate d (Endpoints.get_usdc_balance wallet) amount).
  split; [unfold Endpoints.validate_trade; now rewrite Hlookup |].
  assert (Hvalid : Endpoints.valid
                     (Endpoints.validate d (Endpoints.get_usdc_balance wallet) amount)
                   = true
                   <-> active (market d) = true /\ funded (market d) = true
                       /\ amount <= Endpoints.get_usdc_balance wallet).
  { unfold Endpoints.validate.
    destruct (active (market d)), (funded (market d));
      destruct (Qltb (Endpoints.get_usdc_balance wallet) amount) eqn:E; simpl;
      try (apply Qltb_lt in E); try (apply Qltb_ge in E);
      split; try discriminate; try tauto;
      intros (_ & _ & H); exfalso; eapply Qlt_not_le; eassumption. }
  split; [| split; [exact Hvalid | split; [| split]]].
  - unfold Endpoints.validate.
    destruct (active (market d)), (funded (market d)),
      (Qltb (Endpoints.get_usdc_balance wallet) amount); simpl;
      split; intros; (reflexivity || discriminate).
  - unfold Endpoints.validate.
    destruct (active (market d)), (funded (market d)),
      (Qltb (Endpoints.get_usdc_balance wallet) amount); simpl;
      apply Qle_bool_iff.
  - unfold Endpoints.validate.
    destruct (active (market d)), (funded (market d)),
      (Qltb (Endpoints.get_usdc_balance wallet) amount); simpl;
      destruct (Qltb amount (default 0 (rewardsMinSize (market d)))) eqn:E;
      try (apply Qltb_lt in E); try (apply Qltb_ge in E);
      split; try discriminate; try tauto;
      intros H; exfalso; eapply Qlt_not_le; eassumption.
  - intros [e He] Hpositive. apply Bool.not_true_iff_false. intros H.
    apply Hvalid in H as (_ & _ & H).
    assert (Hzero : Endpoints.get_usdc_balance wallet == 0).
    { unfold Endpoints.get_usdc_balance. rewrite He.
      destruct (Endpoints.wallet_address wallet) as [address |]; [| reflexivity].
      now destruct (String.eqb address ""). }
    rewrite Hzero in H. eapply Qlt_not_le; eassumption.
Qed.

End lookup_endpoints.

(** ** Trades of the service and of the cycle *)

Section trading_service.
Import Polymarket PolymarketService TradingService.
Local Open Scope Q_scope.

Context {RawMarket : Type}.
Variable feed : Feed RawMarket.
Variable literal_eval : string -> result (list string).

Lemma one_order_at_most_refl (w : World) : one_order_at_most w w.
Proof.
  exists [], "", 0,
    {| token_id := ""; size := 0; Polymarket.price := 0; side := "" |}.
  split; [apply world_eta | apply prefix_nil].
Qed.

Lemma execute_market_order_one_order (self : Self) (market : SimpleMarket)
    (amount : Q) (w : World) :
  one_order_at_most w (snd (execute_market_order self literal_eval market amount w)).
Proof.
  destruct (execute_market_order_calls self literal_eval market amount w)
    as (calls & token_id & market_price & signed_order & Hw & Hprefix & _).
  exists calls, token_id, market_price, signed_order. now split.
Qed.

(** [execute_trade] of the service.  As a dry run it makes no call to the
    venue.  Otherwise it makes the calls of one order at most, and neither
    the side nor the amount asked has a part in them: the order is for
    the second token of the market found, whatever the side. *)
Theorem execute_trade_order (polymarket_client : Self)
    (market_id side : string) (amount : Q) (now now' : Z) (s : ServiceState) :
  world (snd (execute_trade feed literal_eval polymarket_client
                market_id side amount true now now' s)) = world s
  /\ (forall side' amount',
        snd (execute_trade feed literal_eval polymarket_client
               market_id side' amount' false now now' s)
        = snd (execute_trade feed literal_eval polymarket_client
                 market_id side amount false now now' s))
  /\ exists calls token_id market_price signed_order,
       world (snd (execute_trade feed literal_eval polymarket_client
                     market_id side amount false now now' s))
       = {| gateway_log := (gateway_log (world s) ++ calls)%list;
            trader_dry_run := trader_dry_run (world s) |}
       /\ calls `prefix_of` order_calls token_id market_price signed_order
       /\ (calls <> [] ->
           exists d token_ids,
             fst (get_market_by_id feed market_id now now' (cache s))
             = Ok (MarketData d)
             /\ literal_eval (clob_token_ids (market d)) = Ok token_ids
             /\ nth_error token_ids 1 = Some token_id).
Proof.
  unfold execute_trade, bind. rewrite on_cache_lookup.
  destruct (get_market_by_id feed market_id now now' (cache s))
    as [[[l | d | l] | e] cache'] eqn:Hlookup; simpl.
  1, 3, 4:
    (split; [reflexivity |]; split; [reflexivity |];
     exists [], "", 0,
       {| token_id := ""; size := 0; Polymarket.price := 0; side := "" |};
     split; [apply world_eta |]; split; [apply prefix_nil | congruence]).
  split; [reflexivity |]. split.
  { intros side' amount'. unfold on_world. simpl.
    change (execute_market_order polymarket_client literal_eval
              (simple_market_of d) amount' (world s))
      with (execute_market_order polymarket_client literal_eval
              (simple_market_of d) amount (world s)).
    now destruct (execute_market_order polymarket_client literal_eval
                    (simple_market_of d) amount (world s)) as [[r | e] w']. }
  unfold on_world. simpl.
  destruct (execute_market_order_calls polymarket_client literal_eval
              (simple_market_of d) amount (world s))
    as (calls & token_id & market_price & signed_order
        & Hw & Hprefix & _ & Htoken).
  destruct (execute_market_order polymarket_client literal_eval
              (simple_market_of d) amount (world s)) as [r w'].
  simpl in Hw. subst w'. simpl.
  exists calls, token_id, market_price, signed_order.
  split; [now destruct r |]. split; [exact Hprefix |].
  intros Hcalls. specialize (Htoken Hcalls).
  unfold order_token in Htoken. simpl in Htoken.
  destruct (literal_eval (clob_token_ids (market d))) as [token_ids | e] eqn:Hids;
    [| discriminate].
  exists d, token_ids. split; [reflexivity |]. split; [exact Hids |].
  revert Htoken. unfold subscript. clear Hids.
  destruct token_ids as [| t0 [| t1 rest]]; simpl; congruence.
Qed.

Variable trader : Trader.

Lemma analyze_market_one_order (dry_run : bool)
    (market_tuple : SimpleMarket * Q) (w : World) :
  snd (analyze_market literal_eval trader dry_run market_tuple w) = w
  \/ (exists r, fst (analyze_market literal_eval trader dry_run market_tuple w)
                = Ok (Some r))
     /\ one_order_at_most w
          (snd (analyze_market literal_eval trader dry_run market_tuple w)).
Proof.
  unfold analyze_market.
  destruct (String.eqb _ _); [now left |].
  unfold bind, lift.
  destruct (source_best_trade trader market_tuple) as [[bt |] | e];
    [| now left | now left].
  destruct (price bt) as [p | e]; [| now left].
  destruct (edge bt) as [x | e]; [| now left].
  destruct dry_run; [now left |].
  right.
  pose proof (execute_market_order_one_order (polymarket trader)
                (fst market_tuple) 1 w) as Hone.
  destruct (execute_market_order_total (polymarket trader) literal_eval
              (fst market_tuple) 1 w) as [res Hres].
  destruct (execute_market_order _ _ _ _ w) as [[res' | e] w'']; simpl in *;
    [| discriminate].
  split; [eauto | exact Hone].
Qed.

Lemma analyze_markets_one_order (dry_run : bool) (n : nat)
    (filtered_markets : list (SimpleMarket * Q)) : forall w,
  one_order_at_most w
    (snd (analyze_markets literal_eval trader dry_run n filtered_markets w)).
Proof.
  induction filtered_markets as [| market_tuple rest IH]; intros w; simpl.
  - apply one_order_at_most_refl.
  - unfold bind, try_except.
    destruct (analyze_market_one_order dry_run market_tuple w)
      as [Hsame | [[r Hr] Hone]].
    + destruct (analyze_market literal_eval trader dry_run market_tuple w)
        as [[[r |] | e] w']; simpl in Hsame; subst w'; simpl.
      * apply one_order_at_most_refl.
      * apply IH.
      * apply IH.
    + destruct (analyze_market literal_eval trader dry_run market_tuple w)
        as [[[r' |] | e] w']; simpl in Hr, Hone; try discriminate.
      exact Hone.
Qed.

(** A cycle, live or not and whatever its collaborators answer, makes
    the calls of one order at most to the venue, and leaves the trader's
    [dry_run] flag as it found it, also when it ends by raising. *)
Theorem run_autonomous_trading_one_order (dry_run : bool) (w : World) :
  one_order_at_most w
    (snd (run_autonomous_trading feed literal_eval trader dry_run w))
  /\ trader_dry_run
       (snd (run_autonomous_trading feed literal_eval trader dry_run w))
     = trader_dry_run w.
Proof.
  assert (H : one_order_at_most w
                (snd (run_autonomous_trading feed literal_eval trader dry_run w))).
  { unfold run_autonomous_trading, try_finally.
    set (w0 := set_trader_dry_run dry_run w).
    match goal with
    | |- context [let (_, _) := ?c w0 in _] =>
        assert (Hone : one_order_at_most w0 (snd (c w0)));
          [| destruct (c w0) as [r w1]]
    end.
    - unfold bind, lift.
      destruct (pre_trade_logic trader); [| apply one_order_at_most_refl].
      destruct (high_quality_events _ _); [apply one_order_at_most_refl |].
      destruct (filter_events_with_rag trader _);
        [| apply one_order_at_most_refl].
      destruct (map_filtered_events_to_markets trader _);
        [| apply one_order_at_most_refl].
      destruct (filter_markets trader _); [| apply one_order_at_most_refl].
      apply analyze_markets_one_order.
    - simpl in *.
      destruct Hone as (calls & token_id & market_price & signed_order
                        & -> & Hprefix).
      exists calls, token_id, market_price, signed_order.
      split; [reflexivity | exact Hprefix]. }
  split; [exact H |].
  destruct H as (calls & token_id & market_price & signed_order & -> & _).
  reflexivity.
Qed.

End trading_service.

(** ** The quality gate of the cycle *)

Section quality_gate.
Import Polymarket TradingService.
Local Open Scope Q_scope.

Variable trader : Trader.

Lemma first_high_quality_found (market_ids : list string)
    (market_data : GammaMarket) :
  first_high_quality trader market_ids = Ok (Some market_data) ->
  high_quality market_data
  /\ exists market_id,
       In market_id market_ids /\ market_id <> ""
       /\ gamma_get_market trader market_id = Ok market_data.
Proof.
  induction market_ids as [| market_id rest IH]; simpl; [discriminate |].
  destruct (String.eqb_spec market_id "") as [_ | Hid].
  { intros H. destruct (IH H) as (Hq & id' & Hin & H'). split; [exact Hq |].
    exists id'. tauto. }
  destruct (gamma_get_market trader market_id) as [md | e] eqn:Hget;
    [| discriminate].
  destruct (volume md) as [v | e] eqn:Hv; [| discriminate].
  destruct (Qltb 10000 v || featured md) eqn:Hgate.
  - intros [= <-]. split.
    + exists v. split; [exact Hv |].
      apply Bool.orb_true_iff in Hgate as [H | H]; [left | now right].
      now apply Qltb_lt.
    + exists market_id. tauto.
  - intros H. destruct (IH H) as (Hq & id' & Hin & H'). split; [exact Hq |].
    exists id'. tauto.
Qed.

(** The events that pass the gate are events of the listing, in the order
    of the listing, each with the market data that let it pass: the data
    of one of its markets, whose volume is above 10000 or which is
    featured. *)
Theorem high_quality_events_gate (events : list SimpleEvent) :
  map fst (high_quality_events trader events) `sublist_of` events
  /\ forall event market_data,
       In (event, market_data) (high_quality_events trader events) ->
       In event events
       /\ high_quality market_data
       /\ exists market_id,
            In market_id (split_comma (markets event)) /\ market_id <> ""
            /\ gamma_get_market trader market_id = Ok market_data.
Proof.
  induction events as [| event rest [IHsub IHin]]; simpl.
  - split; [constructor | contradiction].
  - unfold process_event.
    destruct (first_high_quality trader (split_comma (markets event)))
      as [[md |] | e] eqn:Hfirst; simpl.
    + split; [now apply sublist_skip |].
      intros event0 md0 [[= <- <-] | Hin].
      * split; [now left |]. now apply first_high_quality_found.
      * destruct (IHin event0 md0 Hin) as (H1 & H2). split; [now right | exact H2].
    + split; [now apply sublist_cons |].
      intros event0 md0 Hin.
      destruct (IHin event0 md0 Hin) as (H1 & H2). split; [now right | exact H2].
    + split; [now apply sublist_cons |].
      intros event0 md0 Hin.
      destruct (IHin event0 md0 Hin) as (H1 & H2). split; [now right | exact H2].
Qed.

End quality_gate.

(** ** The environment of a user's client *)

Section user_client.
Import UserTradingService.
Local Open Scope Q_scope.

Lemma assigned_lookup_notin (vars : list (string * option string)) (i : string) :
  forall environ : gmap string string,
  i ∉ map fst vars -> assigned vars environ !! i = environ !! i.
Proof.
  unfold assigned.
  induction vars as [| [key value] rest IH]; intros environ Hi; simpl;
    [reflexivity |].
  simpl in Hi. apply not_elem_of_cons in Hi as [Hne Hi].
  rewrite IH by exact Hi. now apply lookup_insert_ne.
Qed.

Lemma assigned_lookup_in (vars : list (string * option string)) :
  forall (environ : gmap string string) (key : string) (value : option string),
  NoDup (map fst vars) -> In (key, value) vars ->
  assigned vars environ !! key = Some (default "" value).
Proof.
  induction vars as [| [key0 value0] rest IH];
    intros environ key value Hnodup Hin; simpl; [contradiction |].
  simpl in Hnodup. apply NoDup_cons in Hnodup as [Hfresh Hnodup].
  destruct Hin as [[= -> ->] | Hin].
  - change (assigned rest (<[key := default "" value]> environ) !! key
            = Some (default "" value)).
    rewrite assigned_lookup_notin by exact Hfresh. apply lookup_insert_eq.
  - now apply IH.
Qed.

(** The loop when no value has a null byte: every variable is backed up
    and set. *)
Lemma backup_and_set_spec (vars : list (string * option string)) :
  forall (original_env : list (string * option string))
         (environ : gmap string string),
  NoDup (map fst vars) ->
  Forall (fun var => has_null (default "" (snd var)) = false) vars ->
  backup_and_set vars original_env environ
  = (Ok (original_env ++ map (fun var => (fst var, environ !! fst var)) vars)%list,
     assigned vars environ).
Proof.
  induction vars as [| [key value] rest IH];
    intros original_env environ Hnodup Hvalues; simpl.
  - now rewrite app_nil_r.
  - apply NoDup_cons in Hnodup as [Hfresh Hnodup].
    apply Forall_cons in Hvalues as [Hvalue Hvalues]. simpl in Hvalue.
    unfold bind, setenv. rewrite Hvalue.
    rewrite IH by assumption. rewrite <- app_assoc. simpl.
    f_equal. f_equal. f_equal. f_equal.
    apply map_ext_in. intros [key' value'] Hin. simpl.
    rewrite lookup_insert_ne; [reflexivity |].
    intros ->. apply Hfresh. apply list_elem_of_In.
    apply in_map_iff. now exists (key', value').
Qed.

(** The loop when a value has a null byte: it raises at the first such
    value, with the variables before it set. *)
Lemma backup_and_set_raises (before : list (string * option string)) :
  forall (key : string) (value : option string)
         (after original_env : list (string * option string))
         (environ : gmap string string),
  Forall (fun var => has_null (default "" (snd var)) = false) before ->
  has_null (default "" value) = true ->
  backup_and_set (before ++ (key, value) :: after) original_env environ
  = (Raise (ValueError "embedded null byte"), assigned before environ).
Proof.
  induction before as [| [key0 value0] rest IH];
    intros key value after original_env environ Hbefore Hvalue; simpl.
  - unfold bind, setenv. now rewrite Hvalue.
  - apply Forall_cons in Hbefore as [Hvalue0 Hbefore]. simpl in Hvalue0.
    unfold bind, setenv. rewrite Hvalue0. now apply IH.
Qed.

Lemma restore_lookup_notin (original_env : list (string * option string))
    (i : string) :
  forall environ : gmap string string,
  i ∉ map fst original_env ->
  snd (restore original_env environ) !! i = environ !! i.
Proof.
  induction original_env as [| [key [value |]] rest IH]; intros environ Hi;
    simpl; [reflexivity | |];
    simpl in Hi; apply not_elem_of_cons in Hi as [Hne Hi].
  - unfold bind, setenv. destruct (has_null value); [reflexivity |].
    rewrite IH by exact Hi. now apply lookup_insert_ne.
  - rewrite IH by exact Hi. now apply lookup_delete_ne.
Qed.

(** Restoring a backup taken from a valid environment does not raise,
    and gives every backed-up variable the value it had. *)
Lemma restore_backup (keys : list string) (initial : gmap string string) :
  environ_valid initial -> NoDup keys ->
  forall environ : gmap string string,
  fst (restore (map (fun key => (key, initial !! key)) keys) environ) = Ok tt
  /\ forall i, i ∈ keys ->
       snd (restore (map (fun key => (key, initial !! key)) keys) environ) !! i
       = initial !! i.
Proof.
  intros Hvalid.
  induction keys as [| key rest IH]; intros Hnodup environ.
  { split; [reflexivity |]. intros i Hi. now apply elem_of_nil in Hi. }
  apply NoDup_cons in Hnodup as [Hfresh Hnodup].
  assert (Hkeys : map fst (map (fun key => (key, initial !! key)) rest) = rest).
  { rewrite map_map. simpl. apply map_id. }
  simpl. destruct (initial !! key) as [value |] eqn:Hinitial.
  - unfold bind, setenv. rewrite (Hvalid key value Hinitial).
    destruct (IH Hnodup (<[key := value]> environ)) as [Hok Hin].
    split; [exact Hok |].
    intros i Hi. apply elem_of_cons in Hi as [-> | Hi]; [| now apply Hin].
    rewrite restore_lookup_notin by now rewrite Hkeys.
    rewrite Hinitial. apply lookup_insert_eq.
  - destruct (IH Hnodup (delete key environ)) as [Hok Hin].
    split; [exact Hok |].
    intros i Hi. apply elem_of_cons in Hi as [-> | Hi]; [| now apply Hin].
    rewrite restore_lookup_notin by now rewrite Hkeys.
    rewrite Hinitial. apply lookup_delete_eq.
Qed.

Lemma restore_after_set (vars : list (string * option string))
    (environ : gmap string string) :
  environ_valid environ -> NoDup (map fst vars) ->
  restore (map (fun var => (fst var, environ !! fst var)) vars)
    (assigned vars environ)
  = (Ok tt, environ).
Proof.
  intros Hvalid Hnodup.
  assert (Hbackup : map (fun var : string * option string =>
                           (fst var, environ !! fst var)) vars
                    = map (fun key => (key, environ !! key)) (map fst vars))
    by now rewrite map_map.
  rewrite Hbackup.
  destruct (restore_backup (map fst vars) environ Hvalid Hnodup
              (assigned vars environ)) as [Hok Hin].
  destruct (restore _ _) as [r environ'] eqn:Hrestore. simpl in *.
  subst r. f_equal. apply map_eq. intros i.
  destruct (decide (i ∈ map fst vars)) as [Hi | Hout].
  - now apply Hin.
  - pose proof (restore_lookup_notin
                  (map (fun key => (key, environ !! key)) (map fst vars)) i
                  (assigned vars environ)) as Hnotin.
    rewrite Hrestore in Hnotin. simpl in Hnotin. rewrite Hnotin.
    + now apply assigned_lookup_notin.
    + rewrite map_map. simpl. now rewrite map_id.
Qed.

Lemma user_env_vars_NoDup (c : WalletConfig) : NoDup (map fst (user_env_vars c)).
Proof. simpl. apply (bool_decide_unpack _). reflexivity. Qed.

Lemma NoDup_app_l (before after : list string) :
  NoDup (before ++ after) -> NoDup before.
Proof. intros H. now apply NoDup_app in H as [H _]. Qed.

(** When none of the user's values has a null byte and the environment
    is valid, [_create_user_polymarket_client] builds the client in an
    environment where the five variables hold the user's values (the empty
    string for a value that is missing) and every other variable is as it
    was, and leaves the environment exactly as it found it, whether the
    client is built or the construction raises.  When one of the values
    has a null byte, the assignment of the first such value raises
    [ValueError] before the [try] is entered: the client is not
    constructed, and the environment is left with the variables before
    that one holding the user's values, not restored, and every other
    variable as it was. *)
Theorem create_user_client_environment {P : Type} (c : WalletConfig)
    (construct : gmap string string -> result P) (environ : gmap string string) :
  (environ_valid environ ->
   Forall (fun var => has_null (default "" (snd var)) = false)
     (user_env_vars c) ->
   _create_user_polymarket_client c construct environ
   = (construct (assigned (user_env_vars c) environ), environ)
   /\ (forall key value, In (key, value) (user_env_vars c) ->
         assigned (user_env_vars c) environ !! key = Some (default "" value))
   /\ (forall key, key ∉ map fst (user_env_vars c) ->
         assigned (user_env_vars c) environ !! key = environ !! key))
  /\ (forall before key value after,
        user_env_vars c = (before ++ (key, value) :: after)%list ->
        Forall (fun var => has_null (default "" (snd var)) = false) before ->
        has_null (default "" value) = true ->
        _create_user_polymarket_client c construct environ
        = (Raise (ValueError "embedded null byte"), assigned before environ)
        /\ (forall key' value', In (key', value') before ->
              assigned before environ !! key' = Some (default "" value'))
        /\ (forall key', key' ∉ map fst before ->
              assigned before environ !! key' = environ !! key')).
Proof.
  pose proof (user_env_vars_NoDup c) as Hnodup.
  unfold _create_user_polymarket_client, bind.
  split.
  - intros Hvalid Hvalues.
    rewrite backup_and_set_spec by assumption.
    rewrite app_nil_l, restore_after_set by assumption.
    split; [reflexivity |]. split.
    + intros key value Hin. now apply assigned_lookup_in.
    + intros key Hout. now apply assigned_lookup_notin.
  - intros before key value after Hvars Hbefore Hvalue.
    rewrite Hvars in *. rewrite backup_and_set_raises by assumption.
    split; [reflexivity |]. split.
    + intros key' value' Hin. apply assigned_lookup_in; [| exact Hin].
      rewrite map_app in Hnodup. now apply NoDup_app_l in Hnodup.
    + intros key' Hout. now apply assigned_lookup_notin.
Qed.


End user_client.

(** ** The further properties on their inputs *)

Section further_instances.
Import Polymarket PolymarketService TradingService.
Local Open Scope Q_scope.

(** The three markets of the scenario are few enough to be all kept. *)
Lemma filter_markets_for_trading_keeps_all_witness :
  filter_markets_for_trading fromisoformat_days 0
    [scenario_a; scenario_b; scenario_c]
  = map fst (sort_by_score
               (score_markets fromisoformat_days 0
                  [scenario_a; scenario_b; scenario_c]))
  /\ Permutation
       (filter_markets_for_trading fromisoformat_days 0
          [scenario_a; scenario_b; scenario_c])
       (List.filter active [scenario_a; scenario_b; scenario_c]).
Proof.
  apply (filter_markets_for_trading_keeps_all fromisoformat_days 0
           [scenario_a; scenario_b; scenario_c]).
  - simpl. lia.
  - intros c. etransitivity; [apply category_count_le_length |].
    simpl. lia.
Defined.

Lemma get_tradeable_markets_miss_witness :
  exists tradeable : list SimpleMarket,
    get_tradeable_markets feed_of_scenarios fromisoformat_days 10 0 0 0 0 ∅
    = (Ok (MarketsData (map market_dict tradeable)),
       <["tradeable_markets_" +:+ pretty 10%Z :=
           {| data := MarketsData (map market_dict tradeable);
              timestamp := 0 |}]> ∅)
    /\ (List.length tradeable <= 50)%nat
    /\ ((0 <= 10)%Z -> (Z.of_nat (List.length tradeable) <= 10)%Z)
    /\ (forall c, (category_count c tradeable <= 8)%nat)
    /\ (forall m, In m tradeable ->
                  In m [scenario_a; scenario_b; scenario_c] /\ active m = true)
    /\ StronglySorted (fun a b => spread b <= spread a) tradeable.
Proof.
  apply (get_tradeable_markets_miss feed_of_scenarios fromisoformat_days
           10 0 0 0 0 ∅ [scenario_a; scenario_b; scenario_c]);
    reflexivity.
Defined.

Lemma get_all_markets_contents_witness :
  exists markets,
    Polymarket.get_all_markets feed_of_scenarios fromisoformat_days 0 = Ok markets
    /\ (forall m, In m markets
                  <-> (exists market,
                          In market [scenario_a; scenario_b; scenario_c]
                          /\ read_market feed_of_scenarios market = Ok m)
                      /\ ~ known_expired fromisoformat_days 0 m)
    /\ markets `sublist_of`
       omap (fun market => match read_market feed_of_scenarios market with
                           | Ok m => Some m
                           | Raise _ => None
                           end) [scenario_a; scenario_b; scenario_c].
Proof.
  apply (get_all_markets_contents feed_of_scenarios fromisoformat_days 0
           {| status_code := 200;
              json := Ok [scenario_a; scenario_b; scenario_c] |}
           [scenario_a; scenario_b; scenario_c]);
    reflexivity.
Defined.

Lemma get_all_events_provenance_witness :
  exists res records market v,
    httpx_get feed_of_scenarios EventsQuery = Ok res
    /\ status_code res = 200%Z
    /\ json res = Ok records
    /\ In market records
    /\ volume_of feed_of_scenarios market = Ok v /\ 10000 < v
    /\ event_of feed_of_scenarios market = Ok scenario_event.
Proof.
  apply (get_all_events_provenance feed_of_scenarios scenario_event).
  vm_compute. right. right. left. reflexivity.
Defined.

Lemma get_all_events_all_or_nothing_witness :
  Polymarket.get_all_events feed_with_bad_volume = [].
Proof.
  apply (get_all_events_all_or_nothing feed_with_bad_volume
           {| status_code := 200; json := Ok ["1"; "x"] |} ["1"; "x"] "x"
           (ValueError "could not convert string to float"));
    [reflexivity | reflexivity | simpl; auto | reflexivity].
Defined.

Lemma set_cache_round_trip_witness :
  let cache1 := snd (_set_cache "all_events_20" (EventsData []) 0 ∅) in
  _is_cache_valid cache1 30000000 "all_events_20" = true
  /\ cached "all_events_20" cache1 = (Ok (EventsData []), cache1)
  /\ forall key', key' <> "all_events_20" ->
       cache1 !! key' = (∅ : gmap string CacheEntry) !! key'
       /\ _is_cache_valid cache1 30000000 key' = _is_cache_valid ∅ 30000000 key'.
Proof.
  apply (set_cache_round_trip "all_events_20" (EventsData []) 0 30000000 ∅).
  unfold cache_timeout. lia.
Defined.

Lemma get_market_by_id_found_witness :
  let found := market_dict (set_clob_token_ids "7" scenario_a) in
  let cache1 :=
    <["market_" +:+ "7" := {| data := MarketData found; timestamp := 5 |}]>
      (∅ : gmap string CacheEntry) in
  get_market_by_id feed_of_scenarios "7" 0 5 ∅ = (Ok (MarketData found), cache1)
  /\ clob_token_ids (market found) = "7"
  /\ category found = detect_category (question scenario_a)
  /\ forall (feed2 : Feed SimpleMarket) (now2 now2' : Z),
       (0 <= now2 - 5 < cache_timeout * 1000000)%Z ->
       get_market_by_id feed2 "7" now2 now2' cache1
       = (Ok (MarketData found), cache1).
Proof.
  apply (get_market_by_id_found feed_of_scenarios "7" 0 5 ∅
           {| status_code := 200;
              json := Ok [scenario_a; scenario_b; scenario_c] |}
           scenario_a [scenario_b; scenario_c] scenario_a);
    try reflexivity.
  discriminate.
Defined.

Lemma lookup_failure_statuses_witness :
  (status_code {| status_code := 404; json := Ok ([] : list string) |} <> 200%Z ->
     fst (Endpoints.get_market feed_not_found "42" 0 0 (cache a_service))
     = Endpoints.HttpError 404
     /\ fst (Endpoints.validate_trade feed_not_found a_usdc_wallet "42" 10 0 0
               (cache a_service))
        = Endpoints.HttpError 404
     /\ Endpoints.execute_trade feed_not_found literal_eval_ids (a_wallet false)
          "42" "BUY" 10 false 0 0 a_service
        = (Endpoints.HttpError 400, a_service))
  /\ (status_code {| status_code := 404; json := Ok ([] : list string) |} = 200%Z ->
      json {| status_code := 404; json := Ok ([] : list string) |} = Ok [] ->
     fst (Endpoints.get_market feed_not_found "42" 0 0 (cache a_service))
     = Endpoints.HttpError 500
     /\ fst (Endpoints.validate_trade feed_not_found a_usdc_wallet "42" 10 0 0
               (cache a_service))
        = Endpoints.HttpError 500
     /\ Endpoints.execute_trade feed_not_found literal_eval_ids (a_wallet false)
          "42" "BUY" 10 false 0 0 a_service
        = (Endpoints.HttpError 500, a_service)).
Proof.
  apply (lookup_failure_statuses feed_not_found literal_eval_ids (a_wallet false)
           a_usdc_wallet "42" "BUY" 10 false 0 0 a_service
           {| status_code := 404; json := Ok [] |});
    reflexivity.
Defined.

Lemma validate_trade_spec_witness :
  exists v,
    Endpoints.validate_trade feed_of_scenarios a_usdc_wallet "7" 10 0 5 ∅
    = (Endpoints.Http200 v,
       <["market_" +:+ "7" :=
           {| data := MarketData (market_dict (set_clob_token_ids "7" scenario_a));
              timestamp := 5 |}]> ∅)
    /\ (Endpoints.valid v = true <-> Endpoints.errors v = [])
    /\ (Endpoints.valid v = true
        <-> active (market (market_dict (set_clob_token_ids "7" scenario_a))) = true
            /\ funded (market (market_dict (set_clob_token_ids "7" scenario_a)))
               = true
            /\ 10 <= Endpoints.get_usdc_balance a_usdc_wallet)
    /\ (Endpoints.sufficient_balance v = true
        <-> 10 <= Endpoints.get_usdc_balance a_usdc_wallet)
    /\ (Endpoints.warnings v = []
        <-> default 0
              (rewardsMinSize
                 (market (market_dict (set_clob_token_ids "7" scenario_a))))
            <= 10)
    /\ ((exists e, Endpoints.usdc_balanceOf a_usdc_wallet = Raise e) -> 0 < 10 ->
        Endpoints.valid v = false).
Proof.
  apply (validate_trade_spec feed_of_scenarios a_usdc_wallet "7" 10 0 5 ∅
           (<["market_" +:+ "7" :=
                {| data := MarketData
                             (market_dict (set_clob_token_ids "7" scenario_a));
                   timestamp := 5 |}]> ∅)
           (market_dict (set_clob_token_ids "7" scenario_a))).
  reflexivity.
Defined.

(** The listing of the scenario, asked for without a filter and sorted by
    spread at time 7 on an empty cache: C comes first in the answer and in
    the cache, under the timestamp 7 of the store. *)
Lemma get_markets_sorts_the_cache_witness :
  let cache1 :=
    snd (Endpoints.get_markets feed_of_scenarios fromisoformat_days 10 None
           false "spread" false 0 0 0 7 ∅) in
  let sorted := map market_dict [scenario_c; scenario_a; scenario_b] in
  cache1 !! listing_key false 10
  = Some {| data := MarketsData sorted; timestamp := 7 |}
  /\ forall (feed2 : Feed SimpleMarket) (now2 utc_now2 utc_now2' now2' : Z),
       _is_cache_valid cache1 now2 (listing_key false 10) = true ->
       PolymarketService.get_all_markets feed2 fromisoformat_days 10
         now2 utc_now2 now2' cache1
       = (Ok (MarketsData sorted), cache1).
Proof.
  intros cache1 sorted.
  destruct (get_markets_sorts_the_cache feed_of_scenarios fromisoformat_days 10
              "spread" false 0 0 0 7 ∅ cache1
              {| Endpoints.markets := sorted;
                 Endpoints.total := 3; Endpoints.limit := 10 |})
    as [(markets_data & cache' & entry & _ & _ & _ & _ & _ & Hentry & _ & Hmiss)
        Hnext].
  { vm_compute. reflexivity. }
  split; [| exact Hnext].
  destruct Hmiss as [Hstamp _]; [reflexivity |].
  rewrite Hentry. simpl. now rewrite Hstamp.
Defined.

(** A secret with a null byte: the client is not constructed, the
    private key and the API key of the user stay in the environment (the
    API key of the server is lost), and the variables after the secret are
    as they were. *)
Lemma create_user_client_environment_witness :
  let left := snd (UserTradingService._create_user_polymarket_client
                     a_wallet_config construct_key an_environ) in
  fst (UserTradingService._create_user_polymarket_client
         a_wallet_config construct_key an_environ)
  = Raise (ValueError "embedded null byte")
  /\ left !! "POLYGON_WALLET_PRIVATE_KEY" = Some "0xkey"
  /\ left !! "CLOB_API_KEY" = Some ""
  /\ an_environ !! "POLYGON_WALLET_PRIVATE_KEY" = None
  /\ an_environ !! "CLOB_API_KEY" = Some "server key"
  /\ left !! "CLOB_PASS_PHRASE" = None
  /\ UserTradingService._create_user_polymarket_client
       a_sound_wallet_config construct_key an_environ
     = (Ok "0xkey", an_environ).
Proof.
  destruct (create_user_client_environment a_wallet_config construct_key
              an_environ) as [_ Hraise].
  destruct (Hraise [("POLYGON_WALLET_PRIVATE_KEY", Some "0xkey");
                    ("CLOB_API_KEY", None)]
              "CLOB_SECRET" (Some (String "000"%char "secret"))
              [("CLOB_PASS_PHRASE", Some "pass"); ("DRY_RUN", Some "true")])
    as (Hrun & Hset & Hrest); [reflexivity | | reflexivity |].
  { repeat constructor. }
  destruct (create_user_client_environment a_sound_wallet_config construct_key
              an_environ) as [Hsound _].
  destruct Hsound as (Hrun' & _ & _).
  { intros key value Hkey.
    destruct (decide (key = "CLOB_API_KEY")) as [-> | Hne].
    - unfold an_environ in Hkey. rewrite lookup_insert_eq in Hkey.
      now injection Hkey as <-.
    - unfold an_environ in Hkey. rewrite lookup_insert_ne in Hkey by congruence.
      destruct (decide (key = "PATH")) as [-> | Hne'].
      + rewrite lookup_insert_eq in Hkey. now injection Hkey as <-.
      + rewrite lookup_insert_ne in Hkey by congruence.
        now rewrite lookup_empty in Hkey. }
  { repeat constructor. }
  cbv zeta. rewrite Hrun, Hrun'. simpl.
  split; [reflexivity |].
  split; [apply (Hset _ (Some "0xkey")); now left |].
  split; [apply (Hset _ None); right; now left |].
  split; [reflexivity |]. split; [reflexivity |].
  split; [| reflexivity].
  rewrite Hrest; [reflexivity |].
  apply (bool_decide_unpack _). reflexivity.
Defined.

End further_instances.
